(** * Telnet console driver (drivers/console/telnet_console.c)

    A shallow embedding of the line ring buffer, the printk hook that fills
    it, the sender that drains it, the idle-flush timer, the inbound line
    framer and the session teardown, followed by the properties established
    about them.

    Conventions.  A [uint16_t] is a [Z] reduced modulo 2^16 after every
    increment; a [char] is a [Z] in [0, 256).  A C array is a [list]; an
    access outside its bounds is undefined behaviour in C and is modelled by
    [None], so every function that touches an array returns an [option].
    The globals of the translation unit are the fields of the record
    [telnet]; the state kept by the kernel and the network stack on behalf
    of the driver (semaphore count, timer, installed printk hook, bytes put
    on the wire, released buffers) is carried by the same record. *)

From Stdlib Require Import ZArith Lia.
From stdpp Require Import base tactics option list.

Local Open Scope Z_scope.

(** ** Machine integers and characters *)

Definition uint16 (x : Z) : Z := x mod 65536.
Definition to_char (c : Z) : Z := c mod 256.

Definition LF : Z := 10.
Definition CR : Z := 13.
Definition NUL : Z := 0.
Definition IAC : Z := 255.

(** [#define TELNET_MIN_MSG 2] *)
Definition TELNET_MIN_MSG : Z := 2.

(** [UINT_MAX], the limit given to [K_SEM_DEFINE(send_lock, 0, UINT_MAX)]. *)
Definition UINT_MAX : Z := 4294967295.

(** ** C arrays *)

Definition arr_get {A} (i : Z) (a : list A) : option A :=
  if decide (0 ≤ i) then a !! Z.to_nat i else None.

Definition arr_set {A} (i : Z) (x : A) (a : list A) : option (list A) :=
  if decide (0 ≤ i < Z.of_nat (length a)) then Some (<[Z.to_nat i := x]> a)
  else None.

(** ** Data model *)

(** [struct line_buf { char buf[TELNET_LINE_SIZE]; uint16_t len; }] *)
Record line_buf := LineBuf { buf : list Z; len : Z }.

(** [struct line_buf_rb] *)
Record line_buf_rb := LineBufRb {
  l_bufs : list line_buf;
  line_in : Z;
  line_out : Z
}.

(** A received [struct net_buf]: its handle and the bytes of its fragment
    chain, protocol headers first, application data last. *)
Record net_buf := NetBuf {
  nb_id : Z;
  nb_hdr : list Z;
  nb_appdata : list Z
}.

(** A function that can be installed as the printk hook. *)
Inductive printk_fn :=
| fn_telnet_console_out
| fn_console (id : Z).

(** The file-scope variables of the driver, then the collaborator state. *)
Record telnet := Telnet {
  telnet_rb : line_buf_rb;
  client_cnx : option Z;              (* struct net_context *, None = NULL *)
  out_buf : option Z;                 (* struct net_buf *, None = NULL *)
  orig_printk_hook : option printk_fn;
  avail_queue : option (list (list Z));  (* k_fifo of free console_input *)
  input_queue : option (list (list Z));  (* k_fifo of framed lines *)
  send_lock : Z;                      (* count of the semaphore *)
  send_timer : bool;                  (* the periodic timer is running *)
  printk_hook : option printk_fn;     (* hook currently installed in printk *)
  wire : list (list Z);               (* lines handed to the transport sender *)
  unrefs : list Z;                    (* arguments of net_buf_unref *)
  puts : list (option Z)              (* arguments of net_context_put *)
}.

Definition set_telnet_rb (rb : line_buf_rb) (st : telnet) : telnet :=
  Telnet rb (client_cnx st) (out_buf st) (orig_printk_hook st)
    (avail_queue st) (input_queue st) (send_lock st) (send_timer st)
    (printk_hook st) (wire st) (unrefs st) (puts st).

Definition set_client_cnx (c : option Z) (st : telnet) : telnet :=
  Telnet (telnet_rb st) c (out_buf st) (orig_printk_hook st)
    (avail_queue st) (input_queue st) (send_lock st) (send_timer st)
    (printk_hook st) (wire st) (unrefs st) (puts st).

Definition set_out_buf (b : option Z) (st : telnet) : telnet :=
  Telnet (telnet_rb st) (client_cnx st) b (orig_printk_hook st)
    (avail_queue st) (input_queue st) (send_lock st) (send_timer st)
    (printk_hook st) (wire st) (unrefs st) (puts st).

Definition set_orig_printk_hook (h : option printk_fn) (st : telnet) : telnet :=
  Telnet (telnet_rb st) (client_cnx st) (out_buf st) h
    (avail_queue st) (input_queue st) (send_lock st) (send_timer st)
    (printk_hook st) (wire st) (unrefs st) (puts st).

Definition set_avail_queue (q : option (list (list Z))) (st : telnet) : telnet :=
  Telnet (telnet_rb st) (client_cnx st) (out_buf st) (orig_printk_hook st)
    q (input_queue st) (send_lock st) (send_timer st)
    (printk_hook st) (wire st) (unrefs st) (puts st).

Definition set_input_queue (q : option (list (list Z))) (st : telnet) : telnet :=
  Telnet (telnet_rb st) (client_cnx st) (out_buf st) (orig_printk_hook st)
    (avail_queue st) q (send_lock st) (send_timer st)
    (printk_hook st) (wire st) (unrefs st) (puts st).

Definition set_send_lock (n : Z) (st : telnet) : telnet :=
  Telnet (telnet_rb st) (client_cnx st) (out_buf st) (orig_printk_hook st)
    (avail_queue st) (input_queue st) n (send_timer st)
    (printk_hook st) (wire st) (unrefs st) (puts st).

Definition set_send_timer (b : bool) (st : telnet) : telnet :=
  Telnet (telnet_rb st) (client_cnx st) (out_buf st) (orig_printk_hook st)
    (avail_queue st) (input_queue st) (send_lock st) b
    (printk_hook st) (wire st) (unrefs st) (puts st).

Definition set_printk_hook (h : option printk_fn) (st : telnet) : telnet :=
  Telnet (telnet_rb st) (client_cnx st) (out_buf st) (orig_printk_hook st)
    (avail_queue st) (input_queue st) (send_lock st) (send_timer st)
    h (wire st) (unrefs st) (puts st).

Definition set_wire (w : list (list Z)) (st : telnet) : telnet :=
  Telnet (telnet_rb st) (client_cnx st) (out_buf st) (orig_printk_hook st)
    (avail_queue st) (input_queue st) (send_lock st) (send_timer st)
    (printk_hook st) w (unrefs st) (puts st).

Definition set_unrefs (u : list Z) (st : telnet) : telnet :=
  Telnet (telnet_rb st) (client_cnx st) (out_buf st) (orig_printk_hook st)
    (avail_queue st) (input_queue st) (send_lock st) (send_timer st)
    (printk_hook st) (wire st) u (puts st).

Definition set_puts (p : list (option Z)) (st : telnet) : telnet :=
  Telnet (telnet_rb st) (client_cnx st) (out_buf st) (orig_printk_hook st)
    (avail_queue st) (input_queue st) (send_lock st) (send_timer st)
    (printk_hook st) (wire st) (unrefs st) p.

(** ** Collaborators: kernel and network stack *)

(** Modelled from the spec: [k_sem_give] of the kernel, whose code is not
    part of the driver.  The wake primitive is "a counting event, not a
    single-slot flag"; the count saturates at the limit the semaphore was
    defined with. *)
Definition k_sem_give (st : telnet) : telnet :=
  if decide (send_lock st < UINT_MAX) then set_send_lock (send_lock st + 1) st
  else st.

(** Modelled from the spec: [k_timer_start] and [k_timer_stop] of the
    kernel; only whether the periodic timer is armed is recorded. *)
Definition k_timer_start (st : telnet) : telnet := set_send_timer true st.
Definition k_timer_stop (st : telnet) : telnet := set_send_timer false st.

(** Modelled from the spec: [__printk_hook_install], the "process-wide
    installable single sink reference". *)
Definition __printk_hook_install (fn : option printk_fn) (st : telnet) : telnet :=
  set_printk_hook fn st.

(** Modelled from the spec: [net_context_put] and [net_buf_unref] of the
    network stack release a connection and a buffer; the released handles
    are logged in call order. *)
Definition net_context_put (c : option Z) (st : telnet) : telnet :=
  set_puts (puts st ++ [c]) st.
Definition net_buf_unref (b : Z) (st : telnet) : telnet :=
  set_unrefs (unrefs st ++ [b]) st.

(** Modelled from the spec: [net_nbuf_append(out_buf, len, data)] followed by
    [net_context_send(out_buf, ...)] hands the first [len] bytes of [data]
    to the transport sender; they are logged in send order. *)
Definition net_nbuf_append (n : Z) (data : list Z) (st : telnet) : telnet :=
  set_wire (wire st ++ [take (Z.to_nat n) data]) st.

(** ** Configuration

    The values of [CONFIG_TELNET_CONSOLE_LINE_BUF_NUMBERS],
    [CONFIG_TELNET_CONSOLE_LINE_BUF_SIZE],
    [CONFIG_TELNET_CONSOLE_SEND_THRESHOLD] and of [CONSOLE_MAX_LINE_LEN]
    (console/console.h), fixed when the image is built. *)
Record config := Config {
  TELNET_LINES : Z;
  TELNET_LINE_SIZE : Z;
  TELNET_THRESHOLD : Z;
  CONSOLE_MAX_LINE_LEN : Z
}.

(** Modelled from the spec: the accessors of the network buffer API, which
    present "one chunk of inbound bytes plus its length".  The length is kept
    in a [uint16_t]; the application data are the last bytes of the
    fragment chain. *)
Definition net_nbuf_appdatalen (b : net_buf) : Z :=
  uint16 (Z.of_nat (length (nb_appdata b))).
Definition net_nbuf_appdata (b : net_buf) : list Z := nb_appdata b.
Definition net_buf_frags_len (b : net_buf) : Z :=
  Z.of_nat (length (nb_hdr b ++ nb_appdata b)).

(** Modelled from the spec: [net_nbuf_read(buf->frags, offset, &pos, len, dst)]
    copies [len] bytes found at [offset] in the fragment chain over the start
    of [dst] ("copy the payload into the acquired buffer"); [dst] must have
    room for them. *)
Definition net_nbuf_read (b : net_buf) (offset n : Z) (dst : list Z) : option (list Z) :=
  let src := take (Z.to_nat n) (drop (Z.to_nat offset) (nb_hdr b ++ nb_appdata b)) in
  if decide (0 ≤ offset ∧ 0 ≤ n ∧ length src = Z.to_nat n ∧ (length src ≤ length dst)%nat)
  then Some (src ++ drop (length src) dst)
  else None.

(** Modelled from the spec: the free pool is acquired without blocking
    ([k_fifo_get] with [K_NO_WAIT]: the head, or [NULL] when empty) and the
    delivery queue is ordered ([k_fifo_put] adds at the tail). *)
Definition k_fifo_get {A} (q : list A) : option A * list A :=
  match q with
  | [] => (None, [])
  | x :: q' => (Some x, q')
  end.
Definition k_fifo_put {A} (q : list A) (x : A) : list A := q ++ [x].

Section Driver.

Variable cfg : config.

(** ** Ring buffer *)

Definition set_len (n : Z) (lb : line_buf) : line_buf := LineBuf (buf lb) n.

(** Statement [l_bufs[i].len = n]. *)
Definition rb_set_len (i n : Z) (rb : line_buf_rb) : option line_buf_rb :=
  lb ← arr_get i (l_bufs rb);
  bufs ← arr_set i (set_len n lb) (l_bufs rb);
  Some (LineBufRb bufs (line_in rb) (line_out rb)).

(** The loop of [telnet_rb_init], for [i] counting up over [k] slots. *)
Fixpoint rb_init_loop (k : nat) (i : Z) (rb : line_buf_rb) : option line_buf_rb :=
  match k with
  | O => Some rb
  | S k' => rb' ← rb_set_len i 0 rb; rb_init_loop k' (i + 1) rb'
  end.

Definition telnet_rb_init (st : telnet) : option telnet :=
  let rb := LineBufRb (l_bufs (telnet_rb st)) 0 0 in
  rb' ← rb_init_loop (Z.to_nat (TELNET_LINES cfg)) 0 rb;
  Some (set_telnet_rb rb' st).

(** [x++; if (x == TELNET_LINES) x = 0;] on a [uint16_t]. *)
Definition rb_next (x : Z) : Z :=
  let x' := uint16 (x + 1) in
  if decide (x' = TELNET_LINES cfg) then 0 else x'.

Definition telnet_rb_switch (st : telnet) : option telnet :=
  let rb := telnet_rb st in
  let rb1 := LineBufRb (l_bufs rb) (rb_next (line_in rb)) (line_out rb) in
  rb2 ← rb_set_len (line_in rb1) 0 rb1;
  let rb3 :=
    if decide (line_in rb2 = line_out rb2)
    then LineBufRb (l_bufs rb2) (line_in rb2) (rb_next (line_out rb2))
    else rb2 in
  Some (k_sem_give (k_timer_start (set_telnet_rb rb3 st))).

(** Returns the index of the slot handed out ([None] for [NULL]) and the
    state with the read index advanced. *)
Definition telnet_rb_get_line_out (st : telnet) : option (option Z * telnet) :=
  let rb := telnet_rb st in
  let out := line_out rb in
  let st' := set_telnet_rb (LineBufRb (l_bufs rb) (line_in rb) (rb_next out)) st in
  lb ← arr_get out (l_bufs rb);
  if decide (len lb = 0) then Some (None, st') else Some (Some out, st').

Definition telnet_rb_get_line_in (st : telnet) : Z := line_in (telnet_rb st).

(** ** The printk hook *)

(** Returns the character, as the C function does, and the new state.
    [irq_lock]/[irq_unlock] make the body one step; [k_yield] and the
    echo compiled in under [CONFIG_TELNET_CONSOLE_DEBUG_DEEP] leave the
    state modelled here as it is. *)
Definition telnet_console_out (c : Z) (st : telnet) : option (Z * telnet) :=
  let rb := telnet_rb st in
  let i := telnet_rb_get_line_in st in
  lb ← arr_get i (l_bufs rb);
  b1 ← arr_set (len lb) (to_char c) (buf lb);
  let n1 := uint16 (len lb + 1) in
  if decide (c = LF ∨ n1 = TELNET_LINE_SIZE cfg - 1) then
    b2 ← arr_set (n1 - 1) CR b1;
    b3 ← arr_set n1 LF b2;
    let n2 := uint16 (n1 + 1) in
    bufs ← arr_set i (LineBuf b3 n2) (l_bufs rb);
    st' ← telnet_rb_switch
            (set_telnet_rb (LineBufRb bufs (line_in rb) (line_out rb)) st);
    Some (c, st')
  else
    bufs ← arr_set i (LineBuf b1 n1) (l_bufs rb);
    Some (c, set_telnet_rb (LineBufRb bufs (line_in rb) (line_out rb)) st).

(** ** Idle-flush timer *)

Definition telnet_send_prematurely (st : telnet) : option telnet :=
  lb ← arr_get (telnet_rb_get_line_in st) (l_bufs (telnet_rb st));
  if decide (TELNET_THRESHOLD cfg ≤ len lb) then telnet_rb_switch st
  else Some st.

(** ** Session teardown *)

Definition telnet_end_client_connection (st : telnet) : option telnet :=
  let st := __printk_hook_install (orig_printk_hook st) st in
  let st := set_orig_printk_hook None st in
  let st := k_timer_stop st in
  let st := net_context_put (client_cnx st) st in
  let st := set_client_cnx None st in
  let st := match out_buf st with
            | Some b => net_buf_unref b st
            | None => st
            end in
  telnet_rb_init st.

(** [tx] is what [net_nbuf_get_tx] returns. *)
Definition telnet_setup_out_buf (tx : option Z) (st : telnet) : Z * telnet :=
  let st := set_out_buf tx st in
  match out_buf st with
  | None => (-105, st)    (* -ENOBUFS *)
  | Some _ => (0, st)
  end.

(** ** Sender *)

(** [rc] is what [net_context_send] returns, [tx] what [net_nbuf_get_tx]
    returns when it is reached. *)
Definition telnet_send (rc : Z) (tx : option Z) (st : telnet) : option (bool * telnet) :=
  '(lb, st) ← telnet_rb_get_line_out st;
  match lb with
  | Some i =>
      slot ← arr_get i (l_bufs (telnet_rb st));
      let st := net_nbuf_append (len slot) (buf slot) st in
      rb ← rb_set_len i 0 (telnet_rb st);
      let st := set_telnet_rb rb st in
      if decide (rc ≠ 0) then Some (false, st)
      else
        let '(e, st) := telnet_setup_out_buf tx st in
        if decide (e ≠ 0) then Some (false, st) else Some (true, st)
  | None => Some (true, st)
  end.

(** [telnet_sent_cb], the completion callback of [net_context_send]. *)
Definition telnet_sent_cb (status : Z) (st : telnet) : option telnet :=
  if decide (status ≠ 0) then telnet_end_client_connection st else Some st.

(** One turn of the loop of [telnet_run], after [k_sem_take] has succeeded. *)
Definition telnet_run_body (rc : Z) (tx : option Z) (st : telnet) : option telnet :=
  let st := set_send_lock (send_lock st - 1) st in
  r ← telnet_send rc tx st;
  if r.1 : bool then Some r.2 else telnet_end_client_connection r.2.

(** The loop of [telnet_run] for as long as the semaphore can be taken
    without blocking, every send succeeding and [tx] being handed back as
    the next outbound buffer. *)
Fixpoint telnet_run (fuel : nat) (tx : Z) (st : telnet) : option telnet :=
  match fuel with
  | O => Some st
  | S fuel' =>
      if decide (0 < send_lock st) then
        st' ← telnet_run_body 0 (Some tx) st;
        telnet_run fuel' tx st'
      else Some st
  end.

(** ** Inbound line framer *)

Definition telnet_handle_input (b : net_buf) (st : telnet) : option telnet :=
  let n := net_nbuf_appdatalen b in
  if decide (n > CONSOLE_MAX_LINE_LEN cfg ∨ n < TELNET_MIN_MSG) then Some st
  else
    l_start ← arr_get 0 (net_nbuf_appdata b);
    if decide (l_start = IAC) then Some st
    else
      match avail_queue st, input_queue st with
      | Some avail, Some lines =>
          match k_fifo_get avail with
          | (None, _) => Some st
          | (Some input, avail') =>
              let offset := uint16 (net_buf_frags_len b - n) in
              line ← net_nbuf_read b offset n input;
              last ← arr_get (n - 1) line;
              line ←
                (if decide (last ≠ NUL) then
                   line1 ← (if decide (last = LF) then arr_set (n - 1) NUL line
                            else Some line);
                   prev ← arr_get (n - 2) line1;
                   if decide (prev = CR) then arr_set (n - 2) NUL line1
                   else Some line1
                 else Some line);
              Some (set_input_queue (Some (k_fifo_put lines line))
                      (set_avail_queue (Some avail') st))
          end
      | _, _ => Some st
      end.

(** [b] is [None] for a [NULL] buffer. *)
Definition telnet_recv (b : option net_buf) (status : Z) (st : telnet) : option telnet :=
  match b with
  | Some nb =>
      if decide (status ≠ 0) then telnet_end_client_connection st
      else
        st ← telnet_handle_input nb st;
        Some (net_buf_unref (nb_id nb) st)
  | None => telnet_end_client_connection st
  end.

(** ** Accepting a client *)

(** [recv_rc] is what [net_context_recv] returns and [tx] what
    [net_nbuf_get_tx] returns, when they are reached. *)
Definition telnet_accept (client : Z) (error recv_rc : Z) (tx : option Z)
    (st : telnet) : telnet :=
  if decide (error ≠ 0) then net_context_put (Some client) st
  else if decide (client_cnx st ≠ None) then net_context_put (Some client) st
  else if decide (recv_rc ≠ 0) then net_context_put (Some client) st
  else
    let '(e, st) := telnet_setup_out_buf tx st in
    if decide (e ≠ 0) then net_context_put (Some client) st
    else
      let st := set_orig_printk_hook (printk_hook st) st in
      let st := __printk_hook_install (Some fn_telnet_console_out) st in
      let st := set_client_cnx (Some client) st in
      k_timer_start st.

Definition telnet_register_input (avail lines : option (list (list Z)))
    (st : telnet) : telnet :=
  set_input_queue lines (set_avail_queue avail st).

End Driver.

(** ** Power-on state *)

(** The ring is a static object: zero-filled when the image starts. *)
Definition rb_zero (cfg : config) : line_buf_rb :=
  LineBufRb
    (replicate (Z.to_nat (TELNET_LINES cfg))
       (LineBuf (replicate (Z.to_nat (TELNET_LINE_SIZE cfg)) 0) 0))
    0 0.

(** Every file-scope pointer is [NULL], the semaphore count is 0, the timer
    is not running; [hook] is the console sink printk starts with. *)
Definition telnet_boot (cfg : config) (hook : option printk_fn) : telnet :=
  Telnet (rb_zero cfg) None None None None None 0 false hook [] [] [].

(** Feeding a sequence of characters to the printk hook, one call each. *)
Fixpoint printk (cfg : config) (cs : list Z) (st : telnet) : option telnet :=
  match cs with
  | [] => Some st
  | c :: cs' =>
      r ← telnet_console_out cfg c st;
      printk cfg cs' r.2
  end.

(** The bytes a slot holds: the first [len] bytes of its buffer. *)
Definition line_data (lb : line_buf) : list Z := take (Z.to_nat (len lb)) (buf lb).

(** ** Vocabulary of the properties *)

(** What the inbound framer does to the copied chunk, in the words of the
    specification: "clearing a trailing line-feed, and if the byte preceding
    it is a carriage-return, clear that too".  [n] is the chunk length. *)
Definition normalize_spec (n : nat) (line : list Z) : list Z :=
  if decide (line !! (n - 1)%nat = Some LF) then
    let line1 := <[(n - 1)%nat := NUL]> line in
    if decide (line1 !! (n - 2)%nat = Some CR) then <[(n - 2)%nat := NUL]> line1
    else line1
  else line.

(** [clear_if c i line] clears byte [i] of [line] when it holds [c]. *)
Definition clear_if (c : Z) (i : nat) (line : list Z) : list Z :=
  if decide (line !! i = Some c) then <[i := NUL]> line else line.

(** The text a C reader sees in a buffer: the bytes before the first NUL. *)
Fixpoint c_string (line : list Z) : list Z :=
  match line with
  | [] => []
  | c :: line' => if decide (c = NUL) then [] else c :: c_string line'
  end.

(** A small configuration used for the worked examples: 4 slots of 8
    bytes, idle-flush threshold 2, input lines of at most 16 bytes. *)
Definition cfg_4_8 : config := Config 4 8 2 16.

(** *** Ring operations and the ring invariant *)

(** The operations that act on the ring. *)
Inductive rb_op :=
| op_append (c : Z)                  (* telnet_console_out *)
| op_switch                          (* telnet_rb_switch *)
| op_take                            (* telnet_rb_get_line_out *)
| op_send (rc : Z) (tx : option Z)   (* telnet_send *)
| op_reset                           (* telnet_rb_init *)
| op_timer                           (* telnet_send_prematurely *)
| op_teardown.                       (* telnet_end_client_connection *)

Definition rb_step (cfg : config) (op : rb_op) (st : telnet) : option telnet :=
  match op with
  | op_append c => snd <$> telnet_console_out cfg c st
  | op_switch => telnet_rb_switch cfg st
  | op_take => snd <$> telnet_rb_get_line_out cfg st
  | op_send rc tx => snd <$> telnet_send cfg rc tx st
  | op_reset => telnet_rb_init cfg st
  | op_timer => telnet_send_prematurely cfg st
  | op_teardown => telnet_end_client_connection cfg st
  end.

Fixpoint rb_run (cfg : config) (ops : list rb_op) (st : telnet) : option telnet :=
  match ops with
  | [] => Some st
  | op :: ops' => st' ← rb_step cfg op st; rb_run cfg ops' st'
  end.

(** A slot is "readable" when its length is above 0 and it is not the
    current write target; [count_readable w i slots] counts the readable
    slots of [slots], whose first element has index [i], for write index [w]. *)
Fixpoint count_readable (w i : Z) (slots : list line_buf) : Z :=
  match slots with
  | [] => 0
  | lb :: slots' =>
      (if decide (0 < len lb ∧ i ≠ w) then 1 else 0)
      + count_readable w (i + 1) slots'
  end.

Definition readable_slots (rb : line_buf_rb) : Z :=
  count_readable (line_in rb) 0 (l_bufs rb).

(** Shape of a slot and of the ring: array sizes as declared, lengths
    within the slot capacity, indices within the ring and within
    [uint16_t]. *)
Definition slot_ok (cfg : config) (lb : line_buf) : Prop :=
  length (buf lb) = Z.to_nat (TELNET_LINE_SIZE cfg) ∧
  0 ≤ len lb ≤ TELNET_LINE_SIZE cfg.

Definition rb_shape (cfg : config) (rb : line_buf_rb) : Prop :=
  length (l_bufs rb) = Z.to_nat (TELNET_LINES cfg) ∧
  (0 ≤ line_in rb < TELNET_LINES cfg ∧ line_in rb < 65536) ∧
  (0 ≤ line_out rb < TELNET_LINES cfg ∧ line_out rb < 65536) ∧
  Forall (slot_ok cfg) (l_bufs rb).

(** The ring invariant: the shape, and room in the write slot for one more
    character and the terminator pair. *)
Definition rb_ok (cfg : config) (rb : line_buf_rb) : Prop :=
  rb_shape cfg rb ∧
  ∀ lb, arr_get (line_in rb) (l_bufs rb) = Some lb →
        len lb < TELNET_LINE_SIZE cfg - 1.

(** The slot after [buf[len++] = c], and after the terminator pair has
    replaced the last character written. *)
Definition slot_append (c : Z) (lb : line_buf) : line_buf :=
  LineBuf (<[Z.to_nat (len lb) := c]> (buf lb)) (len lb + 1).

Definition slot_terminate (lb : line_buf) : line_buf :=
  LineBuf (<[Z.to_nat (len lb + 1) := LF]> (<[Z.to_nat (len lb) := CR]> (buf lb)))
    (len lb + 2).

(** The ring after [telnet_rb_switch]. *)
Definition rb_switched (cfg : config) (rb : line_buf_rb) : line_buf_rb :=
  let i := rb_next cfg (line_in rb) in
  LineBufRb (alter (set_len 0) (Z.to_nat i) (l_bufs rb)) i
    (if decide (i = line_out rb) then rb_next cfg (line_out rb) else line_out rb).

(** *** Lines, as the producer writes them and as the transport gets them *)

(** A complete line as printk produces it, and the same line as it leaves
    on the wire. *)
Definition complete_line (body : list Z) : list Z := body ++ [LF].
Definition wire_line (body : list Z) : list Z := body ++ [CR; LF].

(** A line body that fits a slot with its terminator pair: characters other
    than the line-feed, at most [TELNET_LINE_SIZE - 2] of them. *)
Definition body_ok (cfg : config) (body : list Z) : Prop :=
  Forall (λ c, 0 ≤ c < 256 ∧ c ≠ LF) body ∧
  Z.of_nat (length body) ≤ TELNET_LINE_SIZE cfg - 2.

Definition ends_crlf (l : list Z) : Prop := ∃ body, l = body ++ [CR; LF].

(** A flushed fragment without the two terminator bytes at its end. *)
Definition strip_crlf (l : list Z) : list Z := take (length l - 2)%nat l.

(** The input with every line-feed replaced by the pair CR LF. *)
Fixpoint crlf (cs : list Z) : list Z :=
  match cs with
  | [] => []
  | c :: cs' => if decide (c = LF) then CR :: LF :: crlf cs' else c :: crlf cs'
  end.

(** The unterminated tail: what follows the last line-feed of [cs], after
    the pending characters [p]. *)
Fixpoint held (p cs : list Z) : list Z :=
  match cs with
  | [] => p
  | c :: cs' => if decide (c = LF) then held [] cs' else held (p ++ [c]) cs'
  end.

(** No run of characters between line-feeds reaches the slot capacity:
    [run] characters are pending when [cs] starts. *)
Fixpoint lines_fit (cfg : config) (run : Z) (cs : list Z) : Prop :=
  match cs with
  | [] => True
  | c :: cs' =>
      if decide (c = LF) then lines_fit cfg 0 cs'
      else run + 1 < TELNET_LINE_SIZE cfg - 1 ∧ lines_fit cfg (run + 1) cs'
  end.

(** *** Producer and sender, interleaved *)

(** A call of the printk hook, or one turn of the sender loop. *)
Inductive io_event :=
| ev_out (c : Z)
| ev_run.

(** The sender waits on the semaphore: a turn with the count at 0 does
    nothing.  Every send succeeds and [tx] is the next outbound buffer. *)
Definition io_step (cfg : config) (tx : Z) (ev : io_event) (st : telnet) : option telnet :=
  match ev with
  | ev_out c => snd <$> telnet_console_out cfg c st
  | ev_run =>
      if decide (0 < send_lock st) then telnet_run_body cfg 0 (Some tx) st
      else Some st
  end.

Fixpoint io_run (cfg : config) (tx : Z) (evs : list io_event) (st : telnet) : option telnet :=
  match evs with
  | [] => Some st
  | ev :: evs' => st' ← io_step cfg tx ev st; io_run cfg tx evs' st'
  end.

Fixpoint outputs (evs : list io_event) : list Z :=
  match evs with
  | [] => []
  | ev_out c :: evs' => c :: outputs evs'
  | ev_run :: evs' => outputs evs'
  end.

(** The character [c] makes the hook switch slots. *)
Definition switches (cfg : config) (c : Z) (st : telnet) : Prop :=
  ∃ lb, arr_get (line_in (telnet_rb st)) (l_bufs (telnet_rb st)) = Some lb ∧
        (c = LF ∨ uint16 (len lb + 1) = TELNET_LINE_SIZE cfg - 1).

(** An overwrite event: a switch that finds the read index on the slot it
    switches to. *)
Definition overwrites (cfg : config) (st : telnet) : Prop :=
  rb_next cfg (line_in (telnet_rb st)) = line_out (telnet_rb st).

Fixpoint overwrite_free (cfg : config) (tx : Z) (evs : list io_event) (st : telnet) : Prop :=
  match evs with
  | [] => True
  | ev :: evs' =>
      match ev with
      | ev_out c => switches cfg c st → ¬ overwrites cfg st
      | ev_run => True
      end ∧
      match io_step cfg tx ev st with
      | Some st' => overwrite_free cfg tx evs' st'
      | None => True
      end
  end.

(** The same check, computed. *)
Definition switchesb (cfg : config) (c : Z) (st : telnet) : bool :=
  match arr_get (line_in (telnet_rb st)) (l_bufs (telnet_rb st)) with
  | Some lb => (c =? LF) || (uint16 (len lb + 1) =? TELNET_LINE_SIZE cfg - 1)
  | None => false
  end.

Definition overwritesb (cfg : config) (st : telnet) : bool :=
  rb_next cfg (line_in (telnet_rb st)) =? line_out (telnet_rb st).

Fixpoint overwrite_freeb (cfg : config) (tx : Z) (evs : list io_event) (st : telnet) : bool :=
  match evs with
  | [] => true
  | ev :: evs' =>
      match ev with
      | ev_out c => negb (switchesb cfg c st && overwritesb cfg st)
      | ev_run => true
      end &&
      match io_step cfg tx ev st with
      | Some st' => overwrite_freeb cfg tx evs' st'
      | None => true
      end
  end.

(** Producer and sender in step: [pending] are the lines switched and not
    yet sent, oldest first, from the read index on; [partial] is what the
    write slot holds, short of the slot capacity; the semaphore counts the
    pending lines. *)
Definition in_sync (cfg : config) (st : telnet) (pending : list (list Z))
    (partial : list Z) : Prop :=
  let rb := telnet_rb st in
  rb_shape cfg rb ∧
  send_lock st = Z.of_nat (length pending) ∧
  Z.of_nat (length pending) < TELNET_LINES cfg ∧
  line_in rb = (line_out rb + Z.of_nat (length pending)) mod TELNET_LINES cfg ∧
  (∀ (i : nat) l, pending !! i = Some l →
     ∃ lb, arr_get ((line_out rb + Z.of_nat i) mod TELNET_LINES cfg) (l_bufs rb)
           = Some lb ∧ line_data lb = l ∧ len lb ≠ 0) ∧
  ∃ lb, arr_get (line_in rb) (l_bufs rb) = Some lb ∧
        line_data lb = partial ∧ len lb = Z.of_nat (length partial) ∧
        len lb < TELNET_LINE_SIZE cfg - 1.

(** Every slot the producer has left is empty or ends with CR LF. *)
Definition left_slots_terminated (rb : line_buf_rb) : Prop :=
  ∀ i lb, arr_get i (l_bufs rb) = Some lb → i ≠ line_in rb →
          len lb = 0 ∨ ends_crlf (line_data lb).

(** Operations of the producer and of the sender; the timer-forced switch
    and the bare switch are left out. *)
Definition producer_or_sender (op : rb_op) : Prop :=
  match op with
  | op_switch | op_timer => False
  | _ => True
  end.

(** *** Lines fed with no drain in between *)

(** The ring after the complete lines [bodies] have been fed to a ring just
    initialised, nothing having been sent: the write index has gone round
    with the number of lines, the read index has been pushed ahead of it
    once the ring was full, the write slot is empty, and each of the last
    [TELNET_LINES - 1] lines sits, terminated, in the slot it was written
    to. *)
Definition fed (cfg : config) (bodies : list (list Z)) (st : telnet) : Prop :=
  let k := Z.of_nat (length bodies) in
  let rb := telnet_rb st in
  rb_shape cfg rb ∧
  line_in rb = k mod TELNET_LINES cfg ∧
  line_out rb = (if decide (k < TELNET_LINES cfg) then 0
                 else (k + 1) mod TELNET_LINES cfg) ∧
  (∃ lb, arr_get (line_in rb) (l_bufs rb) = Some lb ∧ len lb = 0) ∧
  ∀ (j : nat) body, bodies !! j = Some body →
    k < Z.of_nat j + TELNET_LINES cfg →
    ∃ lb, arr_get (Z.of_nat j mod TELNET_LINES cfg) (l_bufs rb) = Some lb ∧
          line_data lb = wire_line body.

(** ** Listening sockets *)

(** [telnet_setup_server]: [ctx] is what [*ctx] holds once [net_context_get]
    has returned; [get_rc], [bind_rc], [listen_rc] and [accept_rc] are what
    [net_context_get], [net_context_bind], [net_context_listen] and
    [net_context_accept] return when they are reached.  Returns what [*ctx]
    holds in the end. *)
Definition telnet_setup_server (ctx : option Z)
    (get_rc bind_rc listen_rc accept_rc : Z) (st : telnet) : option Z * telnet :=
  let error :=
    match ctx with
    | Some c => (None, net_context_put (Some c) st)
    | None => (ctx, st)
    end in
  if decide (get_rc ≠ 0) then error
  else if decide (bind_rc ≠ 0) then error
  else if decide (listen_rc ≠ 0) then error
  else if decide (accept_rc ≠ 0) then error
  else (ctx, st).

(** *** Producer, timer and sender, interleaved *)

(** A call of the printk hook, one turn of the sender loop, or one expiry
    of the idle-flush timer. *)
Inductive drv_event :=
| dev_out (c : Z)
| dev_run
| dev_timer.

Definition drv_step (cfg : config) (tx : Z) (ev : drv_event) (st : telnet) : option telnet :=
  match ev with
  | dev_out c => snd <$> telnet_console_out cfg c st
  | dev_run =>
      if decide (0 < send_lock st) then telnet_run_body cfg 0 (Some tx) st
      else Some st
  | dev_timer => telnet_send_prematurely cfg st
  end.

Fixpoint drv_run (cfg : config) (tx : Z) (evs : list drv_event) (st : telnet) : option telnet :=
  match evs with
  | [] => Some st
  | ev :: evs' => st' ← drv_step cfg tx ev st; drv_run cfg tx evs' st'
  end.

Fixpoint drv_outputs (evs : list drv_event) : list Z :=
  match evs with
  | [] => []
  | dev_out c :: evs' => c :: drv_outputs evs'
  | _ :: evs' => drv_outputs evs'
  end.

(** The length of the write slot. *)
Definition write_len (st : telnet) : Z :=
  match arr_get (line_in (telnet_rb st)) (l_bufs (telnet_rb st)) with
  | Some lb => len lb
  | None => 0
  end.

(** A run in which nothing is lost: every character is a byte, no switch
    overwrites an unread line, no character other than the line-feed
    reaches the slot capacity, and the timer switches no empty slot. *)
Fixpoint drv_quiet (cfg : config) (tx : Z) (evs : list drv_event) (st : telnet) : bool :=
  match evs with
  | [] => true
  | ev :: evs' =>
      match ev with
      | dev_out c =>
          (0 <=? c) && (c <? 256) &&
          (if c =? LF then negb (overwritesb cfg st)
           else write_len st + 1 <? TELNET_LINE_SIZE cfg - 1)
      | dev_run => true
      | dev_timer =>
          if TELNET_THRESHOLD cfg <=? write_len st
          then negb (overwritesb cfg st) && (0 <? write_len st)
          else true
      end &&
      match drv_step cfg tx ev st with
      | Some st' => drv_quiet cfg tx evs' st'
      | None => true
      end
  end.

(** *** The unread lines of a ring *)

(** [queue] are the lines switched and not yet sent, oldest first, from the
    read index up to the write index; every other slot is empty. *)
Definition ring_queue (cfg : config) (rb : line_buf_rb) (queue : list (list Z)) : Prop :=
  rb_shape cfg rb ∧
  Z.of_nat (length queue) < TELNET_LINES cfg ∧
  line_in rb = (line_out rb + Z.of_nat (length queue)) mod TELNET_LINES cfg ∧
  (∀ (i : nat) l, queue !! i = Some l →
     ∃ lb, arr_get ((line_out rb + Z.of_nat i) mod TELNET_LINES cfg) (l_bufs rb)
           = Some lb ∧ line_data lb = l ∧ len lb ≠ 0) ∧
  ∀ j lb, arr_get j (l_bufs rb) = Some lb →
    (∀ i : nat, (i < length queue)%nat →
       j ≠ (line_out rb + Z.of_nat i) mod TELNET_LINES cfg) →
    len lb = 0.

(** The capacity every buffer of the free pool has: the size of the [line]
    array of [struct console_input]. *)
Definition line_capacity (cfg : config) (line : list Z) : Prop :=
  Z.of_nat (length line) = CONSOLE_MAX_LINE_LEN cfg.

(** * Properties *)

(** ** C arrays *)

Lemma arr_get_Some {A} (i : Z) (a : list A) (x : A) :
  arr_get i a = Some x ↔ 0 ≤ i ∧ a !! Z.to_nat i = Some x.
Proof.
  unfold arr_get. destruct (decide (0 ≤ i)); split; intros H;
    try tauto; try discriminate.
Qed.

Lemma arr_get_bound {A} (i : Z) (a : list A) (x : A) :
  arr_get i a = Some x → 0 ≤ i < Z.of_nat (length a).
Proof.
  intros [Hi Hx]%arr_get_Some. apply lookup_lt_Some in Hx. lia.
Qed.

Lemma arr_get_nat {A} (i : nat) (a : list A) :
  arr_get (Z.of_nat i) a = a !! i.
Proof.
  unfold arr_get. destruct (decide (0 ≤ Z.of_nat i)); [|lia].
  by rewrite Nat2Z.id.
Qed.

Lemma arr_set_Some {A} (i : Z) (x : A) (a : list A) :
  0 ≤ i < Z.of_nat (length a) →
  arr_set i x a = Some (<[Z.to_nat i := x]> a).
Proof. intros H. unfold arr_set. by destruct (decide _). Qed.

Lemma arr_get_in_range {A} (i : Z) (a : list A) :
  0 ≤ i < Z.of_nat (length a) → ∃ x, arr_get i a = Some x.
Proof.
  intros H. destruct (lookup_lt_is_Some_2 a (Z.to_nat i)) as [x Hx]; [lia|].
  exists x. apply arr_get_Some. split; [lia|done].
Qed.

(** ** Read index: [telnet_rb_get_line_out] *)

Lemma uint16_small (x : Z) : 0 ≤ x < 65536 → uint16 x = x.
Proof. intros H. unfold uint16. by apply Z.mod_small. Qed.

Lemma rb_next_mod (cfg : config) (x : Z) :
  0 ≤ x < TELNET_LINES cfg → TELNET_LINES cfg ≤ 65536 →
  rb_next cfg x = (x + 1) mod TELNET_LINES cfg.
Proof.
  intros Hx HN. unfold rb_next.
  destruct (decide (x + 1 = 65536)) as [E|E].
  - rewrite E. unfold uint16. change (65536 mod 65536) with 0.
    assert (TELNET_LINES cfg = 65536) as -> by lia.
    destruct (decide (0 = 65536)); [lia|]. done.
  - rewrite uint16_small by lia.
    destruct (decide (x + 1 = TELNET_LINES cfg)) as [->|E'].
    + by rewrite Z.mod_same by lia.
    + by rewrite Z.mod_small by lia.
Qed.

(** C3, as the code has it: the slot at the read index is returned when its
    length is not 0 and [NULL] otherwise, and in both cases the read index
    advances by one slot, wrapping at the number of slots. *)
Theorem telnet_rb_get_line_out_advances (cfg : config) (st : telnet) (lb : line_buf) :
  0 ≤ line_out (telnet_rb st) < TELNET_LINES cfg →
  TELNET_LINES cfg ≤ 65536 →
  arr_get (line_out (telnet_rb st)) (l_bufs (telnet_rb st)) = Some lb →
  telnet_rb_get_line_out cfg st =
    Some (if decide (len lb = 0) then None else Some (line_out (telnet_rb st)),
          set_telnet_rb
            (LineBufRb (l_bufs (telnet_rb st)) (line_in (telnet_rb st))
               ((line_out (telnet_rb st) + 1) mod TELNET_LINES cfg)) st).
Proof.
  intros Hout HN Hlb. unfold telnet_rb_get_line_out.
  rewrite Hlb. simpl. rewrite rb_next_mod by done.
  by destruct (decide (len lb = 0)).
Qed.

Lemma telnet_rb_get_line_out_advances_witness :
  let st := telnet_boot cfg_4_8 None in
  0 ≤ line_out (telnet_rb st) < TELNET_LINES cfg_4_8 ∧
  TELNET_LINES cfg_4_8 ≤ 65536 ∧
  arr_get (line_out (telnet_rb st)) (l_bufs (telnet_rb st))
    = Some (LineBuf (replicate 8 0) 0) ∧
  telnet_rb_get_line_out cfg_4_8 st =
    Some (None, set_telnet_rb (LineBufRb (l_bufs (rb_zero cfg_4_8)) 0 1) st).
Proof.
  intros st.
  assert (H1 : 0 ≤ line_out (telnet_rb st) < TELNET_LINES cfg_4_8)
    by (simpl; lia).
  assert (H2 : TELNET_LINES cfg_4_8 ≤ 65536) by (simpl; lia).
  assert (H3 : arr_get (line_out (telnet_rb st)) (l_bufs (telnet_rb st))
               = Some (LineBuf (replicate 8 0) 0)) by reflexivity.
  split; [exact H1|]. split; [exact H2|]. split; [exact H3|].
  exact (telnet_rb_get_line_out_advances cfg_4_8 st _ H1 H2 H3).
Defined.

(** C3, as the claim has it, fails on the power-on ring: the slot at the
    read index is empty, [NULL] is returned, and the read index has moved
    from 0 to 1. *)
Lemma telnet_rb_get_line_out_empty_moves :
  let st := telnet_boot cfg_4_8 None in
  (∃ lb, arr_get (line_out (telnet_rb st)) (l_bufs (telnet_rb st)) = Some lb
         ∧ len lb = 0) ∧
  ∃ st', telnet_rb_get_line_out cfg_4_8 st = Some (None, st') ∧
         line_out (telnet_rb st) = 0 ∧
         line_out (telnet_rb st') = 1 ∧
         line_out (telnet_rb st') ≠ line_out (telnet_rb st).
Proof.
  intros st. split.
  - eexists. split; reflexivity.
  - eexists. split; [reflexivity|]. vm_compute.
    repeat split; try reflexivity. discriminate.
Qed.

(** ** Inbound framer: [telnet_handle_input] *)

(** C7: a chunk shorter than [TELNET_MIN_MSG], longer than
    [CONSOLE_MAX_LINE_LEN] or starting with the IAC byte 255 is dropped
    whole: the state, and with it the free pool and the delivery queue, is
    left as it was, and the receive callback goes on to release the buffer
    without tearing the session down. *)
Theorem telnet_handle_input_discards (cfg : config) (b : net_buf) (st : telnet) :
  net_nbuf_appdatalen b < TELNET_MIN_MSG ∨
  net_nbuf_appdatalen b > CONSOLE_MAX_LINE_LEN cfg ∨
  head (nb_appdata b) = Some IAC →
  telnet_handle_input cfg b st = Some st ∧
  telnet_recv cfg (Some b) 0 st = Some (net_buf_unref (nb_id b) st) ∧
  avail_queue (net_buf_unref (nb_id b) st) = avail_queue st ∧
  input_queue (net_buf_unref (nb_id b) st) = input_queue st.
Proof.
  intros H.
  assert (E : telnet_handle_input cfg b st = Some st).
  { unfold telnet_handle_input.
    destruct (decide (_ ∨ _)) as [|Hn]; [done|].
    destruct H as [H|[H|H]]; [lia|lia|].
    unfold net_nbuf_appdata. destruct (nb_appdata b) as [|c l]; [done|].
    simpl in H. inversion H; subst c. simpl.
    by destruct (decide (IAC = IAC)). }
  split; [done|]. split; [|done].
  unfold telnet_recv. destruct (decide (0 ≠ 0)); [lia|]. by rewrite E.
Qed.

Lemma telnet_handle_input_discards_witness :
  let b := NetBuf 1 [0; 0] [255; 65; 66; 13; 10] in
  let st := telnet_register_input (Some [replicate 16 0]) (Some [])
              (telnet_boot cfg_4_8 None) in
  (net_nbuf_appdatalen b < TELNET_MIN_MSG ∨
   net_nbuf_appdatalen b > CONSOLE_MAX_LINE_LEN cfg_4_8 ∨
   head (nb_appdata b) = Some IAC) ∧
  telnet_handle_input cfg_4_8 b st = Some st.
Proof.
  intros b st.
  assert (H : net_nbuf_appdatalen b < TELNET_MIN_MSG ∨
              net_nbuf_appdatalen b > CONSOLE_MAX_LINE_LEN cfg_4_8 ∨
              head (nb_appdata b) = Some IAC)
    by (right; right; reflexivity).
  split; [exact H|].
  exact (proj1 (telnet_handle_input_discards cfg_4_8 b st H)).
Defined.

(** The copy made by [net_nbuf_read] when the chunk fits the buffer taken
    from the pool: the chunk, followed by what the buffer held beyond it. *)
Lemma net_nbuf_read_appdata (b : net_buf) (input : list Z) :
  net_buf_frags_len b < 65536 →
  (length (nb_appdata b) ≤ length input)%nat →
  net_nbuf_read b (uint16 (net_buf_frags_len b - net_nbuf_appdatalen b))
    (net_nbuf_appdatalen b) input
  = Some (nb_appdata b ++ drop (length (nb_appdata b)) input).
Proof.
  intros Hlen Hfit. unfold net_buf_frags_len, net_nbuf_appdatalen in *.
  rewrite length_app in *.
  rewrite (uint16_small (Z.of_nat (length (nb_appdata b)))) by lia.
  rewrite uint16_small by lia.
  unfold net_nbuf_read.
  replace (Z.to_nat (Z.of_nat (length (nb_hdr b) + length (nb_appdata b))
                     - Z.of_nat (length (nb_appdata b))))
    with (length (nb_hdr b)) by lia.
  rewrite Nat2Z.id, drop_app_length, firstn_all.
  destruct (decide _) as [|n]; [done|]. exfalso. apply n. lia.
Qed.

Lemma length_clear_if (c : Z) (i : nat) (line : list Z) :
  length (clear_if c i line) = length line.
Proof.
  unfold clear_if. destruct (decide (line !! i = Some c)); [|done].
  apply length_insert.
Qed.

(** What the framer does to an accepted chunk, in one formula: a chunk
    ending in NUL is queued as copied; otherwise the last byte is cleared
    when it is LF, and the byte before the last is cleared when it is CR. *)
Lemma telnet_handle_input_accepted (cfg : config) (b : net_buf) (st : telnet)
    (input : list Z) (avail lines : list (list Z)) :
  net_buf_frags_len b < 65536 →
  TELNET_MIN_MSG ≤ net_nbuf_appdatalen b ≤ CONSOLE_MAX_LINE_LEN cfg →
  head (nb_appdata b) ≠ Some IAC →
  avail_queue st = Some (input :: avail) →
  input_queue st = Some lines →
  Z.of_nat (length input) = CONSOLE_MAX_LINE_LEN cfg →
  let n := length (nb_appdata b) in
  let copied := nb_appdata b ++ drop n input in
  telnet_handle_input cfg b st =
    Some (set_input_queue
            (Some (lines ++ [if decide (last (nb_appdata b) = Some NUL) then copied
                             else clear_if CR (n - 2) (clear_if LF (n - 1) copied)]))
            (set_avail_queue (Some avail) st)).
Proof.
  intros Hfr Hn Hiac Hav Hin Hcap n copied.
  assert (En : net_nbuf_appdatalen b = Z.of_nat n).
  { unfold net_nbuf_appdatalen, net_buf_frags_len in *. rewrite length_app in Hfr.
    apply uint16_small. lia. }
  unfold TELNET_MIN_MSG in Hn.
  unfold telnet_handle_input.
  destruct (decide (_ ∨ _)) as [Hbad|_]; [unfold TELNET_MIN_MSG in Hbad; lia|].
  assert (Hhd : arr_get 0 (net_nbuf_appdata b) = head (nb_appdata b)).
  { unfold net_nbuf_appdata. by destruct (nb_appdata b). }
  rewrite Hhd.
  destruct (head (nb_appdata b)) as [c0|] eqn:Ehd; simpl.
  2:{ destruct (nb_appdata b); [simpl in n; subst n; lia|discriminate]. }
  destruct (decide (c0 = IAC)) as [->|_]; [done|].
  rewrite Hav, Hin. simpl.
  rewrite net_nbuf_read_appdata by (fold n; lia). fold n. fold copied. simpl.
  rewrite En.
  assert (Hlc : length copied = length input).
  { unfold copied. rewrite length_app, length_drop. lia. }
  assert (Hlast : arr_get (Z.of_nat n - 1) copied = last (nb_appdata b)).
  { replace (Z.of_nat n - 1) with (Z.of_nat (n - 1)) by lia.
    rewrite arr_get_nat. unfold copied. rewrite lookup_app_l by lia.
    rewrite last_lookup. f_equal. lia. }
  rewrite Hlast.
  destruct (last (nb_appdata b)) as [cl|] eqn:Elast; simpl.
  2:{ apply last_None in Elast. subst n. rewrite Elast in En.
      simpl in En. lia. }
  assert (Ecl : arr_get (Z.of_nat n - 1) copied = Some cl) by done.
  apply arr_get_Some in Ecl as [_ Ecl].
  replace (Z.to_nat (Z.of_nat n - 1)) with (n - 1)%nat in Ecl by lia.
  destruct (decide (cl ≠ NUL)) as [Hnz|Hz].
  - destruct (decide (Some cl = Some NUL)) as [E|_]; [congruence|].
    assert (E1 : (if decide (cl = LF) then arr_set (Z.of_nat n - 1) NUL copied
                  else Some copied) = Some (clear_if LF (n - 1) copied)).
    { unfold clear_if. rewrite Ecl.
      destruct (decide (cl = LF)) as [->|Hne].
      - destruct (decide (Some LF = Some LF)); [|done].
        rewrite arr_set_Some by lia. do 2 f_equal. lia.
      - destruct (decide (Some cl = Some LF)); [congruence|done]. }
    rewrite E1. simpl.
    set (line1 := clear_if LF (n - 1) copied).
    assert (Hl1 : length line1 = length input).
    { unfold line1. by rewrite length_clear_if. }
    destruct (arr_get_in_range (Z.of_nat n - 2) line1) as [prev Hprev]; [lia|].
    rewrite Hprev. simpl.
    apply arr_get_Some in Hprev as [_ Hprev].
    replace (Z.to_nat (Z.of_nat n - 2)) with (n - 2)%nat in Hprev by lia.
    unfold clear_if at 1. rewrite Hprev.
    destruct (decide (prev = CR)) as [->|Hne].
    + destruct (decide (Some CR = Some CR)); [|done].
      rewrite arr_set_Some by lia. simpl. unfold k_fifo_put.
      replace (Z.to_nat (Z.of_nat n - 2)) with (n - 2)%nat by lia. done.
    + destruct (decide (Some prev = Some CR)); [congruence|done].
  - assert (cl = NUL) as -> by (destruct (decide (cl = NUL)); [done|contradiction]).
    by destruct (decide (Some NUL = Some NUL)).
Qed.

(** C10: an accepted chunk whose last byte is NUL is queued exactly as it
    was copied; neither a line-feed nor a carriage-return is cleared. *)
Theorem telnet_handle_input_nul_terminated (cfg : config) (b : net_buf)
    (st : telnet) (input : list Z) (avail lines : list (list Z)) :
  net_buf_frags_len b < 65536 →
  TELNET_MIN_MSG ≤ net_nbuf_appdatalen b ≤ CONSOLE_MAX_LINE_LEN cfg →
  head (nb_appdata b) ≠ Some IAC →
  last (nb_appdata b) = Some NUL →
  avail_queue st = Some (input :: avail) →
  input_queue st = Some lines →
  Z.of_nat (length input) = CONSOLE_MAX_LINE_LEN cfg →
  telnet_handle_input cfg b st =
    Some (set_input_queue
            (Some (lines ++ [nb_appdata b ++ drop (length (nb_appdata b)) input]))
            (set_avail_queue (Some avail) st)).
Proof.
  intros Hfr Hn Hiac Hlast Hav Hin Hcap.
  rewrite (telnet_handle_input_accepted cfg b st input avail lines) by done.
  simpl. by destruct (decide (last (nb_appdata b) = Some NUL)).
Qed.

Lemma telnet_handle_input_nul_terminated_witness :
  let b := NetBuf 1 [0; 0; 0] [104; 105; 13; 10; 0] in
  let st := telnet_register_input (Some [replicate 16 120]) (Some [])
              (telnet_boot cfg_4_8 None) in
  (net_buf_frags_len b < 65536 ∧
   TELNET_MIN_MSG ≤ net_nbuf_appdatalen b ≤ CONSOLE_MAX_LINE_LEN cfg_4_8 ∧
   head (nb_appdata b) ≠ Some IAC ∧
   last (nb_appdata b) = Some NUL) ∧
  input_queue <$> telnet_handle_input cfg_4_8 b st =
    Some (Some [[104; 105; 13; 10; 0] ++ replicate 11 120]).
Proof.
  intros b st.
  assert (H1 : net_buf_frags_len b < 65536) by (vm_compute; reflexivity).
  assert (H2 : TELNET_MIN_MSG ≤ net_nbuf_appdatalen b ≤ CONSOLE_MAX_LINE_LEN cfg_4_8)
    by (vm_compute; split; discriminate).
  assert (H3 : head (nb_appdata b) ≠ Some IAC) by (vm_compute; discriminate).
  assert (H4 : last (nb_appdata b) = Some NUL) by reflexivity.
  split; [done|].
  rewrite (telnet_handle_input_nul_terminated cfg_4_8 b st
             (replicate 16 120) [] [] H1 H2 H3 H4 eq_refl eq_refl eq_refl).
  reflexivity.
Defined.

(** C6, as the code has it: for an accepted chunk that does not end in NUL
    and finds a free buffer, the last byte is cleared when it is a
    line-feed and the byte before the last is cleared when it is a
    carriage-return, whatever the last byte is; the line is then queued.
    A chunk ending in CR LF is queued with both bytes cleared. *)
Theorem telnet_handle_input_normalizes (cfg : config) (b : net_buf)
    (st : telnet) (input : list Z) (avail lines : list (list Z)) :
  net_buf_frags_len b < 65536 →
  TELNET_MIN_MSG ≤ net_nbuf_appdatalen b ≤ CONSOLE_MAX_LINE_LEN cfg →
  head (nb_appdata b) ≠ Some IAC →
  last (nb_appdata b) ≠ Some NUL →
  avail_queue st = Some (input :: avail) →
  input_queue st = Some lines →
  Z.of_nat (length input) = CONSOLE_MAX_LINE_LEN cfg →
  let n := length (nb_appdata b) in
  let copied := nb_appdata b ++ drop n input in
  telnet_handle_input cfg b st =
    Some (set_input_queue
            (Some (lines ++ [clear_if CR (n - 2) (clear_if LF (n - 1) copied)]))
            (set_avail_queue (Some avail) st)) ∧
  ∀ body, nb_appdata b = body ++ [CR; LF] →
    clear_if CR (n - 2) (clear_if LF (n - 1) copied)
    = body ++ [NUL; NUL] ++ drop n input.
Proof.
  intros Hfr Hn Hiac Hlast Hav Hin Hcap n copied. split.
  - rewrite (telnet_handle_input_accepted cfg b st input avail lines) by done.
    simpl. by destruct (decide (last (nb_appdata b) = Some NUL)).
  - intros body Hb. subst copied n. rewrite Hb.
    rewrite length_app. simpl length.
    replace (length body + 2 - 1)%nat with (length body + 1)%nat by lia.
    replace (length body + 2 - 2)%nat with (length body + 0)%nat by lia.
    rewrite <- app_assoc. simpl.
    set (rest := drop (length body + 2) input).
    assert (E1 : clear_if LF (length body + 1) (body ++ CR :: LF :: rest)
                 = body ++ CR :: NUL :: rest).
    { unfold clear_if. rewrite lookup_app_r by lia.
      replace (length body + 1 - length body)%nat with 1%nat by lia. simpl.
      destruct (decide (Some LF = Some LF)); [|done].
      rewrite insert_app_r_alt by lia.
      replace (length body + 1 - length body)%nat with 1%nat by lia. done. }
    rewrite E1. unfold clear_if. rewrite lookup_app_r by lia.
    replace (length body + 0 - length body)%nat with 0%nat by lia. simpl.
    destruct (decide (Some CR = Some CR)); [|done].
    rewrite insert_app_r_alt by lia.
    replace (length body + 0 - length body)%nat with 0%nat by lia. done.
Qed.

(** The chunk ['h','i','\r','\n'] is queued as a buffer that reads "hi". *)
Lemma telnet_handle_input_normalizes_witness :
  let b := NetBuf 1 [0; 0; 0] [104; 105; 13; 10] in
  let st := telnet_register_input (Some [replicate 16 120]) (Some [])
              (telnet_boot cfg_4_8 None) in
  (net_buf_frags_len b < 65536 ∧
   TELNET_MIN_MSG ≤ net_nbuf_appdatalen b ≤ CONSOLE_MAX_LINE_LEN cfg_4_8 ∧
   head (nb_appdata b) ≠ Some IAC ∧
   last (nb_appdata b) ≠ Some NUL) ∧
  ∃ line,
    input_queue <$> telnet_handle_input cfg_4_8 b st = Some (Some [line]) ∧
    line = [104; 105; 0; 0] ++ replicate 12 120 ∧
    c_string line = [104; 105].
Proof.
  intros b st.
  assert (H1 : net_buf_frags_len b < 65536) by (vm_compute; reflexivity).
  assert (H2 : TELNET_MIN_MSG ≤ net_nbuf_appdatalen b ≤ CONSOLE_MAX_LINE_LEN cfg_4_8)
    by (vm_compute; split; discriminate).
  assert (H3 : head (nb_appdata b) ≠ Some IAC) by (vm_compute; discriminate).
  assert (H4 : last (nb_appdata b) ≠ Some NUL) by (vm_compute; discriminate).
  split; [done|].
  destruct (telnet_handle_input_normalizes cfg_4_8 b st
              (replicate 16 120) [] [] H1 H2 H3 H4 eq_refl eq_refl eq_refl)
    as [E _].
  eexists. rewrite E. split; [reflexivity|]. split; reflexivity.
Defined.

(** C6, as the claim has it, fails on the chunk ['h','i','\r','x']: the
    last byte is not a line-feed, yet the carriage-return before it is
    cleared, so the queued line differs from the one the specification
    describes and reads "hi" instead of "hi\rx". *)
Lemma telnet_handle_input_clears_lone_cr :
  let b := NetBuf 1 [0; 0; 0] [104; 105; 13; 120] in
  let st := telnet_register_input (Some [replicate 16 0]) (Some [])
              (telnet_boot cfg_4_8 None) in
  nb_appdata b !! 2%nat = Some CR ∧
  last (nb_appdata b) ≠ Some LF ∧
  ∃ line,
    input_queue <$> telnet_handle_input cfg_4_8 b st = Some (Some [line]) ∧
    line !! 2%nat = Some NUL ∧
    c_string line = [104; 105] ∧
    line ≠ normalize_spec 4 (nb_appdata b ++ drop 4 (replicate 16 0)).
Proof.
  intros b st. split; [reflexivity|]. split; [vm_compute; discriminate|].
  eexists. split; [vm_compute; reflexivity|].
  split; [reflexivity|]. split; [reflexivity|]. vm_compute. discriminate.
Qed.

(** ** Ring reset and session teardown *)

Lemma rb_init_loop_zeroes (mid pre suf : list line_buf) (i o : Z) :
  rb_init_loop (length mid) (Z.of_nat (length pre))
    (LineBufRb (pre ++ mid ++ suf) i o)
  = Some (LineBufRb (pre ++ (set_len 0 <$> mid) ++ suf) i o).
Proof.
  revert pre. induction mid as [|lb mid IH]; intros pre; [done|].
  simpl. unfold rb_set_len. simpl.
  rewrite arr_get_nat, list_lookup_middle by done. simpl.
  rewrite arr_set_Some by (rewrite length_app; simpl; lia). simpl.
  rewrite Nat2Z.id, insert_app_r_alt, Nat.sub_diag by lia. simpl.
  specialize (IH (pre ++ [set_len 0 lb])).
  rewrite length_app in IH. simpl in IH.
  rewrite <- !app_assoc in IH. simpl in IH.
  replace (Z.of_nat (length pre) + 1) with (Z.of_nat (length pre + 1)) by lia.
  exact IH.
Qed.

Lemma telnet_rb_init_resets (cfg : config) (st : telnet) :
  length (l_bufs (telnet_rb st)) = Z.to_nat (TELNET_LINES cfg) →
  telnet_rb_init cfg st =
    Some (set_telnet_rb (LineBufRb (set_len 0 <$> l_bufs (telnet_rb st)) 0 0) st).
Proof.
  intros Hlen. unfold telnet_rb_init. rewrite <- Hlen.
  pose proof (rb_init_loop_zeroes (l_bufs (telnet_rb st)) [] [] 0 0) as H.
  simpl in H. rewrite !app_nil_r in H. change (Z.of_nat 0) with 0 in H.
  by rewrite H.
Qed.

(** C8, on the code: teardown restores the saved printk hook and forgets it,
    stops the timer, releases the connection and forgets it, releases the
    outbound buffer and resets the ring; but [out_buf] still designates the
    buffer that has just been released. *)
Theorem telnet_end_client_connection_keeps_out_buf (cfg : config) (st : telnet) (b : Z) :
  length (l_bufs (telnet_rb st)) = Z.to_nat (TELNET_LINES cfg) →
  out_buf st = Some b →
  ∃ st', telnet_end_client_connection cfg st = Some st' ∧
    printk_hook st' = orig_printk_hook st ∧
    orig_printk_hook st' = None ∧
    send_timer st' = false ∧
    puts st' = puts st ++ [client_cnx st] ∧
    client_cnx st' = None ∧
    unrefs st' = unrefs st ++ [b] ∧
    telnet_rb st' = LineBufRb (set_len 0 <$> l_bufs (telnet_rb st)) 0 0 ∧
    out_buf st' = Some b.
Proof.
  intros Hlen Hb. unfold telnet_end_client_connection. simpl. rewrite Hb.
  rewrite telnet_rb_init_resets by done.
  eexists. split; [reflexivity|]. simpl. by rewrite Hb.
Qed.

Lemma telnet_end_client_connection_keeps_out_buf_witness :
  let st := telnet_accept 5 0 0 (Some 9) (telnet_boot cfg_4_8 (Some (fn_console 0))) in
  (length (l_bufs (telnet_rb st)) = Z.to_nat (TELNET_LINES cfg_4_8) ∧
   out_buf st = Some 9) ∧
  ∃ st', telnet_end_client_connection cfg_4_8 st = Some st' ∧
         unrefs st' = [9] ∧ out_buf st' = Some 9.
Proof.
  intros st.
  assert (H1 : length (l_bufs (telnet_rb st)) = Z.to_nat (TELNET_LINES cfg_4_8))
    by reflexivity.
  assert (H2 : out_buf st = Some 9) by reflexivity.
  split; [done|].
  destruct (telnet_end_client_connection_keeps_out_buf cfg_4_8 st 9 H1 H2)
    as (st' & E & _ & _ & _ & _ & _ & Hu & _ & Ho).
  exists st'. done.
Defined.

(** A second teardown, as when the send callback reports a failure and the
    receive callback then reports the disconnection, releases the same
    buffer again and installs a [NULL] printk hook. *)
Lemma telnet_end_client_connection_twice :
  let st := telnet_accept 5 0 0 (Some 9) (telnet_boot cfg_4_8 (Some (fn_console 0))) in
  ∃ st', (telnet_sent_cb cfg_4_8 1 st ≫= telnet_recv cfg_4_8 None 0) = Some st' ∧
         unrefs st' = [9; 9] ∧ printk_hook st' = None.
Proof. intros st. eexists. split; [vm_compute; reflexivity|]. done. Qed.

(** ** The ring under its operations *)

Lemma list_insert_alter {A} (f : A → A) (l : list A) (i : nat) (x : A) :
  l !! i = Some x → <[i := f x]> l = alter f i l.
Proof.
  revert i. induction l as [|y l IH]; intros [|i] H; simpl in *; try done.
  - by inversion H.
  - f_equal. by apply IH.
Qed.

Lemma rb_next_range (cfg : config) (x : Z) :
  0 ≤ x < TELNET_LINES cfg → x < 65536 →
  0 ≤ rb_next cfg x < TELNET_LINES cfg ∧ rb_next cfg x < 65536.
Proof.
  intros Hx Hw. unfold rb_next.
  destruct (decide (x + 1 = 65536)) as [E|E].
  - rewrite E. unfold uint16. change (65536 mod 65536) with 0.
    destruct (decide (0 = TELNET_LINES cfg)); lia.
  - rewrite uint16_small by lia.
    destruct (decide (x + 1 = TELNET_LINES cfg)); lia.
Qed.

Lemma rb_set_len_alter (i n : Z) (rb : line_buf_rb) (lb : line_buf) :
  arr_get i (l_bufs rb) = Some lb →
  rb_set_len i n rb =
    Some (LineBufRb (alter (set_len n) (Z.to_nat i) (l_bufs rb))
            (line_in rb) (line_out rb)).
Proof.
  intros H. unfold rb_set_len. rewrite H. simpl.
  rewrite arr_set_Some by (by eapply arr_get_bound). simpl.
  apply arr_get_Some in H as [_ H]. by rewrite (list_insert_alter _ _ _ _ H).
Qed.

Lemma telnet_rb_k_sem_give (st : telnet) : telnet_rb (k_sem_give st) = telnet_rb st.
Proof. unfold k_sem_give. by destruct (decide _). Qed.

Lemma wire_k_sem_give (st : telnet) : wire (k_sem_give st) = wire st.
Proof. unfold k_sem_give. by destruct (decide _). Qed.

Lemma send_lock_k_sem_give (st : telnet) :
  send_lock st < UINT_MAX → send_lock (k_sem_give st) = send_lock st + 1.
Proof. intros H. unfold k_sem_give. by destruct (decide _). Qed.

Lemma telnet_rb_switch_eq (cfg : config) (st : telnet) :
  rb_shape cfg (telnet_rb st) →
  telnet_rb_switch cfg st =
    Some (k_sem_give (k_timer_start
            (set_telnet_rb (rb_switched cfg (telnet_rb st)) st))).
Proof.
  intros (Hlen & [Hin Hin'] & _ & _). unfold telnet_rb_switch. simpl.
  destruct (rb_next_range cfg _ Hin Hin') as [Hn _].
  destruct (arr_get_in_range (rb_next cfg (line_in (telnet_rb st)))
              (l_bufs (telnet_rb st))) as [lb Hlb]; [lia|].
  rewrite (rb_set_len_alter _ _ _ lb) by done. simpl.
  unfold rb_switched. by destruct (decide _).
Qed.

Lemma rb_switched_ok (cfg : config) (rb : line_buf_rb) :
  2 ≤ TELNET_LINE_SIZE cfg →
  rb_shape cfg rb → rb_ok cfg (rb_switched cfg rb).
Proof.
  intros HL (Hlen & [Hin Hin'] & [Hout Hout'] & Hall).
  destruct (rb_next_range cfg _ Hin Hin') as [Hn Hn'].
  destruct (rb_next_range cfg _ Hout Hout') as [Ho Ho'].
  unfold rb_switched. split; [split; [|split; [|split]]|]; simpl.
  - by rewrite length_alter.
  - done.
  - destruct (decide _); done.
  - apply Forall_alter; [done|]. intros lb _ [? ?]. split; simpl; [done|lia].
  - intros lb [_ H]%arr_get_Some. rewrite list_lookup_alter_eq in H.
    destruct (l_bufs rb !! _); simpl in H; [|done].
    inversion H. simpl. lia.
Qed.

Lemma telnet_console_out_eq (cfg : config) (c : Z) (st : telnet) (lb : line_buf) :
  TELNET_LINE_SIZE cfg < 65536 →
  arr_get (line_in (telnet_rb st)) (l_bufs (telnet_rb st)) = Some lb →
  length (buf lb) = Z.to_nat (TELNET_LINE_SIZE cfg) →
  0 ≤ len lb < TELNET_LINE_SIZE cfg - 1 →
  telnet_console_out cfg c st =
    let rb := telnet_rb st in
    if decide (c = LF ∨ len lb + 1 = TELNET_LINE_SIZE cfg - 1) then
      pair c <$> telnet_rb_switch cfg
        (set_telnet_rb
           (LineBufRb (<[Z.to_nat (line_in rb) := slot_terminate lb]> (l_bufs rb))
              (line_in rb) (line_out rb)) st)
    else
      Some (c, set_telnet_rb
                 (LineBufRb
                    (<[Z.to_nat (line_in rb) := slot_append (to_char c) lb]> (l_bufs rb))
                    (line_in rb) (line_out rb)) st).
Proof.
  intros HL Hlb Hbuf Hlen. unfold telnet_console_out, telnet_rb_get_line_in.
  rewrite Hlb. simpl.
  rewrite arr_set_Some by lia. simpl.
  rewrite (uint16_small (len lb + 1)) by lia.
  pose proof (arr_get_bound _ _ _ Hlb) as Hi.
  destruct (decide (c = LF ∨ len lb + 1 = TELNET_LINE_SIZE cfg - 1)).
  - rewrite arr_set_Some by (rewrite length_insert; lia). simpl.
    rewrite arr_set_Some by (rewrite !length_insert; lia). simpl.
    rewrite uint16_small by lia.
    rewrite arr_set_Some by done. simpl.
    replace (len lb + 1 - 1) with (len lb) by lia.
    rewrite list_insert_insert_eq.
    replace (len lb + 1 + 1) with (len lb + 2) by lia.
    unfold slot_terminate. by destruct (telnet_rb_switch _ _).
  - rewrite arr_set_Some by done. done.
Qed.

Lemma list_alter_id_at {A} (f : A → A) (l : list A) (i : nat) (x : A) :
  l !! i = Some x → f x = x → alter f i l = l.
Proof.
  intros H E. rewrite <- (list_insert_alter f l i x H), E.
  by apply list_insert_id.
Qed.

Lemma rb_shape_insert (cfg : config) (rb : line_buf_rb) (i : nat) (lb : line_buf) :
  rb_shape cfg rb → slot_ok cfg lb →
  rb_shape cfg (LineBufRb (<[i := lb]> (l_bufs rb)) (line_in rb) (line_out rb)).
Proof.
  intros (Hlen & Hin & Hout & Hall) Hlb. repeat split; simpl; try tauto.
  - by rewrite length_insert.
  - by apply Forall_insert.
Qed.

Lemma rb_shape_alter (cfg : config) (rb : line_buf_rb) (i : nat) (o : Z) :
  rb_shape cfg rb → 0 ≤ o < TELNET_LINES cfg → o < 65536 →
  rb_shape cfg (LineBufRb (alter (set_len 0) i (l_bufs rb)) (line_in rb) o).
Proof.
  intros (Hlen & Hin & Hout & Hall) Ho Ho'. repeat split; simpl; try tauto.
  - by rewrite length_alter.
  - apply Forall_alter; [done|]. intros lb _ [? ?]. split; simpl; [done|lia].
Qed.

Lemma rb_shape_slot (cfg : config) (rb : line_buf_rb) (i : Z) (lb : line_buf) :
  rb_shape cfg rb → arr_get i (l_bufs rb) = Some lb → slot_ok cfg lb.
Proof.
  intros (_ & _ & _ & Hall) [_ H]%arr_get_Some.
  by eapply Forall_lookup_1.
Qed.

Lemma rb_shape_line_in (cfg : config) (rb : line_buf_rb) :
  rb_shape cfg rb → ∃ lb, arr_get (line_in rb) (l_bufs rb) = Some lb.
Proof. intros (Hlen & Hin & _). apply arr_get_in_range. lia. Qed.

Lemma rb_shape_line_out (cfg : config) (rb : line_buf_rb) :
  rb_shape cfg rb → ∃ lb, arr_get (line_out rb) (l_bufs rb) = Some lb.
Proof. intros (Hlen & _ & Hout & _). apply arr_get_in_range. lia. Qed.

Lemma slot_terminate_ok (cfg : config) (lb : line_buf) :
  slot_ok cfg lb → len lb < TELNET_LINE_SIZE cfg - 1 →
  slot_ok cfg (slot_terminate lb).
Proof.
  intros [Hb Hl] Hlt. split; simpl; [by rewrite !length_insert|lia].
Qed.

Lemma slot_append_ok (cfg : config) (c : Z) (lb : line_buf) :
  slot_ok cfg lb → len lb < TELNET_LINE_SIZE cfg - 1 →
  slot_ok cfg (slot_append c lb).
Proof.
  intros [Hb Hl] Hlt. split; simpl; [by rewrite !length_insert|lia].
Qed.

Lemma telnet_console_out_ok (cfg : config) (c : Z) (st : telnet) :
  2 ≤ TELNET_LINE_SIZE cfg < 65536 →
  rb_ok cfg (telnet_rb st) →
  ∃ st', telnet_console_out cfg c st = Some (c, st') ∧ rb_ok cfg (telnet_rb st').
Proof.
  intros HL [Hsh Hw].
  destruct (rb_shape_line_in _ _ Hsh) as [lb Hlb].
  pose proof (rb_shape_slot _ _ _ _ Hsh Hlb) as Hok.
  pose proof (Hw _ Hlb) as Hlt. pose proof Hok as [Hb Hl].
  rewrite (telnet_console_out_eq cfg c st lb) by (done || lia). simpl.
  destruct (decide _) as [Hsw|Hpl].
  - rewrite telnet_rb_switch_eq
      by (apply rb_shape_insert; [done|by apply slot_terminate_ok]).
    simpl. eexists. split; [done|]. rewrite telnet_rb_k_sem_give. simpl.
    apply rb_switched_ok; [lia|].
    apply rb_shape_insert; [done|by apply slot_terminate_ok].
  - eexists. split; [done|]. simpl. split.
    + apply rb_shape_insert; [done|by apply slot_append_ok].
    + simpl. intros lb' [_ H]%arr_get_Some.
      pose proof (arr_get_bound _ _ _ Hlb).
      rewrite list_lookup_insert_eq in H by lia. inversion H. simpl. lia.
Qed.

Lemma telnet_rb_switch_ok (cfg : config) (st : telnet) :
  2 ≤ TELNET_LINE_SIZE cfg →
  rb_shape cfg (telnet_rb st) →
  ∃ st', telnet_rb_switch cfg st = Some st' ∧ rb_ok cfg (telnet_rb st').
Proof.
  intros HL Hsh. rewrite telnet_rb_switch_eq by done.
  eexists. split; [done|]. rewrite telnet_rb_k_sem_give. simpl.
  by apply rb_switched_ok.
Qed.

Lemma telnet_send_prematurely_ok (cfg : config) (st : telnet) :
  2 ≤ TELNET_LINE_SIZE cfg →
  rb_ok cfg (telnet_rb st) →
  ∃ st', telnet_send_prematurely cfg st = Some st' ∧ rb_ok cfg (telnet_rb st').
Proof.
  intros HL [Hsh Hw]. unfold telnet_send_prematurely, telnet_rb_get_line_in.
  destruct (rb_shape_line_in _ _ Hsh) as [lb Hlb]. rewrite Hlb. simpl.
  destruct (decide _).
  - by apply telnet_rb_switch_ok.
  - by exists st.
Qed.

Lemma telnet_rb_get_line_out_ok (cfg : config) (st : telnet) :
  rb_ok cfg (telnet_rb st) →
  ∃ r st', telnet_rb_get_line_out cfg st = Some (r, st') ∧
           rb_ok cfg (telnet_rb st').
Proof.
  intros [Hsh Hw]. unfold telnet_rb_get_line_out.
  destruct (rb_shape_line_out _ _ Hsh) as [lb Hlb]. rewrite Hlb. simpl.
  pose proof Hsh as (Hlen & Hin & [Hout Hout'] & Hall).
  destruct (rb_next_range cfg _ Hout Hout') as [Ho Ho'].
  assert (rb_ok cfg (LineBufRb (l_bufs (telnet_rb st)) (line_in (telnet_rb st))
                       (rb_next cfg (line_out (telnet_rb st))))).
  { split; [|done]. repeat split; simpl; tauto. }
  destruct (decide _); eexists _, _; (split; [done|]); done.
Qed.

(** [telnet_send] in one formula: the slot at the read index is emptied,
    the read index advances, and the bytes the slot held, if any, are
    handed to the transport. *)
Lemma telnet_send_spec (cfg : config) (rc : Z) (tx : option Z) (st : telnet)
    (lb : line_buf) :
  rb_shape cfg (telnet_rb st) →
  arr_get (line_out (telnet_rb st)) (l_bufs (telnet_rb st)) = Some lb →
  ∃ ok st', telnet_send cfg rc tx st = Some (ok, st') ∧
    telnet_rb st' =
      LineBufRb (alter (set_len 0) (Z.to_nat (line_out (telnet_rb st)))
                   (l_bufs (telnet_rb st)))
        (line_in (telnet_rb st)) (rb_next cfg (line_out (telnet_rb st))) ∧
    wire st' = wire st ++ (if decide (len lb = 0) then [] else [line_data lb]) ∧
    send_lock st' = send_lock st ∧
    (rc = 0 → is_Some tx → ok = true).
Proof.
  intros Hsh Hlb. unfold telnet_send, telnet_rb_get_line_out.
  rewrite Hlb. simpl.
  pose proof Hlb as [_ Hlb']%arr_get_Some.
  destruct (decide (len lb = 0)) as [E|E]; simpl.
  - eexists _, _. split; [done|]. simpl. repeat split; try done.
    + rewrite (list_alter_id_at _ _ _ lb); [done..|].
      destruct lb as [b l]. simpl in E. by subst l.
    + by rewrite app_nil_r.
  - rewrite Hlb. simpl.
    rewrite (rb_set_len_alter _ _ _ lb) by done. simpl.
    destruct (decide (rc ≠ 0)) as [Hrc|Hrc].
    + eexists _, _. split; [done|]. simpl. repeat split; done.
    + unfold telnet_setup_out_buf. simpl. destruct tx as [b|]; simpl.
      * eexists _, _. split; [done|]. simpl. repeat split; done.
      * eexists _, _. split; [done|]. simpl. repeat split; done.
Qed.

Lemma telnet_send_ok (cfg : config) (rc : Z) (tx : option Z) (st : telnet) :
  rb_ok cfg (telnet_rb st) →
  ∃ ok st', telnet_send cfg rc tx st = Some (ok, st') ∧
            rb_ok cfg (telnet_rb st').
Proof.
  intros [Hsh Hw].
  destruct (rb_shape_line_out _ _ Hsh) as [lb Hlb].
  destruct (telnet_send_spec cfg rc tx st lb Hsh Hlb)
    as (ok & st' & E & Hrb & _).
  exists ok, st'. split; [done|]. rewrite Hrb.
  pose proof Hsh as (Hlen & Hin & [Hout Hout'] & Hall).
  destruct (rb_next_range cfg _ Hout Hout') as [Ho Ho'].
  split; [by apply rb_shape_alter|]. simpl.
  intros lb' [_ H]%arr_get_Some.
  destruct (decide (Z.to_nat (line_out (telnet_rb st))
                    = Z.to_nat (line_in (telnet_rb st)))) as [Eq|Ne].
  - rewrite Eq, list_lookup_alter_eq in H.
    destruct (l_bufs (telnet_rb st) !! _) as [x|] eqn:Ex; simpl in H; [|done].
    inversion H. simpl.
    assert (Hx : arr_get (line_in (telnet_rb st)) (l_bufs (telnet_rb st)) = Some x)
      by (apply arr_get_Some; split; [lia|done]).
    pose proof (Hw _ Hx). pose proof (rb_shape_slot _ _ _ _ Hsh Hx) as [_ ?]. lia.
  - rewrite list_lookup_alter_ne in H by done.
    apply Hw. apply arr_get_Some. split; [lia|done].
Qed.

Lemma telnet_rb_init_ok (cfg : config) (st : telnet) :
  2 ≤ TELNET_LINE_SIZE cfg →
  rb_shape cfg (telnet_rb st) →
  ∃ st', telnet_rb_init cfg st = Some st' ∧ rb_ok cfg (telnet_rb st') ∧
         line_in (telnet_rb st') = 0 ∧ line_out (telnet_rb st') = 0 ∧
         Forall (λ lb, len lb = 0) (l_bufs (telnet_rb st')).
Proof.
  intros HL (Hlen & Hin & Hout & Hall).
  rewrite telnet_rb_init_resets by done. eexists. split; [done|]. simpl.
  split; [|split; [done|split; [done|]]].
  - split; [repeat split; simpl; try lia|].
    + by rewrite length_fmap.
    + apply Forall_fmap. eapply Forall_impl; [done|].
      intros lb [? ?]. split; simpl; [done|lia].
    + simpl. intros lb [_ H]%arr_get_Some. rewrite list_lookup_fmap in H.
      destruct (l_bufs (telnet_rb st) !! _); simpl in H; [|done].
      inversion H. simpl. lia.
  - apply Forall_fmap. by apply Forall_true.
Qed.

Lemma telnet_end_client_connection_ok (cfg : config) (st : telnet) :
  2 ≤ TELNET_LINE_SIZE cfg →
  rb_shape cfg (telnet_rb st) →
  ∃ st', telnet_end_client_connection cfg st = Some st' ∧
         rb_ok cfg (telnet_rb st').
Proof.
  intros HL Hsh. unfold telnet_end_client_connection.
  match goal with |- ∃ st', telnet_rb_init cfg ?s = _ ∧ _ =>
    destruct (telnet_rb_init_ok cfg s HL) as (st' & E & Hok & _)
  end.
  { simpl. by destruct (out_buf st). }
  by exists st'.
Qed.

(** ** Ring invariant *)

Lemma rb_zero_ok (cfg : config) :
  0 < TELNET_LINES cfg → 2 ≤ TELNET_LINE_SIZE cfg → rb_ok cfg (rb_zero cfg).
Proof.
  intros HN HL. unfold rb_zero. split; [repeat split; simpl; try lia|].
  - by rewrite length_replicate.
  - apply Forall_replicate. split; simpl; [by rewrite length_replicate|lia].
  - simpl. intros lb [_ H]%arr_get_Some.
    apply lookup_replicate in H as [-> _]. simpl. lia.
Qed.

Lemma rb_step_ok (cfg : config) (op : rb_op) (st : telnet) :
  2 ≤ TELNET_LINE_SIZE cfg < 65536 →
  rb_ok cfg (telnet_rb st) →
  ∃ st', rb_step cfg op st = Some st' ∧ rb_ok cfg (telnet_rb st').
Proof.
  intros HL Hok. destruct op as [c| | |rc tx| | |]; simpl.
  - destruct (telnet_console_out_ok cfg c st HL Hok) as (st' & -> & H).
    by exists st'.
  - apply telnet_rb_switch_ok; [lia|]. by destruct Hok.
  - destruct (telnet_rb_get_line_out_ok cfg st Hok) as (r & st' & -> & H).
    by exists st'.
  - destruct (telnet_send_ok cfg rc tx st Hok) as (ok & st' & -> & H).
    by exists st'.
  - destruct (telnet_rb_init_ok cfg st) as (st' & -> & H & _);
      [lia|by destruct Hok|]. by exists st'.
  - apply telnet_send_prematurely_ok; [lia|done].
  - apply telnet_end_client_connection_ok; [lia|]. by destruct Hok.
Qed.

Lemma rb_run_ok (cfg : config) (ops : list rb_op) (st : telnet) :
  2 ≤ TELNET_LINE_SIZE cfg < 65536 →
  rb_ok cfg (telnet_rb st) →
  ∃ st', rb_run cfg ops st = Some st' ∧ rb_ok cfg (telnet_rb st').
Proof.
  intros HL. revert st. induction ops as [|op ops IH]; intros st Hok; simpl.
  - by exists st.
  - destruct (rb_step_ok cfg op st HL Hok) as (st1 & -> & Hok1). simpl.
    by apply IH.
Qed.

Lemma count_readable_bounds (w i : Z) (slots : list line_buf) :
  0 ≤ count_readable w i slots ≤ Z.of_nat (length slots).
Proof.
  revert i. induction slots as [|lb slots IH]; intros i; simpl; [lia|].
  specialize (IH (i + 1)). destruct (decide _); lia.
Qed.

(** C9: whatever operations are applied to the ring from power-on
    (appending a character, switching, taking the readable slot, sending,
    resetting, the timer-forced switch, tearing the session down), each of
    them is defined, both indices stay in [0, TELNET_LINES) and the number
    of readable slots stays at most TELNET_LINES. *)
Theorem ring_invariant (cfg : config) (hook : option printk_fn) (ops : list rb_op) :
  0 < TELNET_LINES cfg →
  2 ≤ TELNET_LINE_SIZE cfg < 65536 →
  ∃ st, rb_run cfg ops (telnet_boot cfg hook) = Some st ∧
    0 ≤ line_in (telnet_rb st) < TELNET_LINES cfg ∧
    0 ≤ line_out (telnet_rb st) < TELNET_LINES cfg ∧
    0 ≤ readable_slots (telnet_rb st) ≤ TELNET_LINES cfg.
Proof.
  intros HN HL.
  destruct (rb_run_ok cfg ops (telnet_boot cfg hook) HL) as (st & E & Hok).
  { apply rb_zero_ok; lia. }
  exists st. split; [done|].
  destruct Hok as [(Hlen & [Hin _] & [Hout _] & _) _].
  split; [done|]. split; [done|].
  pose proof (count_readable_bounds (line_in (telnet_rb st)) 0
                (l_bufs (telnet_rb st))) as H.
  unfold readable_slots. lia.
Qed.

Lemma ring_invariant_witness :
  let ops := [op_append 97; op_append LF; op_timer; op_append 98; op_take;
              op_send 0 (Some 7); op_switch; op_reset; op_teardown] in
  (0 < TELNET_LINES cfg_4_8 ∧ 2 ≤ TELNET_LINE_SIZE cfg_4_8 < 65536) ∧
  ∃ st, rb_run cfg_4_8 ops (telnet_boot cfg_4_8 None) = Some st ∧
    0 ≤ line_in (telnet_rb st) < TELNET_LINES cfg_4_8 ∧
    0 ≤ line_out (telnet_rb st) < TELNET_LINES cfg_4_8 ∧
    0 ≤ readable_slots (telnet_rb st) ≤ TELNET_LINES cfg_4_8.
Proof.
  intros ops.
  assert (H1 : 0 < TELNET_LINES cfg_4_8) by (simpl; lia).
  assert (H2 : 2 ≤ TELNET_LINE_SIZE cfg_4_8 < 65536) by (simpl; lia).
  split; [done|].
  exact (ring_invariant cfg_4_8 None ops H1 H2).
Defined.

(** ** The printk hook, character by character *)

Lemma line_data_slot_append (c : Z) (lb : line_buf) :
  0 ≤ len lb < Z.of_nat (length (buf lb)) →
  line_data (slot_append c lb) = line_data lb ++ [c].
Proof.
  intros H. unfold line_data, slot_append. simpl.
  replace (Z.to_nat (len lb + 1)) with (S (Z.to_nat (len lb))) by lia.
  rewrite (take_S_r _ _ c) by (apply list_lookup_insert_eq; lia).
  by rewrite take_insert_ge by lia.
Qed.

Lemma line_data_slot_terminate (lb : line_buf) :
  0 ≤ len lb ∧ len lb + 1 < Z.of_nat (length (buf lb)) →
  line_data (slot_terminate lb) = line_data lb ++ [CR; LF].
Proof.
  intros H. unfold line_data, slot_terminate. simpl.
  replace (Z.to_nat (len lb + 2)) with (S (S (Z.to_nat (len lb)))) by lia.
  replace (Z.to_nat (len lb + 1)) with (S (Z.to_nat (len lb))) by lia.
  rewrite (take_S_r _ _ LF)
    by (apply list_lookup_insert_eq; rewrite length_insert; lia).
  rewrite take_insert_ge by lia.
  rewrite (take_S_r _ _ CR) by (apply list_lookup_insert_eq; lia).
  rewrite take_insert_ge by lia. by rewrite <- app_assoc.
Qed.

Lemma telnet_console_out_plain (cfg : config) (c : Z) (st : telnet) (lb : line_buf) :
  TELNET_LINE_SIZE cfg < 65536 →
  rb_shape cfg (telnet_rb st) →
  arr_get (line_in (telnet_rb st)) (l_bufs (telnet_rb st)) = Some lb →
  len lb + 1 < TELNET_LINE_SIZE cfg - 1 →
  0 ≤ c < 256 → c ≠ LF →
  telnet_console_out cfg c st =
    Some (c, set_telnet_rb
               (LineBufRb
                  (<[Z.to_nat (line_in (telnet_rb st)) := slot_append c lb]>
                     (l_bufs (telnet_rb st)))
                  (line_in (telnet_rb st)) (line_out (telnet_rb st))) st).
Proof.
  intros HL Hsh Hlb Hlen Hc Hne.
  destruct (rb_shape_slot _ _ _ _ Hsh Hlb) as [Hb Hl].
  rewrite (telnet_console_out_eq cfg c st lb) by (done || lia). simpl.
  destruct (decide _) as [[?|?]|_]; [done|lia|].
  unfold to_char. by rewrite Z.mod_small by lia.
Qed.

Lemma telnet_console_out_lf (cfg : config) (st : telnet) (lb : line_buf) :
  TELNET_LINE_SIZE cfg < 65536 →
  rb_shape cfg (telnet_rb st) →
  arr_get (line_in (telnet_rb st)) (l_bufs (telnet_rb st)) = Some lb →
  len lb < TELNET_LINE_SIZE cfg - 1 →
  telnet_console_out cfg LF st =
    Some (LF, k_sem_give (k_timer_start
                (set_telnet_rb
                   (rb_switched cfg
                      (LineBufRb
                         (<[Z.to_nat (line_in (telnet_rb st)) := slot_terminate lb]>
                            (l_bufs (telnet_rb st)))
                         (line_in (telnet_rb st)) (line_out (telnet_rb st))))
                   st))).
Proof.
  intros HL Hsh Hlb Hlen.
  pose proof (rb_shape_slot _ _ _ _ Hsh Hlb) as Hok. pose proof Hok as [Hb Hl].
  rewrite (telnet_console_out_eq cfg LF st lb) by (done || lia). cbv zeta.
  destruct (decide (LF = LF ∨ _)) as [_|Hn]; [|exfalso; apply Hn; by left].
  rewrite telnet_rb_switch_eq
    by (apply rb_shape_insert; [done|by apply slot_terminate_ok]).
  done.
Qed.

(** C2, on the code: with 8-byte slots the line "abcdefghij\n" is switched
    when 'g' arrives, and the carriage-return of the forced terminator is
    stored over that 'g'.  The two fragments sent are "abcdef\r\n" and
    "hij\r\n"; without their terminators they read "abcdefhij". *)
Theorem telnet_console_out_capacity_drops_byte :
  let input := [97; 98; 99; 100; 101; 102; 103; 104; 105; 106; 10] in
  ∃ st st',
    printk cfg_4_8 input (telnet_boot cfg_4_8 None) = Some st ∧
    telnet_run cfg_4_8 (Z.to_nat (send_lock st)) 7 st = Some st' ∧
    wire st' = [[97; 98; 99; 100; 101; 102; 13; 10]; [104; 105; 106; 13; 10]] ∧
    concat (strip_crlf <$> wire st') = [97; 98; 99; 100; 101; 102; 104; 105; 106] ∧
    concat (strip_crlf <$> wire st') ≠ [97; 98; 99; 100; 101; 102; 103; 104; 105; 106].
Proof.
  intros input. eexists _, _.
  split; [vm_compute; reflexivity|].
  split; [vm_compute; reflexivity|].
  split; [reflexivity|]. split; [reflexivity|]. vm_compute. discriminate.
Qed.

(** ** The printk hook, line by line *)

Lemma printk_app (cfg : config) (a b : list Z) (st : telnet) :
  printk cfg (a ++ b) st = printk cfg a st ≫= printk cfg b.
Proof.
  revert st. induction a as [|c a IH]; intros st; simpl; [done|].
  destruct (telnet_console_out cfg c st) as [[r st1]|]; simpl; [|done].
  apply IH.
Qed.

Lemma arr_get_insert_eq {A} (i : Z) (x : A) (l : list A) :
  0 ≤ i < Z.of_nat (length l) → arr_get i (<[Z.to_nat i := x]> l) = Some x.
Proof.
  intros H. apply arr_get_Some. split; [lia|].
  apply list_lookup_insert_eq. lia.
Qed.

Lemma arr_get_insert_ne {A} (i j : Z) (x : A) (l : list A) :
  0 ≤ i → 0 ≤ j → i ≠ j → arr_get j (<[Z.to_nat i := x]> l) = arr_get j l.
Proof.
  intros Hi Hj Hne. unfold arr_get. destruct (decide (0 ≤ j)); [|done].
  apply list_lookup_insert_ne. lia.
Qed.

Lemma arr_get_alter_eq {A} (f : A → A) (i : Z) (l : list A) :
  arr_get i (alter f (Z.to_nat i) l) = f <$> arr_get i l.
Proof.
  unfold arr_get. destruct (decide (0 ≤ i)); [|done].
  apply list_lookup_alter_eq.
Qed.

Lemma arr_get_alter_ne {A} (f : A → A) (i j : Z) (l : list A) :
  0 ≤ i → 0 ≤ j → i ≠ j → arr_get j (alter f (Z.to_nat i) l) = arr_get j l.
Proof.
  intros Hi Hj Hne. unfold arr_get. destruct (decide (0 ≤ j)); [|done].
  apply list_lookup_alter_ne. lia.
Qed.

(** A run of characters other than the line-feed that fits the write slot
    is appended to it and changes nothing else. *)
Lemma printk_body (cfg : config) (body : list Z) (st : telnet) (lb : line_buf) :
  TELNET_LINE_SIZE cfg < 65536 →
  rb_shape cfg (telnet_rb st) →
  arr_get (line_in (telnet_rb st)) (l_bufs (telnet_rb st)) = Some lb →
  len lb + Z.of_nat (length body) < TELNET_LINE_SIZE cfg - 1 →
  Forall (λ c, 0 ≤ c < 256 ∧ c ≠ LF) body →
  ∃ lb', printk cfg body st =
      Some (set_telnet_rb
              (LineBufRb (<[Z.to_nat (line_in (telnet_rb st)) := lb']>
                            (l_bufs (telnet_rb st)))
                 (line_in (telnet_rb st)) (line_out (telnet_rb st))) st) ∧
    line_data lb' = line_data lb ++ body ∧
    len lb' = len lb + Z.of_nat (length body) ∧
    slot_ok cfg lb'.
Proof.
  intros HL. revert st lb.
  induction body as [|c body IH]; intros st lb Hsh Hlb Hlen Hcs.
  - exists lb. simpl. split; [|split; [by rewrite app_nil_r|split; [lia|]]].
    + f_equal. pose proof Hlb as [_ H]%arr_get_Some.
      rewrite list_insert_id by done.
      destruct st as [[]]; done.
    + by eapply rb_shape_slot.
  - apply Forall_cons in Hcs as [[Hc Hne] Hcs]. simpl in Hlen.
    pose proof (rb_shape_slot _ _ _ _ Hsh Hlb) as Hok. pose proof Hok as [Hb Hl].
    pose proof (arr_get_bound _ _ _ Hlb) as Hi.
    simpl. rewrite (telnet_console_out_plain cfg c st lb) by (done || lia).
    simpl.
    set (st1 := set_telnet_rb _ st).
    destruct (IH st1 (slot_append c lb)) as (lb' & E & Hd & Hl' & Hok').
    + apply rb_shape_insert; [done|]. apply slot_append_ok; [done|lia].
    + simpl. by apply arr_get_insert_eq.
    + simpl. lia.
    + done.
    + exists lb'. rewrite E. subst st1. simpl.
      rewrite list_insert_insert_eq. split; [done|].
      split; [|split; [simpl in Hl'; lia|done]].
      rewrite Hd, line_data_slot_append by lia. by rewrite <- app_assoc.
Qed.

(** A complete line that fits the write slot is stored there with its
    terminator pair, after which the hook switches slots. *)
Lemma printk_line (cfg : config) (body : list Z) (st : telnet) (lb : line_buf) :
  TELNET_LINE_SIZE cfg < 65536 →
  rb_shape cfg (telnet_rb st) →
  arr_get (line_in (telnet_rb st)) (l_bufs (telnet_rb st)) = Some lb →
  len lb + Z.of_nat (length body) < TELNET_LINE_SIZE cfg - 1 →
  Forall (λ c, 0 ≤ c < 256 ∧ c ≠ LF) body →
  ∃ lb', printk cfg (complete_line body) st =
      Some (k_sem_give (k_timer_start
              (set_telnet_rb
                 (rb_switched cfg
                    (LineBufRb (<[Z.to_nat (line_in (telnet_rb st)) := lb']>
                                  (l_bufs (telnet_rb st)))
                       (line_in (telnet_rb st)) (line_out (telnet_rb st))))
                 st))) ∧
    line_data lb' = line_data lb ++ wire_line body ∧
    len lb' = len lb + Z.of_nat (length body) + 2 ∧
    slot_ok cfg lb'.
Proof.
  intros HL Hsh Hlb Hlen Hcs.
  destruct (printk_body cfg body st lb HL Hsh Hlb Hlen Hcs)
    as (lb1 & E & Hd & Hl1 & Hok1).
  pose proof (rb_shape_slot _ _ _ _ Hsh Hlb) as [Hb Hl].
  pose proof (arr_get_bound _ _ _ Hlb) as Hi.
  pose proof Hok1 as [Hb1 _].
  unfold complete_line. rewrite printk_app, E. simpl.
  rewrite (telnet_console_out_lf cfg _ lb1); simpl.
  - exists (slot_terminate lb1). rewrite list_insert_insert_eq.
    split; [done|]. split; [|split; [simpl; lia|]].
    + rewrite line_data_slot_terminate by lia. rewrite Hd.
      unfold wire_line. by rewrite <- app_assoc.
    + apply slot_terminate_ok; [done|lia].
  - done.
  - by apply rb_shape_insert.
  - by apply arr_get_insert_eq.
  - lia.
Qed.

(** ** Lines fed with no drain: the overwrite policy *)

Lemma mod_add_ne (n a d : Z) :
  0 < d < n → (a + d) mod n ≠ a mod n.
Proof.
  intros Hd E.
  assert (H : (a + d - a) mod n = 0).
  { rewrite Zminus_mod, E, Z.sub_diag. by apply Z.mod_0_l; lia. }
  replace (a + d - a) with d in H by lia.
  rewrite Z.mod_small in H by lia. lia.
Qed.

Lemma rb_next_of_mod (cfg : config) (k : Z) :
  0 < TELNET_LINES cfg ≤ 65536 →
  rb_next cfg (k mod TELNET_LINES cfg) = (k + 1) mod TELNET_LINES cfg.
Proof.
  intros HN. rewrite rb_next_mod; [|apply Z.mod_pos_bound; lia|lia].
  by rewrite Zplus_mod_idemp_l.
Qed.

Lemma line_data_empty (lb : line_buf) : len lb = 0 → line_data lb = [].
Proof. intros E. unfold line_data. by rewrite E. Qed.

Lemma fed_fresh (cfg : config) (st0 st : telnet) :
  0 < TELNET_LINES cfg → 2 ≤ TELNET_LINE_SIZE cfg →
  rb_shape cfg (telnet_rb st0) →
  telnet_rb_init cfg st0 = Some st →
  fed cfg [] st ∧ wire st = wire st0.
Proof.
  intros HN HL Hsh0 E.
  destruct (telnet_rb_init_ok cfg st0 HL Hsh0)
    as (st1 & E1 & [Hsh _] & Hin & Hout & Hzero).
  rewrite E in E1. inversion E1; subst st1. split.
  - split; [done|]. simpl. change (Z.of_nat 0) with 0.
    rewrite Z.mod_0_l by lia. split; [done|]. split.
    + destruct (decide (0 < TELNET_LINES cfg)); [done|lia].
    + split; [|intros j body H; done].
      destruct (rb_shape_line_in _ _ Hsh) as [lb Hlb]. exists lb.
      split; [done|]. apply arr_get_Some in Hlb as [_ Hlb].
      by eapply (Forall_lookup_1 _ _ _ _ Hzero).
  - rewrite telnet_rb_init_resets in E by (by destruct Hsh0).
    by inversion E.
Qed.

Lemma fed_line (cfg : config) (bodies : list (list Z)) (body : list Z) (st : telnet) :
  2 ≤ TELNET_LINES cfg ≤ 65536 →
  2 ≤ TELNET_LINE_SIZE cfg < 65536 →
  body_ok cfg body →
  fed cfg bodies st →
  ∃ st', printk cfg (complete_line body) st = Some st' ∧
         fed cfg (bodies ++ [body]) st' ∧
         wire st' = wire st.
Proof.
  intros HN HL [Hcs Hfit] (Hsh & Hin & Hout & (lb & Hlb & Hl0) & Hslots).
  set (k := Z.of_nat (length bodies)) in *.
  set (n := TELNET_LINES cfg) in *.
  destruct (printk_line cfg body st lb) as (lb1 & E & Hd & Hl1 & Hok1);
    [lia|done|done|lia|done|].
  rewrite (line_data_empty lb) in Hd by done. simpl in Hd.
  pose proof (arr_get_bound _ _ _ Hlb) as Hi.
  pose proof Hsh as (Hlen & _ & _ & _).
  eexists. split; [exact E|]. split; [|by rewrite wire_k_sem_give].
  assert (Hk : 0 ≤ k) by (subst k; lia).
  assert (Hin' : rb_next cfg (line_in (telnet_rb st)) = (k + 1) mod n).
  { rewrite Hin. apply rb_next_of_mod. lia. }
  assert (Hne : (k + 1) mod n ≠ k mod n) by (apply mod_add_ne; lia).
  assert (Hr1 : 0 ≤ (k + 1) mod n < n) by (apply Z.mod_pos_bound; lia).
  assert (Hr0 : 0 ≤ k mod n < n) by (apply Z.mod_pos_bound; lia).
  unfold fed. rewrite telnet_rb_k_sem_give. simpl.
  rewrite length_app. simpl length.
  replace (Z.of_nat (length bodies + 1)) with (k + 1) by (subst k; lia).
  fold n. rewrite Hin'.
  split; [|split; [done|split; [|split]]].
  - apply rb_switched_ok; [lia|]. by apply rb_shape_insert.
  - rewrite Hout.
    destruct (decide (k + 1 < n)) as [Hlt|Hge].
    + destruct (decide (k < n)); [|lia].
      rewrite (Z.mod_small (k + 1)) by lia.
      destruct (decide (k + 1 = 0)); [lia|done].
    + destruct (decide (k < n)) as [Hlt|Hge'].
      * assert (k + 1 = n) as Ek by lia.
        rewrite Ek, Z.mod_same by lia.
        destruct (decide (0 = 0)); [|done].
        replace 0 with (0 mod n) at 1 by (apply Z.mod_0_l; lia).
        rewrite rb_next_of_mod by lia. fold n.
        replace (n + 1) with (0 + 1 + 1 * n) by lia.
        by rewrite Z_mod_plus_full.
      * destruct (decide _); [|done].
        rewrite rb_next_of_mod by lia. done.
  - rewrite arr_get_alter_eq.
    destruct (arr_get_in_range ((k + 1) mod n)
                (<[Z.to_nat (line_in (telnet_rb st)) := lb1]> (l_bufs (telnet_rb st))))
      as [x Hx]; [rewrite length_insert; lia|].
    rewrite Hx. simpl. by eexists.
  - intros j b Hj Hnear.
    assert (Hj0 : 0 ≤ Z.of_nat j mod n < n) by (apply Z.mod_pos_bound; lia).
    pose proof (lookup_lt_Some _ _ _ Hj) as Hjl.
    rewrite length_app in Hjl. simpl in Hjl.
    assert (Hne1 : (k + 1) mod n ≠ Z.of_nat j mod n).
    { replace (k + 1) with (Z.of_nat j + (k + 1 - Z.of_nat j)) by lia.
      apply mod_add_ne. lia. }
    rewrite arr_get_alter_ne by (done || lia).
    destruct (decide (j = length bodies)) as [->|Hjk].
    + rewrite list_lookup_middle in Hj by done. inversion Hj; subst b.
      fold k. rewrite Hin. rewrite arr_get_insert_eq by lia.
      by exists lb1.
    + rewrite lookup_app_l in Hj by lia.
      assert (Hne0 : k mod n ≠ Z.of_nat j mod n).
      { replace k with (Z.of_nat j + (k - Z.of_nat j)) at 1 by lia.
        apply mod_add_ne. lia. }
      rewrite Hin. rewrite arr_get_insert_ne by (done || lia).
      apply Hslots; [done|lia].
Qed.

Lemma fed_lines (cfg : config) (bodies more : list (list Z)) (st : telnet) :
  2 ≤ TELNET_LINES cfg ≤ 65536 →
  2 ≤ TELNET_LINE_SIZE cfg < 65536 →
  Forall (body_ok cfg) more →
  fed cfg bodies st →
  ∃ st', printk cfg (concat (complete_line <$> more)) st = Some st' ∧
         fed cfg (bodies ++ more) st' ∧
         wire st' = wire st.
Proof.
  intros HN HL. revert bodies st.
  induction more as [|body more IH]; intros bodies st Hok Hfed.
  - exists st. by rewrite app_nil_r.
  - apply Forall_cons in Hok as [Hb Hok].
    destruct (fed_line cfg bodies body st HN HL Hb Hfed) as (st1 & E1 & Hfed1 & Hw1).
    destruct (IH (bodies ++ [body]) st1 Hok Hfed1) as (st2 & E2 & Hfed2 & Hw2).
    exists st2. simpl. rewrite printk_app, E1. simpl.
    split; [done|]. rewrite <- app_assoc in Hfed2. split; [done|congruence].
Qed.

(** C1, as the code has it: one slot is always the write target, so a ring
    of TELNET_LINES slots holds TELNET_LINES - 1 unread lines.  Feeding
    TELNET_LINES complete lines to a ring just reset by [telnet_rb_init],
    nothing being sent, already discards the oldest one and leaves the read
    index on the second-oldest; one more line discards the second-oldest as
    well and leaves the read index on the third-oldest. *)
Theorem overwrite_policy (cfg : config) (st0 st1 : telnet)
    (bodies : list (list Z)) (extra : list Z) :
  2 ≤ TELNET_LINES cfg ≤ 65536 →
  2 ≤ TELNET_LINE_SIZE cfg < 65536 →
  rb_shape cfg (telnet_rb st0) →
  telnet_rb_init cfg st0 = Some st1 →
  Forall (body_ok cfg) bodies → body_ok cfg extra →
  Z.of_nat (length bodies) = TELNET_LINES cfg →
  ∃ st st',
    printk cfg (concat (complete_line <$> bodies)) st1 = Some st ∧
    printk cfg (complete_line extra) st = Some st' ∧
    wire st' = wire st0 ∧
    (line_in (telnet_rb st) = 0 ∧ line_out (telnet_rb st) = 1 ∧
     (∃ lb, arr_get 0 (l_bufs (telnet_rb st)) = Some lb ∧ len lb = 0) ∧
     ∀ (j : nat) body, (1 ≤ j)%nat → bodies !! j = Some body →
       ∃ lb, arr_get (Z.of_nat j) (l_bufs (telnet_rb st)) = Some lb ∧
             line_data lb = wire_line body) ∧
    (line_in (telnet_rb st') = 1 ∧
     line_out (telnet_rb st') = 2 mod TELNET_LINES cfg ∧
     (∃ lb, arr_get 1 (l_bufs (telnet_rb st')) = Some lb ∧ len lb = 0) ∧
     ∀ (j : nat) body, (2 ≤ j)%nat → (bodies ++ [extra]) !! j = Some body →
       ∃ lb, arr_get (Z.of_nat j mod TELNET_LINES cfg) (l_bufs (telnet_rb st'))
             = Some lb ∧ line_data lb = wire_line body).
Proof.
  intros HN HL Hsh0 Einit Hok Hex Hk.
  destruct (fed_fresh cfg st0 st1) as [Hfed0 Hw0]; [lia|lia|done|done|].
  destruct (fed_lines cfg [] bodies st1 HN HL Hok Hfed0) as (st & E & Hfed & Hw).
  simpl in Hfed.
  destruct (fed_line cfg bodies extra st HN HL Hex Hfed) as (st' & E' & Hfed' & Hw').
  exists st, st'. split; [done|]. split; [done|].
  split; [by rewrite Hw', Hw|].
  set (n := TELNET_LINES cfg) in *.
  assert (H1 : 1 mod n = 1) by (apply Z.mod_small; lia).
  assert (Hn1 : (n + 1) mod n = 1).
  { replace (n + 1) with (1 + 1 * n) by lia. by rewrite Z_mod_plus_full. }
  split.
  - destruct Hfed as (_ & Hin & Hout & Hwr & Hslots).
    rewrite Hk in Hin, Hout, Hslots. fold n in Hin, Hout, Hslots.
    rewrite Z.mod_same in Hin by lia.
    destruct (decide (n < n)) as [?|_]; [lia|]. rewrite Hn1 in Hout.
    split; [done|]. split; [done|]. split; [by rewrite Hin in Hwr|].
    intros j body Hj Hb.
    pose proof (lookup_lt_Some _ _ _ Hb) as Hjl.
    destruct (Hslots j body Hb) as (lb & Hlb & Hd); [lia|].
    rewrite Z.mod_small in Hlb by lia. by exists lb.
  - destruct Hfed' as (_ & Hin & Hout & Hwr & Hslots).
    rewrite length_app in Hin, Hout, Hslots. simpl length in Hin, Hout, Hslots.
    replace (Z.of_nat (length bodies + 1)) with (n + 1) in Hin, Hout, Hslots by lia.
    fold n in Hin, Hout, Hslots. rewrite Hn1 in Hin.
    destruct (decide (n + 1 < n)) as [?|_]; [lia|].
    replace (n + 1 + 1) with (2 + 1 * n) in Hout by lia.
    rewrite Z_mod_plus_full in Hout.
    split; [done|]. split; [done|]. split; [by rewrite Hin in Hwr|].
    intros j body Hj Hb. apply Hslots; [done|lia].
Qed.

Lemma overwrite_policy_witness :
  let bodies := [[49]; [50]; [51]; [52]] in
  let extra := [53] in
  let st0 := telnet_boot cfg_4_8 None in
  (2 ≤ TELNET_LINES cfg_4_8 ≤ 65536 ∧
   2 ≤ TELNET_LINE_SIZE cfg_4_8 < 65536 ∧
   rb_shape cfg_4_8 (telnet_rb st0) ∧
   telnet_rb_init cfg_4_8 st0 = Some st0 ∧
   Forall (body_ok cfg_4_8) bodies ∧ body_ok cfg_4_8 extra ∧
   Z.of_nat (length bodies) = TELNET_LINES cfg_4_8) ∧
  ∃ st st',
    printk cfg_4_8 (concat (complete_line <$> bodies)) st0 = Some st ∧
    printk cfg_4_8 (complete_line extra) st = Some st' ∧
    line_out (telnet_rb st) = 1 ∧ line_out (telnet_rb st') = 2.
Proof.
  intros bodies extra st0.
  assert (H1 : 2 ≤ TELNET_LINES cfg_4_8 ≤ 65536) by (simpl; lia).
  assert (H2 : 2 ≤ TELNET_LINE_SIZE cfg_4_8 < 65536) by (simpl; lia).
  assert (Hs : rb_shape cfg_4_8 (telnet_rb st0)).
  { apply rb_zero_ok; simpl; lia. }
  assert (Hi : telnet_rb_init cfg_4_8 st0 = Some st0) by reflexivity.
  assert (Hb : ∀ c, 0 ≤ c < 256 → c ≠ LF → body_ok cfg_4_8 [c]).
  { intros c Hc Hne. split; [|simpl; lia].
    apply Forall_cons_2; [done|apply Forall_nil_2]. }
  assert (H3 : Forall (body_ok cfg_4_8) bodies).
  { unfold bodies.
    apply Forall_cons_2; [apply Hb; unfold LF; lia|].
    apply Forall_cons_2; [apply Hb; unfold LF; lia|].
    apply Forall_cons_2; [apply Hb; unfold LF; lia|].
    apply Forall_cons_2; [apply Hb; unfold LF; lia|].
    apply Forall_nil_2. }
  assert (H4 : body_ok cfg_4_8 extra) by (apply Hb; unfold LF; lia).
  assert (H5 : Z.of_nat (length bodies) = TELNET_LINES cfg_4_8) by reflexivity.
  split; [exact (conj H1 (conj H2 (conj Hs (conj Hi (conj H3 (conj H4 H5))))))|].
  destruct (overwrite_policy cfg_4_8 st0 st0 bodies extra H1 H2 Hs Hi H3 H4 H5)
    as (st & st' & E & E' & _ & (_ & Ho & _) & (_ & Ho' & _)).
  exists st, st'.
  split; [exact E|]. split; [exact E'|]. split; [exact Ho|exact Ho'].
Defined.

(** C1, as the claim has it, fails with 4 slots and the 5 lines "1" to "5":
    the slots end up holding "5", nothing, "3" and "4", so the second-oldest
    line "2" has been discarded along with the oldest, and the read index
    is on the slot holding "3". *)
Lemma overwrite_five_lines :
  let input := [49; 10; 50; 10; 51; 10; 52; 10; 53; 10] in
  ∃ st0 st,
    telnet_rb_init cfg_4_8 (telnet_boot cfg_4_8 None) = Some st0 ∧
    printk cfg_4_8 input st0 = Some st ∧
    line_data <$> l_bufs (telnet_rb st)
      = [[53; 13; 10]; []; [51; 13; 10]; [52; 13; 10]] ∧
    line_out (telnet_rb st) = 2 ∧
    (line_data <$> l_bufs (telnet_rb st)) !! 2%nat ≠ Some [50; 13; 10] ∧
    [50; 13; 10] ∉ line_data <$> l_bufs (telnet_rb st).
Proof.
  intros input. eexists _, _. split; [vm_compute; reflexivity|].
  split; [vm_compute; reflexivity|].
  split; [reflexivity|]. split; [reflexivity|].
  split; [vm_compute; discriminate|].
  intros H. repeat (apply elem_of_cons in H as [H|H]; [discriminate H|]).
  by apply elem_of_nil in H.
Qed.

(** ** Producer and sender in step *)

Lemma in_sync_boot (cfg : config) (hook : option printk_fn) :
  0 < TELNET_LINES cfg → 2 ≤ TELNET_LINE_SIZE cfg →
  in_sync cfg (telnet_boot cfg hook) [] [].
Proof.
  intros HN HL. destruct (rb_zero_ok cfg HN HL) as [Hsh _].
  split; [done|]. simpl. change (Z.of_nat 0) with 0.
  split; [done|]. split; [lia|]. split; [by rewrite Z.mod_0_l by lia|].
  split; [intros i l H; done|].
  destruct (rb_shape_line_in _ _ Hsh) as [lb Hlb]. exists lb. split; [done|].
  apply arr_get_Some in Hlb as [_ Hlb]. simpl in Hlb.
  apply lookup_replicate in Hlb as [-> _]. simpl. split; [done|]. lia.
Qed.

Lemma in_sync_slot_ne (n o : Z) (i m : nat) :
  (i < m)%nat → Z.of_nat m < n →
  (o + Z.of_nat m) mod n ≠ (o + Z.of_nat i) mod n.
Proof.
  intros Hi Hm.
  replace (o + Z.of_nat m) with (o + Z.of_nat i + (Z.of_nat m - Z.of_nat i)) by lia.
  apply mod_add_ne. lia.
Qed.

Lemma in_sync_out_plain (cfg : config) (c : Z) (st : telnet)
    (pending : list (list Z)) (partial : list Z) :
  TELNET_LINE_SIZE cfg < 65536 →
  in_sync cfg st pending partial →
  0 ≤ c < 256 → c ≠ LF →
  Z.of_nat (length partial) + 1 < TELNET_LINE_SIZE cfg - 1 →
  ∃ st', telnet_console_out cfg c st = Some (c, st') ∧
         in_sync cfg st' pending (partial ++ [c]) ∧
         wire st' = wire st.
Proof.
  intros HL (Hsh & Hsem & Hm & Hin & Hpend & lb & Hlb & Hd & Hlen & Hroom) Hc Hne Hfit.
  pose proof (rb_shape_slot _ _ _ _ Hsh Hlb) as Hok. pose proof Hok as [Hb Hl].
  pose proof (arr_get_bound _ _ _ Hlb) as Hi.
  rewrite (telnet_console_out_plain cfg c st lb) by (done || lia).
  eexists. split; [done|]. split; [|done].
  split; [apply rb_shape_insert; [done|apply slot_append_ok; [done|lia]]|].
  simpl. split; [done|]. split; [done|]. split; [done|]. split.
  - intros i l Hil. destruct (Hpend i l Hil) as (x & Hx & Hxd & Hxl).
    exists x. split; [|done].
    rewrite arr_get_insert_ne; [done|lia| |].
    + apply Z.mod_pos_bound. lia.
    + rewrite Hin. apply in_sync_slot_ne; [by eapply lookup_lt_Some|done].
  - exists (slot_append c lb). split; [by apply arr_get_insert_eq|].
    rewrite line_data_slot_append by lia. rewrite Hd, length_app. simpl.
    split; [done|]. lia.
Qed.

Lemma in_sync_out_lf (cfg : config) (st : telnet)
    (pending : list (list Z)) (partial : list Z) :
  0 < TELNET_LINES cfg ≤ 65536 →
  2 ≤ TELNET_LINE_SIZE cfg < 65536 →
  in_sync cfg st pending partial →
  ¬ overwrites cfg st →
  ∃ st', telnet_console_out cfg LF st = Some (LF, st') ∧
         in_sync cfg st' (pending ++ [partial ++ [CR; LF]]) [] ∧
         wire st' = wire st.
Proof.
  intros HN HL (Hsh & Hsem & Hm & Hin & Hpend & lb & Hlb & Hd & Hlen & Hroom) Hno.
  pose proof (rb_shape_slot _ _ _ _ Hsh Hlb) as Hok. pose proof Hok as [Hb Hl].
  pose proof (arr_get_bound _ _ _ Hlb) as Hi.
  pose proof Hsh as (Hlbufs & _ & [Hout _] & _).
  set (n := TELNET_LINES cfg) in *.
  set (m := length pending) in *.
  set (o := line_out (telnet_rb st)) in *.
  assert (Hin' : rb_next cfg (line_in (telnet_rb st)) = (o + Z.of_nat m + 1) mod n).
  { rewrite Hin. apply rb_next_of_mod. done. }
  assert (Hm1 : Z.of_nat m + 1 < n).
  { destruct (decide (Z.of_nat m + 1 = n)) as [E|]; [|lia].
    exfalso. apply Hno. unfold overwrites. fold o. rewrite Hin'.
    replace (o + Z.of_nat m + 1) with (o + 1 * n) by lia.
    rewrite Z_mod_plus_full. apply Z.mod_small. lia. }
  assert (Hne : (o + Z.of_nat m + 1) mod n ≠ (o + Z.of_nat m) mod n)
    by (apply mod_add_ne; lia).
  assert (Hr1 : 0 ≤ (o + Z.of_nat m + 1) mod n < n) by (apply Z.mod_pos_bound; lia).
  rewrite (telnet_console_out_lf cfg st lb) by (done || lia).
  eexists. split; [done|]. split; [|by rewrite wire_k_sem_give].
  unfold in_sync. rewrite telnet_rb_k_sem_give. simpl.
  rewrite send_lock_k_sem_give by (simpl; unfold UINT_MAX; lia). simpl.
  rewrite Hin'. fold o n. rewrite length_app. simpl length. fold m.
  replace (Z.of_nat (m + 1)) with (Z.of_nat m + 1) by lia.
  split; [|split; [lia|split; [lia|split; [|split]]]].
  - apply rb_switched_ok; [lia|].
    apply rb_shape_insert; [done|by apply slot_terminate_ok].
  - destruct (decide ((o + Z.of_nat m + 1) mod n = o)) as [E|_]; [|f_equal; lia].
    exfalso. apply Hno. unfold overwrites. fold o. by rewrite Hin'.
  - intros i l Hil.
    destruct (decide ((o + Z.of_nat m + 1) mod n = o)) as [E|_].
    { exfalso. apply Hno. unfold overwrites. fold o. by rewrite Hin'. }
    pose proof (lookup_lt_Some _ _ _ Hil) as Hlt.
    rewrite length_app in Hlt. simpl in Hlt. fold m in Hlt.
    assert (Hri : 0 ≤ (o + Z.of_nat i) mod n < n) by (apply Z.mod_pos_bound; lia).
    rewrite arr_get_alter_ne; [|lia|lia|].
    2:{ replace (o + Z.of_nat m + 1) with (o + Z.of_nat (m + 1)) by lia.
        apply in_sync_slot_ne; lia. }
    destruct (decide (i = m)) as [->|Him].
    + unfold m in Hil. rewrite list_lookup_middle in Hil by done.
      inversion Hil; subst l. fold m. rewrite <- Hin.
      rewrite arr_get_insert_eq by done.
      exists (slot_terminate lb). split; [done|].
      rewrite line_data_slot_terminate by lia. rewrite Hd.
      split; [done|]. simpl. lia.
    + rewrite lookup_app_l in Hil by (fold m; lia).
      destruct (Hpend i l Hil) as (x & Hx & Hxd & Hxl).
      exists x. split; [|done].
      rewrite arr_get_insert_ne; [done|lia|lia|].
      rewrite Hin. apply in_sync_slot_ne; lia.
  - rewrite arr_get_alter_eq.
    destruct (arr_get_in_range ((o + Z.of_nat m + 1) mod n)
                (<[Z.to_nat (line_in (telnet_rb st)) := slot_terminate lb]>
                   (l_bufs (telnet_rb st))))
      as [x Hx]; [rewrite length_insert; lia|].
    rewrite Hx. simpl. eexists. split; [done|]. simpl.
    split; [done|]. split; [done|lia].
Qed.

Lemma in_sync_run (cfg : config) (tx : Z) (st : telnet)
    (l : list Z) (pending : list (list Z)) (partial : list Z) :
  0 < TELNET_LINES cfg ≤ 65536 →
  in_sync cfg st (l :: pending) partial →
  ∃ st', telnet_run_body cfg 0 (Some tx) st = Some st' ∧
         in_sync cfg st' pending partial ∧
         wire st' = wire st ++ [l].
Proof.
  intros HN (Hsh & Hsem & Hm & Hin & Hpend & lb & Hlb & Hd & Hlen & Hroom).
  pose proof Hsh as (Hlbufs & _ & [Hout Hout'] & _).
  set (n := TELNET_LINES cfg) in *.
  set (o := line_out (telnet_rb st)) in *.
  simpl length in *. set (m := length pending) in *.
  destruct (Hpend 0%nat l eq_refl) as (lbo & Hlbo & Hdo & Hlo).
  change (Z.of_nat 0) with 0 in Hlbo.
  rewrite Z.add_0_r, Z.mod_small in Hlbo by lia.
  unfold telnet_run_body.
  set (st0 := set_send_lock (send_lock st - 1) st).
  destruct (telnet_send_spec cfg 0 (Some tx) st0 lbo Hsh Hlbo)
    as (ok & st' & E & Hrb & Hw & Hs & Hsucc).
  rewrite E. simpl. rewrite (Hsucc eq_refl) by done.
  exists st'. split; [done|].
  destruct (decide (len lbo = 0)) as [?|_]; [done|].
  split; [|by rewrite Hw, Hdo].
  assert (Ho' : rb_next cfg o = (o + 1) mod n) by (apply rb_next_mod; lia).
  destruct (rb_next_range cfg o Hout Hout') as [Hro Hro'].
  unfold in_sync. rewrite Hrb, Hs. simpl. fold o n. rewrite Ho'.
  split; [|split; [lia|split; [lia|split; [|split]]]].
  - rewrite <- Ho'. apply rb_shape_alter; done.
  - rewrite Hin, Zplus_mod_idemp_l. f_equal. lia.
  - intros i l' Hil. pose proof (lookup_lt_Some _ _ _ Hil) as Hlt. fold m in Hlt.
    destruct (Hpend (S i) l' Hil) as (x & Hx & Hxd & Hxl).
    exists x. split; [|done].
    rewrite Zplus_mod_idemp_l.
    replace (o + 1 + Z.of_nat i) with (o + Z.of_nat (S i)) by lia.
    rewrite arr_get_alter_ne; [done|lia| |].
    + apply Z.mod_pos_bound. lia.
    + rewrite <- (Z.mod_small o n) at 1 by lia.
      replace o with (o + Z.of_nat 0) at 1 by (simpl; lia).
      intros Eo. symmetry in Eo. revert Eo. apply in_sync_slot_ne; lia.
  - exists lb. split; [|done].
    rewrite arr_get_alter_ne; [done|lia| |].
    + rewrite Hin. apply Z.mod_pos_bound. lia.
    + rewrite Hin. rewrite <- (Z.mod_small o n) at 1 by lia.
      replace o with (o + Z.of_nat 0) at 1 by (simpl; lia).
      intros Eo. symmetry in Eo. revert Eo. apply in_sync_slot_ne; lia.
Qed.

(** The sender loop empties the semaphore: with as many turns as the count,
    every pending line is sent, in order. *)
Lemma in_sync_drain (cfg : config) (tx : Z) (pending : list (list Z))
    (st : telnet) (partial : list Z) :
  0 < TELNET_LINES cfg ≤ 65536 →
  in_sync cfg st pending partial →
  ∃ st', telnet_run cfg (length pending) tx st = Some st' ∧
         in_sync cfg st' [] partial ∧
         wire st' = wire st ++ pending.
Proof.
  intros HN. revert st.
  induction pending as [|l pending IH]; intros st Hsync.
  - exists st. simpl. by rewrite app_nil_r.
  - pose proof Hsync as (_ & Hsem & _).
    destruct (in_sync_run cfg tx st l pending partial HN Hsync)
      as (st1 & E1 & Hsync1 & Hw1).
    destruct (IH st1 Hsync1) as (st2 & E2 & Hsync2 & Hw2).
    exists st2. simpl. simpl length in Hsem.
    destruct (decide (0 < send_lock st)); [|lia].
    rewrite E1. simpl. split; [done|]. split; [done|].
    by rewrite Hw2, Hw1, <- app_assoc.
Qed.

Lemma in_sync_io_run (cfg : config) (tx : Z) (evs : list io_event) (st : telnet)
    (pending : list (list Z)) (partial : list Z) :
  0 < TELNET_LINES cfg ≤ 65536 →
  2 ≤ TELNET_LINE_SIZE cfg < 65536 →
  in_sync cfg st pending partial →
  Forall (λ c, 0 ≤ c < 256) (outputs evs) →
  lines_fit cfg (Z.of_nat (length partial)) (outputs evs) →
  overwrite_free cfg tx evs st →
  ∃ st' pending',
    io_run cfg tx evs st = Some st' ∧
    in_sync cfg st' pending' (held partial (outputs evs)) ∧
    concat (wire st') ++ concat pending' ++ held partial (outputs evs)
    = concat (wire st) ++ concat pending ++ partial ++ crlf (outputs evs).
Proof.
  intros HN HL. revert st pending partial.
  induction evs as [|[c|] evs IH]; intros st pending partial Hsync Hcs Hfit Hfree.
  - exists st, pending. simpl. by rewrite app_nil_r.
  - simpl in Hcs, Hfit, Hfree |- *. apply Forall_cons in Hcs as [Hc Hcs].
    destruct Hfree as [Hsw Hfree].
    destruct (decide (c = LF)) as [->|Hne].
    + destruct (in_sync_out_lf cfg st pending partial HN HL Hsync)
        as (st1 & E1 & Hsync1 & Hw1).
      { apply Hsw. destruct Hsync as (_ & _ & _ & _ & _ & lb & Hlb & _).
        exists lb. split; [done|by left]. }
      rewrite E1 in Hfree |- *. simpl in Hfree |- *.
      destruct (IH st1 _ [] Hsync1 Hcs Hfit Hfree) as (st2 & P2 & E2 & Hsync2 & Heq).
      exists st2, P2. split; [done|]. split; [done|].
      rewrite Heq, Hw1, concat_app. simpl. by rewrite !app_nil_r, <- !app_assoc.
    + destruct Hfit as [Hroom Hfit].
      destruct (in_sync_out_plain cfg c st pending partial)
        as (st1 & E1 & Hsync1 & Hw1); [lia|done|done|done|done|].
      rewrite E1 in Hfree |- *. simpl in Hfree |- *.
      destruct (IH st1 pending (partial ++ [c]) Hsync1 Hcs) as (st2 & P2 & E2 & Hsync2 & Heq);
        [rewrite length_app; simpl;
         by replace (Z.of_nat (length partial + 1))
              with (Z.of_nat (length partial) + 1) by lia|done|].
      exists st2, P2. split; [done|]. split; [done|].
      rewrite Heq, Hw1. by rewrite <- !app_assoc.
  - simpl in Hcs, Hfit, Hfree |- *. destruct Hfree as [_ Hfree].
    destruct (decide (0 < send_lock st)) as [Hpos|Hzero].
    + destruct pending as [|l pending].
      { destruct Hsync as (_ & Hsem & _). simpl in Hsem. lia. }
      destruct (in_sync_run cfg tx st l pending partial HN Hsync)
        as (st1 & E1 & Hsync1 & Hw1).
      rewrite E1 in Hfree |- *. simpl.
      destruct (IH st1 pending partial Hsync1 Hcs Hfit Hfree)
        as (st2 & P2 & E2 & Hsync2 & Heq).
      exists st2, P2. split; [done|]. split; [done|].
      rewrite Heq, Hw1, concat_app. simpl. by rewrite !app_nil_r, <- !app_assoc.
    + simpl. by apply IH.
Qed.

Lemma overwrite_freeb_sound (cfg : config) (tx : Z) (evs : list io_event)
    (st : telnet) :
  overwrite_freeb cfg tx evs st = true → overwrite_free cfg tx evs st.
Proof.
  revert st. induction evs as [|ev evs IH]; intros st H; simpl in *; [done|].
  apply andb_prop in H as [Hg Hrest]. split.
  - destruct ev as [c|]; [|done].
    intros (lb & Hlb & Hsw) Hov. unfold switchesb in Hg. rewrite Hlb in Hg.
    unfold overwritesb in Hg. unfold overwrites in Hov.
    apply Z.eqb_eq in Hov. rewrite Hov, andb_true_r in Hg.
    apply negb_true_iff, orb_false_elim in Hg as [H1 H2].
    apply Z.eqb_neq in H1, H2. tauto.
  - destruct (io_step cfg tx ev st); [by apply IH|done].
Qed.

(** C4, as the code has it: whatever the interleaving of printk calls and
    sender turns from power-on, as long as no switch overwrites an unread
    line and no run of characters reaches the slot capacity, the bytes sent
    once the sender has caught up are the input with every line-feed
    replaced by CR LF, up to and including the last line-feed; what follows
    the last line-feed is still in the write slot. *)
Theorem flushed_output (cfg : config) (hook : option printk_fn) (tx : Z)
    (evs : list io_event) :
  0 < TELNET_LINES cfg ≤ 65536 →
  2 ≤ TELNET_LINE_SIZE cfg < 65536 →
  Forall (λ c, 0 ≤ c < 256) (outputs evs) →
  lines_fit cfg 0 (outputs evs) →
  overwrite_free cfg tx evs (telnet_boot cfg hook) →
  ∃ st st',
    io_run cfg tx evs (telnet_boot cfg hook) = Some st ∧
    telnet_run cfg (Z.to_nat (send_lock st)) tx st = Some st' ∧
    send_lock st' = 0 ∧
    concat (wire st') ++ held [] (outputs evs) = crlf (outputs evs) ∧
    ∃ lb, arr_get (line_in (telnet_rb st')) (l_bufs (telnet_rb st')) = Some lb ∧
          line_data lb = held [] (outputs evs).
Proof.
  intros HN HL Hcs Hfit Hfree.
  destruct (in_sync_io_run cfg tx evs (telnet_boot cfg hook) [] [] HN HL)
    as (st & P & E & Hsync & Heq); [apply in_sync_boot; lia|done..|].
  destruct (in_sync_drain cfg tx P st _ HN Hsync) as (st' & E' & Hsync' & Hw').
  exists st, st'. split; [done|].
  pose proof Hsync as (_ & Hsem & _). rewrite Hsem, Nat2Z.id.
  split; [done|].
  destruct Hsync' as (_ & Hsem' & _ & _ & _ & lb & Hlb & Hd & _).
  split; [done|]. split; [|by exists lb].
  rewrite Hw', concat_app, <- app_assoc. by rewrite Heq.
Qed.

Lemma flushed_output_witness :
  let evs := [ev_out 104; ev_out 105; ev_out 10; ev_run; ev_out 111;
              ev_out 107; ev_out 10; ev_out 62] in
  (0 < TELNET_LINES cfg_4_8 ≤ 65536 ∧
   2 ≤ TELNET_LINE_SIZE cfg_4_8 < 65536 ∧
   Forall (λ c, 0 ≤ c < 256) (outputs evs) ∧
   lines_fit cfg_4_8 0 (outputs evs) ∧
   overwrite_free cfg_4_8 7 evs (telnet_boot cfg_4_8 None)) ∧
  ∃ st st',
    io_run cfg_4_8 7 evs (telnet_boot cfg_4_8 None) = Some st ∧
    telnet_run cfg_4_8 (Z.to_nat (send_lock st)) 7 st = Some st' ∧
    concat (wire st') ++ [62] = [104; 105; 13; 10; 111; 107; 13; 10; 62].
Proof.
  intros evs.
  assert (H1 : 0 < TELNET_LINES cfg_4_8 ≤ 65536) by (simpl; lia).
  assert (H2 : 2 ≤ TELNET_LINE_SIZE cfg_4_8 < 65536) by (simpl; lia).
  assert (H3 : Forall (λ c, 0 ≤ c < 256) (outputs evs)).
  { simpl. repeat (apply Forall_cons_2; [lia|]). apply Forall_nil_2. }
  assert (H4 : lines_fit cfg_4_8 0 (outputs evs)).
  { vm_compute. repeat split. }
  assert (H5 : overwrite_free cfg_4_8 7 evs (telnet_boot cfg_4_8 None)).
  { apply overwrite_freeb_sound. vm_compute. reflexivity. }
  split; [exact (conj H1 (conj H2 (conj H3 (conj H4 H5))))|].
  destruct (flushed_output cfg_4_8 None 7 evs H1 H2 H3 H4 H5)
    as (st & st' & E & E' & _ & Hw & _).
  exists st, st'. split; [exact E|]. split; [exact E'|]. exact Hw.
Defined.

(** C4, as the claim has it, fails on the two characters "ab": no slot is
    switched, so nothing overwrites anything, the semaphore is never given
    and the sender has nothing to send; the two characters wait in the
    write slot. *)
Lemma unterminated_output_not_flushed :
  let evs := [ev_out 97; ev_out 98] in
  overwrite_free cfg_4_8 7 evs (telnet_boot cfg_4_8 None) ∧
  ∃ st st',
    io_run cfg_4_8 7 evs (telnet_boot cfg_4_8 None) = Some st ∧
    telnet_run cfg_4_8 (Z.to_nat (send_lock st)) 7 st = Some st' ∧
    send_lock st = 0 ∧
    wire st' = [] ∧
    crlf (outputs evs) = [97; 98] ∧
    concat (wire st') ≠ crlf (outputs evs).
Proof.
  intros evs. split.
  - apply overwrite_freeb_sound. vm_compute. reflexivity.
  - eexists _, _. split; [vm_compute; reflexivity|].
    split; [vm_compute; reflexivity|].
    split; [reflexivity|]. split; [reflexivity|]. split; [reflexivity|].
    vm_compute. discriminate.
Qed.

(** ** Terminators of the lines sent *)

Lemma left_slots_terminated_empty (rb : line_buf_rb) :
  Forall (λ lb, len lb = 0) (l_bufs rb) → left_slots_terminated rb.
Proof.
  intros Hall i lb [_ H]%arr_get_Some _. left.
  by eapply (Forall_lookup_1 _ _ _ _ Hall).
Qed.

Lemma telnet_console_out_terminated (cfg : config) (c : Z) (st st' : telnet) (r : Z) :
  2 ≤ TELNET_LINE_SIZE cfg < 65536 →
  rb_ok cfg (telnet_rb st) →
  left_slots_terminated (telnet_rb st) →
  telnet_console_out cfg c st = Some (r, st') →
  left_slots_terminated (telnet_rb st').
Proof.
  intros HL [Hsh Hw] Hterm E.
  destruct (rb_shape_line_in _ _ Hsh) as [lb Hlb].
  pose proof (rb_shape_slot _ _ _ _ Hsh Hlb) as Hok. pose proof Hok as [Hb Hl].
  pose proof (Hw _ Hlb) as Hlt.
  pose proof (arr_get_bound _ _ _ Hlb) as Hi.
  rewrite (telnet_console_out_eq cfg c st lb) in E by (done || lia).
  cbv zeta in E. destruct (decide _) as [Hsw|Hpl].
  - rewrite telnet_rb_switch_eq in E
      by (apply rb_shape_insert; [done|by apply slot_terminate_ok]).
    simpl in E. inversion E; subst r st'. clear E.
    rewrite telnet_rb_k_sem_give. simpl.
    pose proof Hsh as (_ & [Hin Hin'] & _).
    destruct (rb_next_range cfg _ Hin Hin') as [Hn _].
    intros i x Hx Hne. simpl in Hx, Hne.
    pose proof Hx as [Hi0 _]%arr_get_Some.
    rewrite arr_get_alter_ne in Hx by (lia || done).
    destruct (decide (i = line_in (telnet_rb st))) as [->|Hni].
    + rewrite arr_get_insert_eq in Hx by done. inversion Hx; subst x.
      right. exists (line_data lb). apply line_data_slot_terminate. lia.
    + rewrite arr_get_insert_ne in Hx by (lia || done).
      by apply (Hterm i).
  - inversion E; subst r st'. clear E. simpl.
    intros i x Hx Hne. simpl in Hx, Hne.
    pose proof Hx as [Hi0 _]%arr_get_Some.
    rewrite arr_get_insert_ne in Hx by (lia || done).
    by apply (Hterm i).
Qed.

Lemma telnet_send_terminated (cfg : config) (rc : Z) (tx : option Z)
    (st st' : telnet) (ok : bool) :
  rb_ok cfg (telnet_rb st) →
  left_slots_terminated (telnet_rb st) →
  telnet_send cfg rc tx st = Some (ok, st') →
  left_slots_terminated (telnet_rb st').
Proof.
  intros [Hsh Hw] Hterm E.
  destruct (rb_shape_line_out _ _ Hsh) as [lb Hlb].
  destruct (telnet_send_spec cfg rc tx st lb Hsh Hlb)
    as (ok' & st1 & E1 & Hrb & _).
  rewrite E in E1. inversion E1; subst ok' st1. rewrite Hrb.
  intros i x Hx Hne. simpl in Hx, Hne.
  pose proof Hx as [Hi0 _]%arr_get_Some.
  pose proof (arr_get_bound _ _ _ Hlb) as Ho.
  destruct (decide (i = line_out (telnet_rb st))) as [->|Hni].
  - rewrite arr_get_alter_eq, Hlb in Hx. inversion Hx. by left.
  - rewrite arr_get_alter_ne in Hx by (lia || done). by apply (Hterm i).
Qed.

Lemma rb_step_terminated (cfg : config) (op : rb_op) (st st' : telnet) :
  2 ≤ TELNET_LINE_SIZE cfg < 65536 →
  producer_or_sender op →
  rb_ok cfg (telnet_rb st) →
  left_slots_terminated (telnet_rb st) →
  rb_step cfg op st = Some st' →
  left_slots_terminated (telnet_rb st').
Proof.
  intros HL Hop Hok Hterm E. destruct op as [c| | |rc tx| | |]; simpl in *;
    try done.
  - destruct (telnet_console_out cfg c st) as [[r st1]|] eqn:E1; [|done].
    simpl in E. inversion E; subst st1.
    by eapply telnet_console_out_terminated.
  - unfold telnet_rb_get_line_out in E.
    destruct (arr_get _ _) as [lb|]; [|done]. simpl in E.
    destruct (decide _); inversion E; subst st'; done.
  - destruct (telnet_send cfg rc tx st) as [[ok st1]|] eqn:E1; [|done].
    simpl in E. inversion E; subst st1. by eapply telnet_send_terminated.
  - destruct (telnet_rb_init_ok cfg st) as (st1 & E1 & _ & _ & _ & Hzero);
      [lia|by destruct Hok|].
    rewrite E in E1. inversion E1; subst st1.
    by apply left_slots_terminated_empty.
  - unfold telnet_end_client_connection in E.
    match type of E with telnet_rb_init cfg ?s = _ =>
      destruct (telnet_rb_init_ok cfg s) as (st1 & E1 & _ & _ & _ & Hzero)
    end; [lia|simpl; destruct (out_buf st); simpl; by destruct Hok|].
    rewrite E in E1. inversion E1; subst st1.
    by apply left_slots_terminated_empty.
Qed.

Lemma rb_run_terminated (cfg : config) (ops : list rb_op) (st st' : telnet) :
  2 ≤ TELNET_LINE_SIZE cfg < 65536 →
  Forall producer_or_sender ops →
  rb_ok cfg (telnet_rb st) →
  left_slots_terminated (telnet_rb st) →
  rb_run cfg ops st = Some st' →
  rb_ok cfg (telnet_rb st') ∧ left_slots_terminated (telnet_rb st').
Proof.
  intros HL. revert st.
  induction ops as [|op ops IH]; intros st Hops Hok Hterm E; simpl in E.
  - by inversion E; subst st'.
  - apply Forall_cons in Hops as [Hop Hops].
    destruct (rb_step_ok cfg op st HL Hok) as (st1 & E1 & Hok1).
    rewrite E1 in E. simpl in E.
    apply (IH st1); try done.
    exact (rb_step_terminated cfg op st st1 HL Hop Hok Hterm E1).
Qed.

Lemma rb_next_ne (cfg : config) (x : Z) :
  2 ≤ TELNET_LINES cfg → 0 ≤ x < TELNET_LINES cfg → x < 65536 →
  rb_next cfg x ≠ x.
Proof.
  intros HN Hx Hw. unfold rb_next.
  destruct (decide (x + 1 = 65536)) as [E|E].
  - rewrite E. unfold uint16. change (65536 mod 65536) with 0.
    destruct (decide (0 = TELNET_LINES cfg)); lia.
  - rewrite uint16_small by lia.
    destruct (decide (x + 1 = TELNET_LINES cfg)); lia.
Qed.

(** When the sender has caught up and the write slot holds at least
    [TELNET_THRESHOLD] characters, the timer switches the slot as it is and
    the next send hands over exactly the characters accumulated. *)
Lemma timer_flush_as_accumulated (cfg : config) (rc : Z) (tx : option Z)
    (st : telnet) (lb : line_buf) :
  2 ≤ TELNET_LINES cfg →
  2 ≤ TELNET_LINE_SIZE cfg →
  rb_shape cfg (telnet_rb st) →
  line_out (telnet_rb st) = line_in (telnet_rb st) →
  arr_get (line_in (telnet_rb st)) (l_bufs (telnet_rb st)) = Some lb →
  TELNET_THRESHOLD cfg ≤ len lb → len lb ≠ 0 →
  ∃ st1 ok st2,
    telnet_send_prematurely cfg st = Some st1 ∧
    telnet_send cfg rc tx st1 = Some (ok, st2) ∧
    wire st2 = wire st ++ [line_data lb].
Proof.
  intros HN HL Hsh Hio Hlb Hth Hnz.
  pose proof Hsh as (_ & [Hin Hin'] & _).
  pose proof (rb_next_ne cfg _ HN Hin Hin') as Hne.
  destruct (rb_next_range cfg _ Hin Hin') as [Hn _].
  unfold telnet_send_prematurely, telnet_rb_get_line_in. rewrite Hlb. simpl.
  destruct (decide (TELNET_THRESHOLD cfg ≤ len lb)); [|done].
  rewrite telnet_rb_switch_eq by done.
  set (st1 := k_sem_give _).
  assert (Hrb1 : telnet_rb st1 = rb_switched cfg (telnet_rb st))
    by (unfold st1; by rewrite telnet_rb_k_sem_give).
  assert (Hout1 : line_out (telnet_rb st1) = line_in (telnet_rb st)).
  { rewrite Hrb1. unfold rb_switched. simpl. rewrite Hio.
    by destruct (decide _). }
  assert (Hlb1 : arr_get (line_out (telnet_rb st1)) (l_bufs (telnet_rb st1))
                 = Some lb).
  { rewrite Hout1, Hrb1. unfold rb_switched. simpl.
    rewrite arr_get_alter_ne by (lia || done). done. }
  destruct (telnet_send_spec cfg rc tx st1 lb) as (ok & st2 & E & _ & Hw & _).
  { rewrite Hrb1. by apply rb_switched_ok. }
  { done. }
  exists st1, ok, st2. split; [done|]. split; [done|].
  rewrite Hw. destruct (decide (len lb = 0)); [done|].
  unfold st1. by rewrite wire_k_sem_give.
Qed.

(** C5, as the code has it: in a run of producer and sender steps from
    power-on, without the timer-forced switch, whatever [telnet_send] hands
    to the transport from a slot other than the current write slot ends
    with CR LF, whether the producer left that slot on a line-feed or at
    the capacity boundary.  When instead the sender has caught up and the
    timer switches a write slot that has reached the threshold, the next
    send hands over the characters accumulated, with nothing added. *)
Theorem sent_lines_terminated (cfg : config) (hook : option printk_fn)
    (ops : list rb_op) (st : telnet) (rc : Z) (tx : option Z) :
  0 < TELNET_LINES cfg →
  2 ≤ TELNET_LINE_SIZE cfg < 65536 →
  Forall producer_or_sender ops →
  rb_run cfg ops (telnet_boot cfg hook) = Some st →
  (line_out (telnet_rb st) ≠ line_in (telnet_rb st) →
   ∃ ok st' sent,
     telnet_send cfg rc tx st = Some (ok, st') ∧
     wire st' = wire st ++ sent ∧
     Forall ends_crlf sent) ∧
  (2 ≤ TELNET_LINES cfg →
   line_out (telnet_rb st) = line_in (telnet_rb st) →
   ∀ lb, arr_get (line_in (telnet_rb st)) (l_bufs (telnet_rb st)) = Some lb →
     TELNET_THRESHOLD cfg ≤ len lb → len lb ≠ 0 →
     ∃ st1 ok st2,
       telnet_send_prematurely cfg st = Some st1 ∧
       telnet_send cfg rc tx st1 = Some (ok, st2) ∧
       wire st2 = wire st ++ [line_data lb]).
Proof.
  intros HN HL Hops E.
  destruct (rb_run_terminated cfg ops (telnet_boot cfg hook) st HL Hops)
    as [[Hsh Hw] Hterm];
    [apply rb_zero_ok; lia
    |by apply left_slots_terminated_empty, Forall_replicate|done|].
  split.
  - intros Hne.
    destruct (rb_shape_line_out _ _ Hsh) as [lb Hlb].
    destruct (telnet_send_spec cfg rc tx st lb Hsh Hlb)
      as (ok & st' & Es & _ & Hwire & _).
    exists ok, st'. eexists. split; [done|]. split; [done|].
    destruct (decide (len lb = 0)) as [|Hnz]; [apply Forall_nil_2|].
    apply Forall_cons_2; [|apply Forall_nil_2].
    destruct (Hterm _ _ Hlb Hne) as [?|?]; done.
  - intros HN2 Hio lb Hlb Hth Hnz.
    apply timer_flush_as_accumulated; (done || lia).
Qed.

Lemma sent_lines_terminated_witness :
  let ops := [op_append 97; op_append 98; op_append 99; op_append 100;
              op_append 101; op_append 102; op_append 103; op_append 104] in
  (0 < TELNET_LINES cfg_4_8 ∧
   2 ≤ TELNET_LINE_SIZE cfg_4_8 < 65536 ∧
   Forall producer_or_sender ops) ∧
  ∃ st, rb_run cfg_4_8 ops (telnet_boot cfg_4_8 None) = Some st ∧
    line_out (telnet_rb st) ≠ line_in (telnet_rb st) ∧
    ∃ ok st' sent,
      telnet_send cfg_4_8 0 (Some 7) st = Some (ok, st') ∧
      wire st' = wire st ++ sent ∧ Forall ends_crlf sent.
Proof.
  intros ops.
  assert (H1 : 0 < TELNET_LINES cfg_4_8) by (simpl; lia).
  assert (H2 : 2 ≤ TELNET_LINE_SIZE cfg_4_8 < 65536) by (simpl; lia).
  assert (H3 : Forall producer_or_sender ops).
  { unfold ops. repeat (apply Forall_cons_2; [exact I|]). apply Forall_nil_2. }
  split; [exact (conj H1 (conj H2 H3))|].
  eexists. split; [vm_compute; reflexivity|].
  assert (H5 : 0 ≠ 1) by lia.
  split; [exact H5|].
  match goal with
  | |- ∃ ok st' sent, telnet_send _ _ _ ?s = _ ∧ _ =>
      exact (proj1 (sent_lines_terminated cfg_4_8 None ops s 0 (Some 7)
                      H1 H2 H3 eq_refl) H5)
  end.
Defined.

(** C5, as the claim has it, fails on the prompt "ab" with the idle-flush
    threshold at 2: the timer switches the slot as it is, and the sender
    hands the two characters to the transport with no terminator. *)
Lemma timer_flush_not_terminated :
  ∃ st st' st'',
    printk cfg_4_8 [97; 98] (telnet_boot cfg_4_8 None) = Some st ∧
    telnet_send_prematurely cfg_4_8 st = Some st' ∧
    telnet_run cfg_4_8 (Z.to_nat (send_lock st')) 7 st' = Some st'' ∧
    wire st'' = [[97; 98]] ∧
    ¬ Forall ends_crlf (wire st'').
Proof.
  eexists _, _, _. split; [vm_compute; reflexivity|].
  split; [vm_compute; reflexivity|]. split; [vm_compute; reflexivity|].
  split; [reflexivity|].
  intros H. apply Forall_cons in H as [[body Hb] _].
  apply (f_equal length) in Hb as Hl. rewrite length_app in Hl. simpl in Hl.
  destruct body; [discriminate Hb|simpl in Hl; lia].
Qed.

(** * Further properties of the driver *)

(** ** Accepting and closing a session *)

(** X1: an accept callback that reports an error, that arrives while a
    client is connected, or whose receive registration fails, releases the
    new connection and changes nothing else: the session in place keeps its
    connection, its outbound buffer, its hook, its timer and its ring. *)
Theorem telnet_accept_rejected (client error recv_rc : Z) (tx : option Z) (st : telnet) :
  error ≠ 0 ∨ client_cnx st ≠ None ∨ recv_rc ≠ 0 →
  telnet_accept client error recv_rc tx st = net_context_put (Some client) st ∧
  let st' := telnet_accept client error recv_rc tx st in
  puts st' = puts st ++ [Some client] ∧
  client_cnx st' = client_cnx st ∧ out_buf st' = out_buf st ∧
  printk_hook st' = printk_hook st ∧ orig_printk_hook st' = orig_printk_hook st ∧
  send_timer st' = send_timer st ∧ send_lock st' = send_lock st ∧
  telnet_rb st' = telnet_rb st.
Proof.
  intros H.
  assert (E : telnet_accept client error recv_rc tx st
              = net_context_put (Some client) st).
  { unfold telnet_accept.
    destruct (decide (error ≠ 0)); [done|].
    destruct (decide (client_cnx st ≠ None)); [done|].
    destruct (decide (recv_rc ≠ 0)); [done|].
    destruct H as [?|[?|?]]; done. }
  split; [done|]. cbv zeta. rewrite E. done.
Qed.

Lemma telnet_accept_rejected_witness :
  let st := telnet_accept 5 0 0 (Some 9) (telnet_boot cfg_4_8 (Some (fn_console 0))) in
  (0 ≠ 0 ∨ client_cnx st ≠ None ∨ 0 ≠ 0) ∧
  telnet_accept 6 0 0 (Some 10) st = net_context_put (Some 6) st.
Proof.
  intros st.
  assert (H : 0 ≠ 0 ∨ client_cnx st ≠ None ∨ 0 ≠ 0)
    by (right; left; discriminate).
  split; [exact H|].
  exact (proj1 (telnet_accept_rejected 6 0 0 (Some 10) st H)).
Defined.

(** X2: accepting a client and closing the session again puts back the
    printk hook that was installed before, with the timer stopped, no
    connection recorded and the ring reset; the connection and the outbound
    buffer of the session have each been released once, and the semaphore,
    the bytes sent and the input queues are as they were. *)
Theorem telnet_accept_then_end (cfg : config) (client tx : Z) (st : telnet) :
  client_cnx st = None →
  length (l_bufs (telnet_rb st)) = Z.to_nat (TELNET_LINES cfg) →
  let st1 := telnet_accept client 0 0 (Some tx) st in
  printk_hook st1 = Some fn_telnet_console_out ∧
  client_cnx st1 = Some client ∧ send_timer st1 = true ∧
  ∃ st2, telnet_end_client_connection cfg st1 = Some st2 ∧
    printk_hook st2 = printk_hook st ∧
    orig_printk_hook st2 = None ∧
    client_cnx st2 = None ∧
    send_timer st2 = false ∧
    puts st2 = puts st ++ [Some client] ∧
    unrefs st2 = unrefs st ++ [tx] ∧
    telnet_rb st2 = LineBufRb (set_len 0 <$> l_bufs (telnet_rb st)) 0 0 ∧
    send_lock st2 = send_lock st ∧ wire st2 = wire st ∧
    avail_queue st2 = avail_queue st ∧ input_queue st2 = input_queue st.
Proof.
  intros Hc Hlen st1.
  assert (E1 : st1 = k_timer_start
                 (set_client_cnx (Some client)
                    (__printk_hook_install (Some fn_telnet_console_out)
                       (set_orig_printk_hook (printk_hook st)
                          (set_out_buf (Some tx) st))))).
  { unfold st1, telnet_accept.
    destruct (decide (0 ≠ 0)); [done|].
    destruct (decide (client_cnx st ≠ None)); [done|].
    reflexivity. }
  rewrite E1. simpl. split; [done|]. split; [done|]. split; [done|].
  unfold telnet_end_client_connection. simpl.
  rewrite telnet_rb_init_resets by done.
  eexists. split; [reflexivity|]. simpl. done.
Qed.

Lemma telnet_accept_then_end_witness :
  let st := telnet_boot cfg_4_8 (Some (fn_console 0)) in
  (client_cnx st = None ∧
   length (l_bufs (telnet_rb st)) = Z.to_nat (TELNET_LINES cfg_4_8)) ∧
  ∃ st2, telnet_end_client_connection cfg_4_8 (telnet_accept 5 0 0 (Some 9) st)
         = Some st2 ∧
    printk_hook st2 = Some (fn_console 0).
Proof.
  intros st.
  assert (H1 : client_cnx st = None) by reflexivity.
  assert (H2 : length (l_bufs (telnet_rb st)) = Z.to_nat (TELNET_LINES cfg_4_8))
    by reflexivity.
  split; [exact (conj H1 H2)|].
  destruct (telnet_accept_then_end cfg_4_8 5 9 st H1 H2)
    as (_ & _ & _ & st2 & E & Hh & _).
  exists st2. split; [exact E|exact Hh].
Defined.

(** ** Switching slots *)

(** X3: with at least two slots, a switch never leaves the read index on
    the slot it has just made the write slot, and that slot is empty: the
    sender is never handed, at its next turn, the line being written. *)
Theorem telnet_rb_switch_separates (cfg : config) (st : telnet) :
  2 ≤ TELNET_LINES cfg →
  rb_shape cfg (telnet_rb st) →
  ∃ st', telnet_rb_switch cfg st = Some st' ∧
    line_out (telnet_rb st') ≠ line_in (telnet_rb st') ∧
    ∃ lb, arr_get (line_in (telnet_rb st')) (l_bufs (telnet_rb st')) = Some lb ∧
          len lb = 0.
Proof.
  intros HN Hsh. rewrite telnet_rb_switch_eq by done.
  eexists. split; [done|]. rewrite telnet_rb_k_sem_give. simpl.
  pose proof Hsh as (Hlen & [Hin Hin'] & [Hout Hout'] & _).
  destruct (rb_next_range cfg _ Hin Hin') as [Hn Hn'].
  split.
  - destruct (decide (rb_next cfg (line_in (telnet_rb st))
                      = line_out (telnet_rb st))) as [E|E]; [|done].
    rewrite <- E. by apply rb_next_ne.
  - rewrite arr_get_alter_eq.
    destruct (arr_get_in_range (rb_next cfg (line_in (telnet_rb st)))
                (l_bufs (telnet_rb st))) as [x Hx]; [lia|].
    rewrite Hx. simpl. by eexists.
Qed.

Lemma telnet_rb_switch_separates_witness :
  let st := telnet_boot cfg_4_8 None in
  (2 ≤ TELNET_LINES cfg_4_8 ∧ rb_shape cfg_4_8 (telnet_rb st)) ∧
  ∃ st', telnet_rb_switch cfg_4_8 st = Some st' ∧
         line_out (telnet_rb st') ≠ line_in (telnet_rb st').
Proof.
  intros st.
  assert (H1 : 2 ≤ TELNET_LINES cfg_4_8) by (simpl; lia).
  assert (H2 : rb_shape cfg_4_8 (telnet_rb st)) by (apply rb_zero_ok; simpl; lia).
  split; [exact (conj H1 H2)|].
  destruct (telnet_rb_switch_separates cfg_4_8 st H1 H2) as (st' & E & Hne & _).
  exists st'. split; [exact E|exact Hne].
Defined.

(** X4: when the write slot holds TELNET_LINE_SIZE - 2 characters, the next
    character, whatever it is, is treated as a line-feed: the state after
    the call is the one a line-feed would have produced, the slot left
    behind holds the characters it held followed by CR LF, and the
    character itself is stored nowhere. *)
Theorem telnet_console_out_at_capacity (cfg : config) (c : Z) (st : telnet)
    (lb : line_buf) :
  2 ≤ TELNET_LINES cfg →
  TELNET_LINE_SIZE cfg < 65536 →
  rb_shape cfg (telnet_rb st) →
  arr_get (line_in (telnet_rb st)) (l_bufs (telnet_rb st)) = Some lb →
  len lb = TELNET_LINE_SIZE cfg - 2 →
  ∃ st' lb',
    telnet_console_out cfg c st = Some (c, st') ∧
    telnet_console_out cfg LF st = Some (LF, st') ∧
    line_in (telnet_rb st') ≠ line_in (telnet_rb st) ∧
    arr_get (line_in (telnet_rb st)) (l_bufs (telnet_rb st')) = Some lb' ∧
    line_data lb' = line_data lb ++ [CR; LF].
Proof.
  intros HN HL Hsh Hlb Hlen.
  pose proof (rb_shape_slot _ _ _ _ Hsh Hlb) as Hok. pose proof Hok as [Hb Hl].
  pose proof (arr_get_bound _ _ _ Hlb) as Hi.
  pose proof Hsh as (_ & [Hin Hin'] & _).
  rewrite (telnet_console_out_eq cfg c st lb) by (done || lia).
  rewrite (telnet_console_out_lf cfg st lb) by (done || lia).
  cbv zeta.
  destruct (decide (c = LF ∨ len lb + 1 = TELNET_LINE_SIZE cfg - 1))
    as [_|Hn]; [|exfalso; apply Hn; right; lia].
  rewrite telnet_rb_switch_eq
    by (apply rb_shape_insert; [done|apply slot_terminate_ok; [done|lia]]).
  simpl. eexists _, (slot_terminate lb). split; [done|]. split; [done|].
  rewrite telnet_rb_k_sem_give. simpl.
  pose proof (rb_next_ne cfg _ HN Hin Hin') as Hne.
  destruct (rb_next_range cfg _ Hin Hin') as [Hn _].
  split; [done|]. split.
  - rewrite arr_get_alter_ne by (lia || done). by apply arr_get_insert_eq.
  - apply line_data_slot_terminate. lia.
Qed.

Lemma telnet_console_out_at_capacity_witness :
  ∃ st lb,
    printk cfg_4_8 [97; 98; 99; 100; 101; 102] (telnet_boot cfg_4_8 None) = Some st ∧
    (2 ≤ TELNET_LINES cfg_4_8 ∧ TELNET_LINE_SIZE cfg_4_8 < 65536 ∧
     arr_get (line_in (telnet_rb st)) (l_bufs (telnet_rb st)) = Some lb ∧
     len lb = TELNET_LINE_SIZE cfg_4_8 - 2) ∧
    ∃ st' lb',
      telnet_console_out cfg_4_8 103 st = Some (103, st') ∧
      telnet_console_out cfg_4_8 LF st = Some (LF, st') ∧
      line_in (telnet_rb st') ≠ line_in (telnet_rb st) ∧
      arr_get (line_in (telnet_rb st)) (l_bufs (telnet_rb st')) = Some lb' ∧
      line_data lb' = line_data lb ++ [CR; LF].
Proof.
  eexists _, _. split; [vm_compute; reflexivity|].
  assert (H1 : 2 ≤ TELNET_LINES cfg_4_8) by (simpl; lia).
  assert (H2 : TELNET_LINE_SIZE cfg_4_8 < 65536) by (simpl; lia).
  match goal with
  | |- (_ ∧ _ ∧ arr_get _ (l_bufs (telnet_rb ?s)) = Some ?b ∧ _) ∧ _ =>
      assert (H3 : rb_shape cfg_4_8 (telnet_rb s));
      [|assert (H4 : arr_get (line_in (telnet_rb s)) (l_bufs (telnet_rb s))
                     = Some (LineBuf [97; 98; 99; 100; 101; 102; 0; 0] 6))
          by reflexivity;
        assert (H5 : len (LineBuf [97; 98; 99; 100; 101; 102; 0; 0] 6)
                     = TELNET_LINE_SIZE cfg_4_8 - 2) by reflexivity;
        split; [exact (conj H1 (conj H2 (conj H4 H5)))|];
        exact (telnet_console_out_at_capacity cfg_4_8 103 s _ H1 H2 H3 H4 H5)]
  end.
  split; [reflexivity|]. split; [simpl; lia|]. split; [simpl; lia|].
  simpl. repeat (apply Forall_cons_2; [split; [reflexivity|simpl; lia]|]).
  apply Forall_nil_2.
Defined.

(** ** Idle-flush timer *)



(** ** The sender loop *)

Lemma telnet_end_client_connection_spec (cfg : config) (st : telnet) :
  2 ≤ TELNET_LINE_SIZE cfg →
  rb_shape cfg (telnet_rb st) →
  ∃ st', telnet_end_client_connection cfg st = Some st' ∧
    rb_ok cfg (telnet_rb st') ∧
    telnet_rb st' = LineBufRb (set_len 0 <$> l_bufs (telnet_rb st)) 0 0 ∧
    client_cnx st' = None ∧ orig_printk_hook st' = None ∧
    printk_hook st' = orig_printk_hook st ∧ send_timer st' = false ∧
    out_buf st' = out_buf st ∧
    unrefs st' = unrefs st ++ option_list (out_buf st) ∧
    puts st' = puts st ++ [client_cnx st] ∧
    send_lock st' = send_lock st ∧ wire st' = wire st ∧
    avail_queue st' = avail_queue st ∧ input_queue st' = input_queue st.
Proof.
  intros HL Hsh.
  destruct (telnet_end_client_connection_ok cfg st HL Hsh) as (st' & E & Hok).
  exists st'. split; [done|]. split; [done|].
  unfold telnet_end_client_connection in E.
  rewrite telnet_rb_init_resets in E
    by (simpl; destruct (out_buf st); simpl; by destruct Hsh).
  inversion E; subst st'. clear E.
  destruct (out_buf st) as [b|] eqn:Hb; simpl; rewrite ?Hb, ?app_nil_r; done.
Qed.

(** X6: one turn of the sender loop.  When the slot at the read index
    holds a line and either [net_context_send] fails or no new outbound
    buffer can be had, the line has been handed over and its slot emptied
    all the same, and the session is torn down: hook restored, timer
    stopped, connection forgotten, ring reset; the outbound buffer is
    released only when the send itself failed.  When that slot is empty
    nothing is sent, so a broken transport goes unnoticed and the session
    stays as it is. *)
Theorem telnet_run_body_outcomes (cfg : config) (rc : Z) (tx : option Z)
    (st : telnet) (lb : line_buf) :
  2 ≤ TELNET_LINE_SIZE cfg →
  rb_shape cfg (telnet_rb st) →
  arr_get (line_out (telnet_rb st)) (l_bufs (telnet_rb st)) = Some lb →
  ∃ st', telnet_run_body cfg rc tx st = Some st' ∧
    send_lock st' = send_lock st - 1 ∧
    (len lb ≠ 0 → rc ≠ 0 ∨ tx = None →
       wire st' = wire st ++ [line_data lb] ∧
       client_cnx st' = None ∧
       printk_hook st' = orig_printk_hook st ∧
       send_timer st' = false ∧
       line_in (telnet_rb st') = 0 ∧ line_out (telnet_rb st') = 0 ∧
       Forall (λ x, len x = 0) (l_bufs (telnet_rb st')) ∧
       unrefs st' = unrefs st ++
         (if decide (rc ≠ 0) then option_list (out_buf st) else [])) ∧
    (len lb = 0 →
       wire st' = wire st ∧ client_cnx st' = client_cnx st ∧
       out_buf st' = out_buf st ∧ printk_hook st' = printk_hook st ∧
       send_timer st' = send_timer st ∧ unrefs st' = unrefs st ∧
       line_in (telnet_rb st') = line_in (telnet_rb st)).
Proof.
  intros HL Hsh Hlb. unfold telnet_run_body.
  set (st0 := set_send_lock (send_lock st - 1) st).
  unfold telnet_send, telnet_rb_get_line_out.
  change (telnet_rb st0) with (telnet_rb st). rewrite Hlb. simpl.
  pose proof Hsh as (Hlen & Hin & [Hout Hout'] & Hall).
  destruct (rb_next_range cfg _ Hout Hout') as [Ho Ho'].
  destruct (decide (len lb = 0)) as [Hz|Hnz]; simpl.
  - eexists. split; [done|]. simpl. split; [done|]. split; [done|]. done.
  - rewrite Hlb. simpl.
    rewrite (rb_set_len_alter _ _ _ lb) by done. simpl.
    set (rb1 := LineBufRb _ _ _).
    assert (Hsh1 : rb_shape cfg rb1) by (by apply rb_shape_alter).
    destruct (decide (rc ≠ 0)) as [Hrc|Hrc]; simpl.
    + match goal with |- ∃ st', telnet_end_client_connection cfg ?s = _ ∧ _ =>
        destruct (telnet_end_client_connection_spec cfg s HL Hsh1)
          as (st' & E & _ & Hrb & Hc & _ & Hh & Ht & _ & Hu & _ & Hs & Hw & _)
      end.
      exists st'. split; [done|]. split; [by rewrite Hs|].
      split; [|done]. intros _ _. rewrite Hw, Hc, Hh, Ht, Hrb, Hu. simpl.
      repeat split; try done.
      apply Forall_fmap. by apply Forall_true.
    + unfold telnet_setup_out_buf. simpl. destruct tx as [b|]; simpl.
      * eexists. split; [done|]. simpl. split; [done|]. split; [|done].
        intros _ [?|?]; done.
      * match goal with |- ∃ st', telnet_end_client_connection cfg ?s = _ ∧ _ =>
          destruct (telnet_end_client_connection_spec cfg s HL Hsh1)
            as (st' & E & _ & Hrb & Hc & _ & Hh & Ht & _ & Hu & _ & Hs & Hw & _)
        end.
        exists st'. split; [done|]. split; [by rewrite Hs|].
        split; [|done]. intros _ _. rewrite Hw, Hc, Hh, Ht, Hrb, Hu. simpl.
        rewrite app_nil_r. repeat split; try done.
        apply Forall_fmap. by apply Forall_true.
Qed.

Lemma telnet_run_body_outcomes_witness :
  ∃ st lb,
    printk cfg_4_8 [97; 10]
      (telnet_accept 5 0 0 (Some 9) (telnet_boot cfg_4_8 (Some (fn_console 0))))
      = Some st ∧
    (2 ≤ TELNET_LINE_SIZE cfg_4_8 ∧
     arr_get (line_out (telnet_rb st)) (l_bufs (telnet_rb st)) = Some lb) ∧
    ∃ st', telnet_run_body cfg_4_8 (-1) None st = Some st' ∧
           wire st' = [[97; 13; 10]] ∧ client_cnx st' = None ∧
           printk_hook st' = Some (fn_console 0) ∧ unrefs st' = [9].
Proof.
  eexists _, _. split; [vm_compute; reflexivity|].
  assert (H1 : 2 ≤ TELNET_LINE_SIZE cfg_4_8) by (simpl; lia).
  match goal with
  | |- (_ ∧ arr_get _ (l_bufs (telnet_rb ?s)) = Some ?b) ∧ _ =>
      assert (H3 : rb_shape cfg_4_8 (telnet_rb s));
      [|assert (H4 : arr_get (line_out (telnet_rb s)) (l_bufs (telnet_rb s))
                     = Some (LineBuf [97; 13; 10; 0; 0; 0; 0; 0] 3))
          by reflexivity;
        split; [exact (conj H1 H4)|];
        destruct (telnet_run_body_outcomes cfg_4_8 (-1) None s _ H1 H3 H4)
          as (st' & E & _ & Hfail & _);
        assert (Hnz : len (LineBuf [97; 13; 10; 0; 0; 0; 0; 0] 3) ≠ 0)
          by (simpl; lia);
        assert (Hrc : -1 ≠ 0 ∨ @None Z = None) by (left; lia);
        destruct (Hfail Hnz Hrc) as (Hw & Hc & Hh & _ & _ & _ & _ & Hu);
        exists st'; split; [exact E|]; split; [exact Hw|]; split; [exact Hc|];
        split; [exact Hh|exact Hu]]
  end.
  split; [reflexivity|]. split; [simpl; lia|]. split; [simpl; lia|].
  simpl. repeat (apply Forall_cons_2; [split; [reflexivity|simpl; lia]|]).
  apply Forall_nil_2.
Defined.

(** ** Inbound framer: buffers and bytes *)

Lemma take_clear_if (c : Z) (i m : nat) (line : list Z) :
  (m ≤ i)%nat → take m (clear_if c i line) = take m line.
Proof.
  intros H. unfold clear_if. destruct (decide _); [|done].
  by apply take_insert_ge.
Qed.

Lemma drop_clear_if (c : Z) (i m : nat) (line : list Z) :
  (i < m)%nat → drop m (clear_if c i line) = drop m line.
Proof.
  intros H. unfold clear_if. destruct (decide _); [|done].
  by apply drop_insert_lt.
Qed.

Lemma net_nbuf_appdatalen_length (b : net_buf) :
  net_buf_frags_len b < 65536 →
  net_nbuf_appdatalen b = Z.of_nat (length (nb_appdata b)).
Proof.
  intros H. unfold net_nbuf_appdatalen, net_buf_frags_len in *.
  rewrite length_app in H. apply uint16_small. lia.
Qed.

(** Either the chunk is dropped and the state is as it was, or the buffer
    at the head of the free pool goes to the tail of the delivery queue. *)
Lemma telnet_handle_input_cases (cfg : config) (b : net_buf) (st : telnet) :
  net_buf_frags_len b < 65536 →
  (∀ avail, avail_queue st = Some avail → Forall (line_capacity cfg) avail) →
  telnet_handle_input cfg b st = Some st ∨
  ∃ input avail lines line,
    avail_queue st = Some (input :: avail) ∧
    input_queue st = Some lines ∧
    length line = length input ∧
    telnet_handle_input cfg b st =
      Some (set_input_queue (Some (lines ++ [line]))
              (set_avail_queue (Some avail) st)).
Proof.
  intros Hfr Hcap.
  pose proof (net_nbuf_appdatalen_length b Hfr) as En.
  destruct (decide (net_nbuf_appdatalen b > CONSOLE_MAX_LINE_LEN cfg
                    ∨ net_nbuf_appdatalen b < TELNET_MIN_MSG)) as [Hbad|Hgood].
  { left. unfold telnet_handle_input. by destruct (decide _). }
  assert (Hn : TELNET_MIN_MSG ≤ net_nbuf_appdatalen b ≤ CONSOLE_MAX_LINE_LEN cfg)
    by lia.
  destruct (nb_appdata b) as [|c0 rest] eqn:Eapp.
  { simpl in En. unfold TELNET_MIN_MSG in Hn. lia. }
  destruct (decide (c0 = IAC)) as [->|Hiac].
  { left. unfold telnet_handle_input, net_nbuf_appdata.
    destruct (decide _); [done|]. rewrite Eapp. simpl.
    by destruct (decide (IAC = IAC)). }
  destruct (avail_queue st) as [[|input avail]|] eqn:Hav;
    destruct (input_queue st) as [lines|] eqn:Hin;
    try (left; unfold telnet_handle_input, net_nbuf_appdata;
         destruct (decide _); [done|]; rewrite Eapp; simpl;
         destruct (decide (c0 = IAC)); [done|]; by rewrite Hav, ?Hin).
  right. specialize (Hcap _ eq_refl). apply Forall_cons in Hcap as [Hc _].
  exists input, avail, lines.
  rewrite (telnet_handle_input_accepted cfg b st input avail lines);
    try done; [|rewrite Eapp; simpl; congruence].
  cbv zeta. eexists. split; [done|]. split; [done|]. split; [|done].
  assert (Hlc : length (nb_appdata b ++ drop (length (nb_appdata b)) input)
                = length input).
  { rewrite length_app, length_drop. unfold line_capacity in Hc.
    rewrite <- Eapp in En. lia. }
  destruct (decide _); [done|]. by rewrite !length_clear_if.
Qed.

(** X7: the framer is defined on every chunk and moves buffers without
    losing or duplicating any: either the state is left as it was, or the
    buffer at the head of the free pool is queued at the tail of the
    delivery queue, still of the same capacity.  With no queues registered
    the chunk is dropped.  Nothing but the two queues changes. *)
Theorem telnet_handle_input_conserves (cfg : config) (b : net_buf) (st : telnet) :
  net_buf_frags_len b < 65536 →
  (∀ avail, avail_queue st = Some avail → Forall (line_capacity cfg) avail) →
  ∃ st', telnet_handle_input cfg b st = Some st' ∧
    st' = set_input_queue (input_queue st') (set_avail_queue (avail_queue st') st) ∧
    (avail_queue st = None ∨ input_queue st = None → st' = st) ∧
    ∀ avail lines,
      avail_queue st = Some avail → input_queue st = Some lines →
      ∃ avail' lines',
        avail_queue st' = Some avail' ∧ input_queue st' = Some lines' ∧
        (length avail' + length lines' = length avail + length lines)%nat ∧
        avail' `suffix_of` avail ∧ lines `prefix_of` lines' ∧
        (Forall (line_capacity cfg) lines → Forall (line_capacity cfg) lines').
Proof.
  intros Hfr Hcap.
  destruct (telnet_handle_input_cases cfg b st Hfr Hcap)
    as [E|(input & avail0 & lines0 & line & Hav & Hin & Hl & E)].
  - exists st. split; [done|]. split; [by destruct st|]. split; [done|].
    intros avail lines Hav Hin. exists avail, lines.
    repeat split; done.
  - eexists. split; [exact E|]. simpl. split; [done|].
    split; [intros [H|H]; congruence|].
    intros avail lines Hav' Hin'.
    rewrite Hav in Hav'. rewrite Hin in Hin'.
    inversion Hav'; subst avail. inversion Hin'; subst lines.
    exists avail0, (lines0 ++ [line]). split; [done|]. split; [done|].
    split; [rewrite length_app; simpl; lia|].
    split; [by apply suffix_cons_r|]. split; [by apply prefix_app_r|].
    intros Hq. apply Forall_app. split; [done|].
    apply Forall_cons_2; [|apply Forall_nil_2].
    specialize (Hcap _ Hav). apply Forall_cons in Hcap as [Hc _].
    unfold line_capacity in *. by rewrite Hl.
Qed.

Lemma telnet_handle_input_conserves_witness :
  let b := NetBuf 1 [0; 0; 0] [108; 115; 13; 10] in
  let st := telnet_register_input (Some [replicate 16 0; replicate 16 0])
              (Some []) (telnet_boot cfg_4_8 None) in
  (net_buf_frags_len b < 65536 ∧
   ∀ avail, avail_queue st = Some avail → Forall (line_capacity cfg_4_8) avail) ∧
  ∃ st', telnet_handle_input cfg_4_8 b st = Some st' ∧
    avail_queue st' = Some [replicate 16 0] ∧
    input_queue st' = Some [[108; 115; 0; 0] ++ replicate 12 0].
Proof.
  intros b st.
  assert (H1 : net_buf_frags_len b < 65536) by (vm_compute; reflexivity).
  assert (H2 : ∀ avail, avail_queue st = Some avail →
                        Forall (line_capacity cfg_4_8) avail).
  { intros avail H. inversion H; subst avail.
    apply Forall_cons_2; [reflexivity|].
    apply Forall_cons_2; [reflexivity|]. apply Forall_nil_2. }
  split; [exact (conj H1 H2)|].
  destruct (telnet_handle_input_conserves cfg_4_8 b st H1 H2) as (st' & E & _).
  exists st'. split; [exact E|].
  assert (E' : telnet_handle_input cfg_4_8 b st
               = Some (set_input_queue (Some [[108; 115; 0; 0] ++ replicate 12 0])
                         (set_avail_queue (Some [replicate 16 0]) st)))
    by (vm_compute; reflexivity).
  rewrite E' in E. inversion E; subst st'. split; reflexivity.
Defined.

(** X8: the framer never changes more than the last two bytes of the chunk
    it queues: the line has the capacity of the buffer taken from the pool,
    starts with the chunk less its last two bytes, and beyond the chunk
    still holds what the buffer held before. *)
Theorem telnet_handle_input_keeps_bytes (cfg : config) (b : net_buf)
    (st : telnet) (input : list Z) (avail lines : list (list Z)) :
  net_buf_frags_len b < 65536 →
  TELNET_MIN_MSG ≤ net_nbuf_appdatalen b ≤ CONSOLE_MAX_LINE_LEN cfg →
  head (nb_appdata b) ≠ Some IAC →
  avail_queue st = Some (input :: avail) →
  input_queue st = Some lines →
  line_capacity cfg input →
  let n := length (nb_appdata b) in
  ∃ line,
    telnet_handle_input cfg b st =
      Some (set_input_queue (Some (lines ++ [line]))
              (set_avail_queue (Some avail) st)) ∧
    length line = length input ∧
    take (n - 2) line = take (n - 2) (nb_appdata b) ∧
    drop n line = drop n input.
Proof.
  intros Hfr Hn Hiac Hav Hin Hcap n.
  pose proof (net_nbuf_appdatalen_length b Hfr) as En. fold n in En.
  unfold TELNET_MIN_MSG, line_capacity in *.
  rewrite (telnet_handle_input_accepted cfg b st input avail lines) by done.
  cbv zeta. fold n. eexists. split; [done|].
  set (copied := nb_appdata b ++ drop n input).
  assert (Hlc : length copied = length input).
  { unfold copied. rewrite length_app, length_drop. lia. }
  assert (Ht : take (n - 2) copied = take (n - 2) (nb_appdata b)).
  { unfold copied. apply take_app_le. lia. }
  assert (Hd : drop n copied = drop n input).
  { unfold copied, n. by rewrite drop_app_length. }
  destruct (decide _); [done|].
  rewrite !length_clear_if. split; [done|]. split.
  - rewrite !take_clear_if by lia. done.
  - rewrite !drop_clear_if by lia. done.
Qed.

Lemma telnet_handle_input_keeps_bytes_witness :
  let b := NetBuf 1 [0; 0; 0] [108; 115; 13; 10] in
  let st := telnet_register_input (Some [replicate 16 120]) (Some [])
              (telnet_boot cfg_4_8 None) in
  (net_buf_frags_len b < 65536 ∧
   TELNET_MIN_MSG ≤ net_nbuf_appdatalen b ≤ CONSOLE_MAX_LINE_LEN cfg_4_8 ∧
   head (nb_appdata b) ≠ Some IAC ∧
   line_capacity cfg_4_8 (replicate 16 120)) ∧
  ∃ line,
    telnet_handle_input cfg_4_8 b st =
      Some (set_input_queue (Some [line]) (set_avail_queue (Some []) st)) ∧
    take 2 line = [108; 115] ∧ drop 4 line = replicate 12 120.
Proof.
  intros b st.
  assert (H1 : net_buf_frags_len b < 65536) by (vm_compute; reflexivity).
  assert (H2 : TELNET_MIN_MSG ≤ net_nbuf_appdatalen b ≤ CONSOLE_MAX_LINE_LEN cfg_4_8)
    by (vm_compute; split; discriminate).
  assert (H3 : head (nb_appdata b) ≠ Some IAC) by (vm_compute; discriminate).
  assert (H4 : line_capacity cfg_4_8 (replicate 16 120)) by reflexivity.
  split; [exact (conj H1 (conj H2 (conj H3 H4)))|].
  destruct (telnet_handle_input_keeps_bytes cfg_4_8 b st (replicate 16 120) [] []
              H1 H2 H3 eq_refl eq_refl H4) as (line & E & _ & Ht & Hd).
  exists line. split; [exact E|]. split; [exact Ht|exact Hd].
Defined.

Lemma c_string_app (l k : list Z) :
  Forall (λ c, c ≠ NUL) l → c_string (l ++ k) = l ++ c_string k.
Proof.
  induction l as [|c l IH]; intros H; simpl; [done|].
  apply Forall_cons in H as [Hc Hl].
  destruct (decide (c = NUL)); [done|]. by rewrite IH.
Qed.

(** X9: a chunk with no NUL in it that ends neither in a line-feed nor in a
    carriage-return followed by one more byte is queued as it came, with no
    terminator: read as a C string, the queued line is the chunk followed
    by whatever text the buffer held beyond it from its previous use. *)
Theorem telnet_handle_input_unterminated (cfg : config) (b : net_buf)
    (st : telnet) (input : list Z) (avail lines : list (list Z)) :
  net_buf_frags_len b < 65536 →
  TELNET_MIN_MSG ≤ net_nbuf_appdatalen b ≤ CONSOLE_MAX_LINE_LEN cfg →
  head (nb_appdata b) ≠ Some IAC →
  avail_queue st = Some (input :: avail) →
  input_queue st = Some lines →
  line_capacity cfg input →
  Forall (λ c, c ≠ NUL) (nb_appdata b) →
  last (nb_appdata b) ≠ Some LF →
  nb_appdata b !! (length (nb_appdata b) - 2)%nat ≠ Some CR →
  let line := nb_appdata b ++ drop (length (nb_appdata b)) input in
  telnet_handle_input cfg b st =
    Some (set_input_queue (Some (lines ++ [line]))
            (set_avail_queue (Some avail) st)) ∧
  c_string line = nb_appdata b ++ c_string (drop (length (nb_appdata b)) input).
Proof.
  intros Hfr Hn Hiac Hav Hin Hcap Hnul Hlf Hcr line.
  pose proof (net_nbuf_appdatalen_length b Hfr) as En.
  unfold TELNET_MIN_MSG, line_capacity in *.
  split; [|by apply c_string_app].
  rewrite (telnet_handle_input_accepted cfg b st input avail lines) by done.
  cbv zeta. fold line. do 4 f_equal.
  destruct (decide _) as [|_]; [done|].
  set (n := length (nb_appdata b)) in *.
  assert (E1 : clear_if LF (n - 1) line = line).
  { unfold clear_if. destruct (decide _) as [H|]; [|done].
    unfold line in H. rewrite lookup_app_l in H by lia.
    rewrite last_lookup in Hlf. exfalso. apply Hlf. rewrite <- H. f_equal. lia. }
  rewrite E1. unfold clear_if. destruct (decide _) as [H|]; [|done].
  unfold line in H. rewrite lookup_app_l in H by lia. done.
Qed.

Lemma telnet_handle_input_unterminated_witness :
  let b := NetBuf 1 [0; 0; 0] [108; 115] in
  let old := [112; 97; 115; 115; 119; 100; 0; 0; 0; 0; 0; 0; 0; 0; 0; 0] in
  let st := telnet_register_input (Some [old]) (Some [])
              (telnet_boot cfg_4_8 None) in
  (net_buf_frags_len b < 65536 ∧
   TELNET_MIN_MSG ≤ net_nbuf_appdatalen b ≤ CONSOLE_MAX_LINE_LEN cfg_4_8 ∧
   head (nb_appdata b) ≠ Some IAC ∧
   line_capacity cfg_4_8 old ∧
   Forall (λ c, c ≠ NUL) (nb_appdata b) ∧
   last (nb_appdata b) ≠ Some LF ∧
   nb_appdata b !! (length (nb_appdata b) - 2)%nat ≠ Some CR) ∧
  c_string (nb_appdata b ++ drop (length (nb_appdata b)) old)
  = [108; 115; 115; 115; 119; 100].
Proof.
  intros b old st.
  assert (H1 : net_buf_frags_len b < 65536) by (vm_compute; reflexivity).
  assert (H2 : TELNET_MIN_MSG ≤ net_nbuf_appdatalen b ≤ CONSOLE_MAX_LINE_LEN cfg_4_8)
    by (vm_compute; split; discriminate).
  assert (H3 : head (nb_appdata b) ≠ Some IAC) by (vm_compute; discriminate).
  assert (H4 : line_capacity cfg_4_8 old) by reflexivity.
  assert (H5 : Forall (λ c, c ≠ NUL) (nb_appdata b)).
  { apply Forall_cons_2; [discriminate|].
    apply Forall_cons_2; [discriminate|]. apply Forall_nil_2. }
  assert (H6 : last (nb_appdata b) ≠ Some LF) by (vm_compute; discriminate).
  assert (H7 : nb_appdata b !! (length (nb_appdata b) - 2)%nat ≠ Some CR)
    by (vm_compute; discriminate).
  split; [exact (conj H1 (conj H2 (conj H3 (conj H4 (conj H5 (conj H6 H7))))))|].
  destruct (telnet_handle_input_unterminated cfg_4_8 b st old [] []
              H1 H2 H3 eq_refl eq_refl H4 H5 H6 H7) as [_ Hc].
  rewrite Hc. reflexivity.
Defined.

(** ** Receive callback *)

(** X10: on the normal path the receive callback releases the received
    buffer exactly once, whether the chunk is queued or dropped, and leaves
    the session, the ring and the bytes sent alone; with a NULL buffer or a
    non-zero status it tears the session down instead and releases no
    received buffer. *)
Theorem telnet_recv_releases_once (cfg : config) (b : net_buf) (st : telnet) :
  net_buf_frags_len b < 65536 →
  (∀ avail, avail_queue st = Some avail → Forall (line_capacity cfg) avail) →
  (∃ st', telnet_recv cfg (Some b) 0 st = Some st' ∧
     unrefs st' = unrefs st ++ [nb_id b] ∧
     telnet_rb st' = telnet_rb st ∧ client_cnx st' = client_cnx st ∧
     out_buf st' = out_buf st ∧ printk_hook st' = printk_hook st ∧
     send_timer st' = send_timer st ∧ send_lock st' = send_lock st ∧
     wire st' = wire st ∧ puts st' = puts st) ∧
  (∀ status, status ≠ 0 →
     telnet_recv cfg (Some b) status st = telnet_end_client_connection cfg st) ∧
  (∀ status, telnet_recv cfg None status st = telnet_end_client_connection cfg st).
Proof.
  intros Hfr Hcap. split; [|split].
  - unfold telnet_recv. destruct (decide (0 ≠ 0)); [done|].
    destruct (telnet_handle_input_cases cfg b st Hfr Hcap)
      as [E|(input & avail0 & lines0 & line & Hav & Hin & Hl & E)];
      rewrite E; simpl; eexists; (split; [done|]); simpl; done.
  - intros status Hs. unfold telnet_recv. by destruct (decide (status ≠ 0)).
  - done.
Qed.

Lemma telnet_recv_releases_once_witness :
  let b := NetBuf 4 [0; 0; 0] [108; 115; 13; 10] in
  let st := telnet_register_input (Some [replicate 16 0]) (Some [])
              (telnet_accept 5 0 0 (Some 9) (telnet_boot cfg_4_8 None)) in
  (net_buf_frags_len b < 65536 ∧
   ∀ avail, avail_queue st = Some avail → Forall (line_capacity cfg_4_8) avail) ∧
  ∃ st', telnet_recv cfg_4_8 (Some b) 0 st = Some st' ∧
         unrefs st' = [4] ∧ client_cnx st' = Some 5.
Proof.
  intros b st.
  assert (H1 : net_buf_frags_len b < 65536) by (vm_compute; reflexivity).
  assert (H2 : ∀ avail, avail_queue st = Some avail →
                        Forall (line_capacity cfg_4_8) avail).
  { intros avail H. inversion H; subst avail.
    apply Forall_cons_2; [reflexivity|]. apply Forall_nil_2. }
  split; [exact (conj H1 H2)|].
  destruct (telnet_recv_releases_once cfg_4_8 b st H1 H2)
    as [(st' & E & Hu & _ & Hc & _) _].
  exists st'. split; [exact E|]. split; [exact Hu|exact Hc].
Defined.

(** ** Wake-ups left over by a closed session *)

Lemma rb_next_zero (cfg : config) : 2 ≤ TELNET_LINES cfg → rb_next cfg 0 = 1.
Proof.
  intros HN. unfold rb_next. rewrite uint16_small by lia.
  destruct (decide (0 + 1 = TELNET_LINES cfg)); [lia|done].
Qed.

(** X11: closing the session leaves the semaphore as it is.  A wake-up
    given before the teardown is still taken by the sender afterwards: it
    finds the reset ring empty, sends nothing, closes nothing, and moves
    the read index from 0 to 1 while the write index stays at 0. *)
Theorem telnet_end_client_connection_keeps_wakeups (cfg : config) (rc : Z)
    (tx : option Z) (st : telnet) :
  2 ≤ TELNET_LINES cfg →
  2 ≤ TELNET_LINE_SIZE cfg →
  rb_shape cfg (telnet_rb st) →
  ∃ st1 st2,
    telnet_end_client_connection cfg st = Some st1 ∧
    send_lock st1 = send_lock st ∧
    line_in (telnet_rb st1) = 0 ∧ line_out (telnet_rb st1) = 0 ∧
    telnet_run_body cfg rc tx st1 = Some st2 ∧
    send_lock st2 = send_lock st - 1 ∧
    wire st2 = wire st ∧ client_cnx st2 = None ∧ puts st2 = puts st1 ∧
    line_in (telnet_rb st2) = 0 ∧ line_out (telnet_rb st2) = 1.
Proof.
  intros HN HL Hsh.
  destruct (telnet_end_client_connection_spec cfg st HL Hsh)
    as (st1 & E1 & [Hsh1 _] & Hrb & Hc & _ & _ & _ & _ & _ & _ & Hs & Hw & _).
  exists st1.
  unfold telnet_run_body, telnet_send, telnet_rb_get_line_out.
  change (telnet_rb (set_send_lock (send_lock st1 - 1) st1)) with (telnet_rb st1).
  destruct (rb_shape_line_out _ _ Hsh1) as [lb Hlb]. rewrite Hlb. simpl.
  assert (Hz : len lb = 0).
  { rewrite Hrb in Hlb. simpl in Hlb. apply arr_get_Some in Hlb as [_ Hlb].
    rewrite list_lookup_fmap in Hlb.
    destruct (l_bufs (telnet_rb st) !! _); simpl in Hlb; [|done].
    by inversion Hlb. }
  destruct (decide (len lb = 0)); [|done]. simpl.
  eexists. split; [done|]. split; [done|].
  rewrite Hrb. simpl. rewrite rb_next_zero by done.
  split; [done|]. split; [done|]. split; [reflexivity|]. simpl.
  rewrite Hs, Hw, Hc. done.
Qed.

Lemma telnet_end_client_connection_keeps_wakeups_witness :
  ∃ st,
    printk cfg_4_8 [97; 10]
      (telnet_accept 5 0 0 (Some 9) (telnet_boot cfg_4_8 (Some (fn_console 0))))
      = Some st ∧
    (2 ≤ TELNET_LINES cfg_4_8 ∧ 2 ≤ TELNET_LINE_SIZE cfg_4_8) ∧
    send_lock st = 1 ∧
    ∃ st1 st2,
      telnet_end_client_connection cfg_4_8 st = Some st1 ∧
      telnet_run_body cfg_4_8 0 (Some 9) st1 = Some st2 ∧
      line_in (telnet_rb st2) = 0 ∧ line_out (telnet_rb st2) = 1.
Proof.
  eexists. split; [vm_compute; reflexivity|].
  assert (H1 : 2 ≤ TELNET_LINES cfg_4_8) by (simpl; lia).
  assert (H2 : 2 ≤ TELNET_LINE_SIZE cfg_4_8) by (simpl; lia).
  split; [exact (conj H1 H2)|]. split; [reflexivity|].
  match goal with
  | |- ∃ st1 st2, telnet_end_client_connection _ ?s = _ ∧ _ =>
      assert (H3 : rb_shape cfg_4_8 (telnet_rb s));
      [|destruct (telnet_end_client_connection_keeps_wakeups cfg_4_8 0 (Some 9)
                    s H1 H2 H3)
          as (st1 & st2 & E1 & _ & _ & _ & E2 & _ & _ & _ & _ & Hi & Ho);
        exists st1, st2; split; [exact E1|]; split; [exact E2|];
        split; [exact Hi|exact Ho]]
  end.
  split; [reflexivity|]. split; [simpl; lia|]. split; [simpl; lia|].
  simpl. repeat (apply Forall_cons_2; [split; [reflexivity|simpl; lia]|]).
  apply Forall_nil_2.
Defined.

(** ** Listening sockets *)

(** X12: setting a listening socket up keeps no context behind when it
    fails: if any of the four calls of the network stack returns an error,
    the context slot ends up NULL and the context it held, if any, has been
    released once; if all four succeed the slot holds the context and
    nothing has been released.  Nothing else of the driver is touched. *)
Theorem telnet_setup_server_releases (ctx : option Z)
    (get_rc bind_rc listen_rc accept_rc : Z) (st : telnet) :
  let r := telnet_setup_server ctx get_rc bind_rc listen_rc accept_rc st in
  (get_rc ≠ 0 ∨ bind_rc ≠ 0 ∨ listen_rc ≠ 0 ∨ accept_rc ≠ 0 →
     r.1 = None ∧ puts r.2 = puts st ++ (Some <$> option_list ctx)) ∧
  (get_rc = 0 ∧ bind_rc = 0 ∧ listen_rc = 0 ∧ accept_rc = 0 →
     r = (ctx, st)) ∧
  telnet_rb r.2 = telnet_rb st ∧ client_cnx r.2 = client_cnx st ∧
  printk_hook r.2 = printk_hook st ∧ send_lock r.2 = send_lock st.
Proof.
  intros r. subst r. unfold telnet_setup_server.
  destruct (decide (get_rc ≠ 0)) as [?|H1];
    [|destruct (decide (bind_rc ≠ 0)) as [?|H2];
      [|destruct (decide (listen_rc ≠ 0)) as [?|H3];
        [|destruct (decide (accept_rc ≠ 0)) as [?|H4]]]];
    (split; [intros Hf|split; [intros (? & ? & ? & ?)|]]);
    try lia; try (destruct ctx; simpl; rewrite ?app_nil_r; done).
Qed.

(** ** Sending after an overwrite *)

Lemma line_data_nonempty (lb : line_buf) : line_data lb ≠ [] → len lb ≠ 0.
Proof. intros H E. apply H. by apply line_data_empty. Qed.

Lemma ring_queue_run (cfg : config) (tx : Z) (st : telnet)
    (l : list Z) (queue : list (list Z)) :
  0 < TELNET_LINES cfg ≤ 65536 →
  ring_queue cfg (telnet_rb st) (l :: queue) →
  ∃ st', telnet_run_body cfg 0 (Some tx) st = Some st' ∧
         ring_queue cfg (telnet_rb st') queue ∧
         line_in (telnet_rb st') = line_in (telnet_rb st) ∧
         wire st' = wire st ++ [l] ∧
         send_lock st' = send_lock st - 1.
Proof.
  intros HN (Hsh & Hm & Hin & Hq & Hidle).
  pose proof Hsh as (Hlbufs & _ & [Hout Hout'] & _).
  set (n := TELNET_LINES cfg) in *.
  set (o := line_out (telnet_rb st)) in *.
  simpl length in *. set (m := length queue) in *.
  destruct (Hq 0%nat l eq_refl) as (lbo & Hlbo & Hdo & Hlo).
  change (Z.of_nat 0) with 0 in Hlbo.
  rewrite Z.add_0_r, Z.mod_small in Hlbo by lia.
  unfold telnet_run_body.
  set (st0 := set_send_lock (send_lock st - 1) st).
  destruct (telnet_send_spec cfg 0 (Some tx) st0 lbo Hsh Hlbo)
    as (ok & st' & E & Hrb & Hw & Hs & Hsucc).
  rewrite E. simpl. rewrite (Hsucc eq_refl) by done.
  exists st'. split; [done|].
  destruct (decide (len lbo = 0)) as [?|_]; [done|].
  split; [|split; [by rewrite Hrb|split; [by rewrite Hw, Hdo|by rewrite Hs]]].
  assert (Ho' : rb_next cfg o = (o + 1) mod n) by (apply rb_next_mod; lia).
  destruct (rb_next_range cfg o Hout Hout') as [Hro Hro'].
  unfold ring_queue. rewrite Hrb. simpl. fold o n. rewrite Ho'.
  split; [|split; [lia|split; [|split]]].
  - rewrite <- Ho'. apply rb_shape_alter; done.
  - rewrite Hin, Zplus_mod_idemp_l. f_equal. lia.
  - intros i l' Hil. pose proof (lookup_lt_Some _ _ _ Hil) as Hlt. fold m in Hlt.
    destruct (Hq (S i) l' Hil) as (x & Hx & Hxd & Hxl).
    exists x. split; [|done].
    rewrite Zplus_mod_idemp_l.
    replace (o + 1 + Z.of_nat i) with (o + Z.of_nat (S i)) by lia.
    rewrite arr_get_alter_ne; [done|lia| |].
    + apply Z.mod_pos_bound. lia.
    + rewrite <- (Z.mod_small o n) at 1 by lia.
      replace o with (o + Z.of_nat 0) at 1 by (simpl; lia).
      intros Eo. symmetry in Eo. revert Eo. apply in_sync_slot_ne; lia.
  - intros j lb Hj Hfree.
    pose proof Hj as [Hj0 _]%arr_get_Some.
    destruct (decide (j = o)) as [->|Hjo].
    + rewrite arr_get_alter_eq, Hlbo in Hj. by inversion Hj.
    + rewrite arr_get_alter_ne in Hj by (lia || done).
      apply (Hidle j lb Hj). intros [|i] Hi.
      * change (Z.of_nat 0) with 0. rewrite Z.add_0_r, Z.mod_small by lia. done.
      * specialize (Hfree i ltac:(lia)). rewrite Zplus_mod_idemp_l in Hfree.
        by replace (o + Z.of_nat (S i)) with (o + 1 + Z.of_nat i) by lia.
Qed.

Lemma ring_queue_run_empty (cfg : config) (tx : Z) (st : telnet) :
  ring_queue cfg (telnet_rb st) [] →
  ∃ st', telnet_run_body cfg 0 (Some tx) st = Some st' ∧
         rb_shape cfg (telnet_rb st') ∧
         line_in (telnet_rb st') = line_in (telnet_rb st) ∧
         line_out (telnet_rb st') = rb_next cfg (line_out (telnet_rb st)) ∧
         (∀ j lb, arr_get j (l_bufs (telnet_rb st')) = Some lb → len lb = 0) ∧
         wire st' = wire st ∧
         send_lock st' = send_lock st - 1.
Proof.
  intros (Hsh & _ & _ & _ & Hidle).
  pose proof Hsh as (_ & _ & [Hout Hout'] & _).
  destruct (rb_next_range cfg _ Hout Hout') as [Hro Hro'].
  destruct (rb_shape_line_out _ _ Hsh) as [lbo Hlbo].
  assert (Hz : len lbo = 0) by (apply (Hidle _ _ Hlbo); intros i Hi; simpl in Hi; lia).
  unfold telnet_run_body.
  set (st0 := set_send_lock (send_lock st - 1) st).
  destruct (telnet_send_spec cfg 0 (Some tx) st0 lbo Hsh Hlbo)
    as (ok & st' & E & Hrb & Hw & Hs & Hsucc).
  rewrite E. simpl. rewrite (Hsucc eq_refl) by done.
  exists st'. split; [done|]. rewrite Hrb. simpl.
  split; [by apply rb_shape_alter|]. split; [done|]. split; [done|].
  split; [|split; [|by rewrite Hs]].
  - intros j lb Hj. pose proof Hj as [Hj0 _]%arr_get_Some.
    destruct (decide (j = line_out (telnet_rb st))) as [->|Hne].
    + rewrite arr_get_alter_eq, Hlbo in Hj. by inversion Hj.
    + rewrite arr_get_alter_ne in Hj by (lia || done).
      apply (Hidle _ _ Hj). intros i Hi. simpl in Hi. lia.
  - rewrite Hw. destruct (decide (len lbo = 0)); [|done]. by rewrite app_nil_r.
Qed.

(** With one wake-up more than there are unread lines, the sender sends
    the unread lines in order and spends the last wake-up on the empty
    write slot, which puts it one slot past the write index. *)
Lemma ring_queue_drain (cfg : config) (tx : Z) (queue : list (list Z)) (st : telnet) :
  0 < TELNET_LINES cfg ≤ 65536 →
  ring_queue cfg (telnet_rb st) queue →
  send_lock st = Z.of_nat (length queue) + 1 →
  ∃ st', telnet_run cfg (S (length queue)) tx st = Some st' ∧
         rb_shape cfg (telnet_rb st') ∧
         line_in (telnet_rb st') = line_in (telnet_rb st) ∧
         line_out (telnet_rb st') = rb_next cfg (line_in (telnet_rb st)) ∧
         (∀ j lb, arr_get j (l_bufs (telnet_rb st')) = Some lb → len lb = 0) ∧
         wire st' = wire st ++ queue ∧
         send_lock st' = 0.
Proof.
  intros HN. revert st.
  induction queue as [|l queue IH]; intros st Hq Hsem.
  - destruct (ring_queue_run_empty cfg tx st Hq)
      as (st' & E & Hsh & Hin & Hout & Hz & Hw & Hs).
    exists st'. simpl in Hsem |- *.
    destruct (decide (0 < send_lock st)); [|lia].
    rewrite E. simpl. split; [done|]. split; [done|]. split; [done|].
    split.
    + rewrite Hout. f_equal. destruct Hq as ((_ & _ & [Ho _] & _) & _ & Hi & _).
      simpl in Hi. change (Z.of_nat 0) with 0 in Hi.
      rewrite Z.add_0_r, Z.mod_small in Hi by lia. done.
    + split; [done|]. split; [by rewrite app_nil_r|lia].
  - destruct (ring_queue_run cfg tx st l queue HN Hq)
      as (st1 & E1 & Hq1 & Hin1 & Hw1 & Hs1).
    simpl length in Hsem.
    destruct (IH st1 Hq1) as (st' & E' & Hsh & Hin & Hout & Hz & Hw & Hs); [lia|].
    exists st'. change (telnet_run cfg (S (length (l :: queue))) tx st)
      with (if decide (0 < send_lock st)
            then telnet_run_body cfg 0 (Some tx) st
                 ≫= telnet_run cfg (S (length queue)) tx
            else Some st).
    destruct (decide (0 < send_lock st)); [|lia].
    rewrite E1. simpl. split; [done|]. split; [done|].
    split; [by rewrite Hin|]. split; [by rewrite Hout, Hin1|].
    split; [done|]. split; [|done]. by rewrite Hw, Hw1, <- app_assoc.
Qed.

Lemma fed_ring_queue (cfg : config) (bodies : list (list Z)) (st : telnet) :
  2 ≤ TELNET_LINES cfg →
  Z.of_nat (length bodies) = TELNET_LINES cfg →
  fed cfg bodies st →
  line_in (telnet_rb st) = 0 ∧ line_out (telnet_rb st) = 1 ∧
  ring_queue cfg (telnet_rb st) (wire_line <$> drop 1 bodies).
Proof.
  intros HN Hk (Hsh & Hin & Hout & (lb0 & Hlb0 & Hz0) & Hslots).
  rewrite Hk in Hin, Hout, Hslots.
  set (n := TELNET_LINES cfg) in *.
  rewrite Z.mod_same in Hin by lia.
  destruct (decide (n < n)) as [?|_]; [lia|].
  replace (n + 1) with (1 + 1 * n) in Hout by lia.
  rewrite Z_mod_plus_full, Z.mod_small in Hout by lia.
  split; [done|]. split; [done|].
  assert (Hlq : length (wire_line <$> drop 1 bodies) = (length bodies - 1)%nat)
    by (by rewrite length_fmap, length_drop).
  unfold ring_queue. rewrite Hin, Hout, Hlq. fold n.
  split; [done|]. split; [lia|]. split; [|split].
  - replace (1 + Z.of_nat (length bodies - 1)) with (0 + 1 * n) by lia.
    rewrite Z_mod_plus_full. by rewrite Z.mod_0_l by lia.
  - intros i l Hil. rewrite list_lookup_fmap, lookup_drop in Hil.
    destruct (bodies !! (1 + i)%nat) as [body|] eqn:Hb; simpl in Hil; [|done].
    inversion Hil; subst l.
    destruct (Hslots (1 + i)%nat body Hb) as (lb & Hlb & Hd); [lia|].
    exists lb. replace (1 + Z.of_nat i) with (Z.of_nat (1 + i)) by lia.
    split; [done|]. split; [done|].
    apply line_data_nonempty. rewrite Hd. unfold wire_line. by destruct body.
  - intros j lb Hj Hfree. pose proof (arr_get_bound _ _ _ Hj) as Hjb.
    destruct Hsh as (Hlen & _). rewrite Hlen in Hjb.
    destruct (decide (j = 0)) as [->|Hj0].
    + rewrite Hin in Hlb0. rewrite Hlb0 in Hj. inversion Hj. by subst lb.
    + exfalso. apply (Hfree (Z.to_nat (j - 1))); [lia|].
      replace (1 + Z.of_nat (Z.to_nat (j - 1))) with j by lia.
      by rewrite Z.mod_small by lia.
Qed.

Lemma fed_lines_send_lock (cfg : config) (bodies more : list (list Z)) (st st' : telnet) :
  2 ≤ TELNET_LINES cfg ≤ 65536 →
  2 ≤ TELNET_LINE_SIZE cfg < 65536 →
  Forall (body_ok cfg) more →
  fed cfg bodies st →
  send_lock st + Z.of_nat (length more) ≤ UINT_MAX →
  printk cfg (concat (complete_line <$> more)) st = Some st' →
  send_lock st' = send_lock st + Z.of_nat (length more).
Proof.
  intros HN HL. revert bodies st.
  induction more as [|body more IH]; intros bodies st Hok Hfed Hmax E.
  - simpl in E. inversion E. simpl. lia.
  - apply Forall_cons in Hok as [Hb Hok]. simpl length in *.
    destruct (fed_line cfg bodies body st HN HL Hb Hfed) as (st1 & E1 & Hfed1 & _).
    simpl in E. rewrite printk_app, E1 in E. simpl in E.
    assert (Hs1 : send_lock st1 = send_lock st + 1).
    { destruct Hfed as (Hsh & _ & _ & (lb & Hlb & Hz) & _). destruct Hb as [Hcs Hfit].
      destruct (printk_line cfg body st lb) as (lb1 & E1' & _);
        [lia|done|done|lia|done|].
      rewrite E1 in E1'. inversion E1'.
      rewrite send_lock_k_sem_give; simpl; lia. }
    rewrite (IH _ st1 Hok Hfed1) by (lia || done). lia.
Qed.

(** The ring and the sender after TELNET_LINES lines have been fed to a
    ring just reset and the semaphore has then been emptied. *)
Lemma overwrite_then_drain (cfg : config) (tx : Z) (st0 st1 : telnet)
    (bodies : list (list Z)) :
  2 ≤ TELNET_LINES cfg ≤ 65536 →
  2 ≤ TELNET_LINE_SIZE cfg < 65536 →
  rb_shape cfg (telnet_rb st0) →
  send_lock st0 = 0 →
  telnet_rb_init cfg st0 = Some st1 →
  Forall (body_ok cfg) bodies →
  Z.of_nat (length bodies) = TELNET_LINES cfg →
  ∃ st st',
    printk cfg (concat (complete_line <$> bodies)) st1 = Some st ∧
    send_lock st = TELNET_LINES cfg ∧
    telnet_run cfg (Z.to_nat (send_lock st)) tx st = Some st' ∧
    wire st' = wire st0 ++ (wire_line <$> drop 1 bodies) ∧
    send_lock st' = 0 ∧
    rb_shape cfg (telnet_rb st') ∧
    line_in (telnet_rb st') = 0 ∧ line_out (telnet_rb st') = 1 ∧
    ∀ j lb, arr_get j (l_bufs (telnet_rb st')) = Some lb → len lb = 0.
Proof.
  intros HN HL Hsh0 Hs0 Einit Hok Hk.
  destruct (fed_fresh cfg st0 st1) as [Hfed0 Hw0]; [lia|lia|done|done|].
  assert (Hs1 : send_lock st1 = 0).
  { rewrite telnet_rb_init_resets in Einit by (by destruct Hsh0).
    by inversion Einit. }
  destruct (fed_lines cfg [] bodies st1 HN HL Hok Hfed0) as (st & E & Hfed & Hw).
  simpl in Hfed.
  pose proof (fed_lines_send_lock cfg [] bodies st1 st HN HL Hok Hfed0) as Hs.
  rewrite Hs1 in Hs. unfold UINT_MAX in Hs. specialize (Hs ltac:(lia) E).
  destruct (fed_ring_queue cfg bodies st) as (Hin & Hout & Hq); [lia|done|done|].
  assert (Hlq : length (wire_line <$> drop 1 bodies) = (length bodies - 1)%nat)
    by (by rewrite length_fmap, length_drop).
  destruct (ring_queue_drain cfg tx _ st ltac:(lia) Hq)
    as (st' & E' & Hsh' & Hin' & Hout' & Hz & Hw' & Hs'); [rewrite Hlq; lia|].
  exists st, st'. split; [done|]. split; [lia|]. split.
  - rewrite Hs. rewrite Hlq in E'.
    replace (Z.to_nat (0 + Z.of_nat (length bodies)))
      with (S (length bodies - 1)) by lia. done.
  - split; [by rewrite Hw', Hw, Hw0|]. split; [done|]. split; [done|].
    split; [by rewrite Hin', Hin|]. split; [|done].
    rewrite Hout', Hin. apply rb_next_zero. lia.
Qed.

(** X13: after an overwrite the lines that survive are sent in the order
    they were written.  TELNET_LINES lines fed to a ring just reset, with
    the semaphore at 0 and nothing sent meanwhile, give the semaphore
    TELNET_LINES times; the sender then sends the second to the last line,
    in order, and spends its last wake-up on the empty write slot, which
    leaves every slot empty and the read index one slot past the write
    index. *)
Theorem overwrite_keeps_order (cfg : config) (tx : Z) (st0 st1 : telnet)
    (bodies : list (list Z)) :
  2 ≤ TELNET_LINES cfg ≤ 65536 →
  2 ≤ TELNET_LINE_SIZE cfg < 65536 →
  rb_shape cfg (telnet_rb st0) →
  send_lock st0 = 0 →
  telnet_rb_init cfg st0 = Some st1 →
  Forall (body_ok cfg) bodies →
  Z.of_nat (length bodies) = TELNET_LINES cfg →
  ∃ st st',
    printk cfg (concat (complete_line <$> bodies)) st1 = Some st ∧
    send_lock st = TELNET_LINES cfg ∧
    telnet_run cfg (Z.to_nat (send_lock st)) tx st = Some st' ∧
    wire st' = wire st0 ++ (wire_line <$> drop 1 bodies) ∧
    send_lock st' = 0 ∧
    line_in (telnet_rb st') = 0 ∧ line_out (telnet_rb st') = 1 ∧
    Forall (λ lb, len lb = 0) (l_bufs (telnet_rb st')).
Proof.
  intros HN HL Hsh0 Hs0 Einit Hok Hk.
  destruct (overwrite_then_drain cfg tx st0 st1 bodies HN HL Hsh0 Hs0 Einit Hok Hk)
    as (st & st' & E & Hs & E' & Hw & Hs' & _ & Hin & Hout & Hz).
  exists st, st'. repeat (split; [done|]).
  apply Forall_lookup_2. intros i lb Hlb.
  apply (Hz (Z.of_nat i)). by rewrite arr_get_nat.
Qed.

Lemma overwrite_keeps_order_witness :
  let bodies := [[49]; [50]; [51]; [52]] in
  let st0 := telnet_boot cfg_4_8 None in
  (2 ≤ TELNET_LINES cfg_4_8 ≤ 65536 ∧
   2 ≤ TELNET_LINE_SIZE cfg_4_8 < 65536 ∧
   rb_shape cfg_4_8 (telnet_rb st0) ∧
   send_lock st0 = 0 ∧
   telnet_rb_init cfg_4_8 st0 = Some st0 ∧
   Forall (body_ok cfg_4_8) bodies ∧
   Z.of_nat (length bodies) = TELNET_LINES cfg_4_8) ∧
  ∃ st st',
    printk cfg_4_8 (concat (complete_line <$> bodies)) st0 = Some st ∧
    telnet_run cfg_4_8 (Z.to_nat (send_lock st)) 7 st = Some st' ∧
    wire st' = [[50; 13; 10]; [51; 13; 10]; [52; 13; 10]] ∧
    line_in (telnet_rb st') = 0 ∧ line_out (telnet_rb st') = 1.
Proof.
  intros bodies st0.
  assert (H1 : 2 ≤ TELNET_LINES cfg_4_8 ≤ 65536) by (simpl; lia).
  assert (H2 : 2 ≤ TELNET_LINE_SIZE cfg_4_8 < 65536) by (simpl; lia).
  assert (Hs : rb_shape cfg_4_8 (telnet_rb st0)).
  { apply rb_zero_ok; simpl; lia. }
  assert (Hl : send_lock st0 = 0) by reflexivity.
  assert (Hi : telnet_rb_init cfg_4_8 st0 = Some st0) by reflexivity.
  assert (Hb : ∀ c, 0 ≤ c < 256 → c ≠ LF → body_ok cfg_4_8 [c]).
  { intros c Hc Hne. split; [|simpl; lia].
    apply Forall_cons_2; [done|apply Forall_nil_2]. }
  assert (H3 : Forall (body_ok cfg_4_8) bodies).
  { unfold bodies.
    apply Forall_cons_2; [apply Hb; unfold LF; lia|].
    apply Forall_cons_2; [apply Hb; unfold LF; lia|].
    apply Forall_cons_2; [apply Hb; unfold LF; lia|].
    apply Forall_cons_2; [apply Hb; unfold LF; lia|].
    apply Forall_nil_2. }
  assert (H5 : Z.of_nat (length bodies) = TELNET_LINES cfg_4_8) by reflexivity.
  split; [exact (conj H1 (conj H2 (conj Hs (conj Hl (conj Hi (conj H3 H5))))))|].
  destruct (overwrite_keeps_order cfg_4_8 7 st0 st0 bodies H1 H2 Hs Hl Hi H3 H5)
    as (st & st' & E & _ & E' & Hw & _ & Hin & Hout & _).
  exists st, st'.
  split; [exact E|]. split; [exact E'|]. split; [exact Hw|].
  split; [exact Hin|exact Hout].
Defined.

Lemma rb_next_one (cfg : config) : 3 ≤ TELNET_LINES cfg → rb_next cfg 1 = 2.
Proof.
  intros HN. unfold rb_next. rewrite uint16_small by lia.
  destruct (decide (1 + 1 = TELNET_LINES cfg)); [lia|done].
Qed.

(** X14: once an overwrite has happened the sender stays one slot ahead of
    the producer.  With at least three slots, after TELNET_LINES lines and
    the sender run as in X13, the next complete line gives the semaphore
    once, but the wake-up is spent on an empty slot: the semaphore is back
    at 0, nothing has been sent, and the line waits in its slot. *)
Theorem line_after_overwrite_waits (cfg : config) (tx : Z) (st0 st1 : telnet)
    (bodies : list (list Z)) (extra : list Z) :
  3 ≤ TELNET_LINES cfg ≤ 65536 →
  2 ≤ TELNET_LINE_SIZE cfg < 65536 →
  rb_shape cfg (telnet_rb st0) →
  send_lock st0 = 0 →
  telnet_rb_init cfg st0 = Some st1 →
  Forall (body_ok cfg) bodies → body_ok cfg extra →
  Z.of_nat (length bodies) = TELNET_LINES cfg →
  ∃ st st' st2 st3,
    printk cfg (concat (complete_line <$> bodies)) st1 = Some st ∧
    telnet_run cfg (Z.to_nat (send_lock st)) tx st = Some st' ∧
    printk cfg (complete_line extra) st' = Some st2 ∧
    send_lock st2 = 1 ∧
    telnet_run cfg (Z.to_nat (send_lock st2)) tx st2 = Some st3 ∧
    send_lock st3 = 0 ∧
    wire st3 = wire st' ∧
    ∃ lb, arr_get 0 (l_bufs (telnet_rb st3)) = Some lb ∧
          line_data lb = wire_line extra.
Proof.
  intros HN HL Hsh0 Hs0 Einit Hok [Hcs Hfit] Hk.
  destruct (overwrite_then_drain cfg tx st0 st1 bodies ltac:(lia) HL Hsh0 Hs0
              Einit Hok Hk)
    as (st & st' & E & _ & E' & _ & Hs' & Hsh' & Hin & Hout & Hz).
  exists st, st'.
  pose proof Hsh' as (Hlen & _).
  destruct (rb_shape_line_in _ _ Hsh') as [lb0 Hlb0].
  pose proof (Hz _ _ Hlb0) as Hz0.
  destruct (printk_line cfg extra st' lb0) as (lb1 & E2 & Hd1 & _ & Hok1);
    [lia|done|done|lia|done|].
  rewrite (line_data_empty lb0) in Hd1 by done. simpl in Hd1.
  rewrite Hin, Hout in E2. change (Z.to_nat 0) with 0%nat in E2.
  set (rb1 := LineBufRb (<[0%nat := lb1]> (l_bufs (telnet_rb st'))) 0 1) in E2.
  assert (Hsh1 : rb_shape cfg rb1).
  { pose proof (rb_shape_insert cfg (telnet_rb st') 0 lb1 Hsh' Hok1) as H.
    by rewrite Hin, Hout in H. }
  assert (Hrb2 : rb_switched cfg rb1
                 = LineBufRb (alter (set_len 0) 1%nat
                                (<[0%nat := lb1]> (l_bufs (telnet_rb st')))) 1 2).
  { unfold rb_switched, rb1. simpl. rewrite rb_next_zero by lia.
    destruct (decide (1 = 1)); [|done]. by rewrite rb_next_one by lia. }
  set (st2 := k_sem_give (k_timer_start (set_telnet_rb (rb_switched cfg rb1) st'))) in *.
  assert (Hrbst2 : telnet_rb st2 = rb_switched cfg rb1)
    by (unfold st2; by rewrite telnet_rb_k_sem_give).
  assert (Hs2 : send_lock st2 = 1).
  { unfold st2. rewrite send_lock_k_sem_give; simpl; rewrite Hs'; [done|].
    unfold UINT_MAX. lia. }
  assert (Hw2 : wire st2 = wire st') by (unfold st2; by rewrite wire_k_sem_give).
  exists st2. 
  destruct (arr_get_in_range 2 (l_bufs (telnet_rb st'))) as [x Hx]; [lia|].
  pose proof (Hz _ _ Hx) as Hzx.
  set (st2' := set_send_lock (send_lock st2 - 1) st2).
  assert (Hx2 : arr_get (line_out (telnet_rb st2')) (l_bufs (telnet_rb st2'))
                = Some x).
  { change (telnet_rb st2') with (telnet_rb st2). rewrite Hrbst2, Hrb2. simpl.
    change 1%nat with (Z.to_nat 1). rewrite arr_get_alter_ne by lia.
    change 0%nat with (Z.to_nat 0). rewrite arr_get_insert_ne by lia. done. }
  destruct (telnet_send_spec cfg 0 (Some tx) st2' x) as (ok & st3 & E3 & Hrb3 & Hw3 & Hs3 & Hsucc).
  { change (telnet_rb st2') with (telnet_rb st2). rewrite Hrbst2.
    destruct (rb_switched_ok cfg rb1) as [H _]; [lia|done|exact H]. }
  { done. }
  exists st3. split; [done|]. split; [done|]. split; [done|]. split; [done|].
  split.
  - rewrite Hs2. change (Z.to_nat 1) with 1%nat. simpl.
    destruct (decide (0 < send_lock st2)); [|lia].
    unfold telnet_run_body. fold st2'. rewrite E3. simpl.
    by rewrite (Hsucc eq_refl).
  - split; [rewrite Hs3; unfold st2'; simpl; lia|]. split.
    + rewrite Hw3. destruct (decide (len x = 0)); [|done].
      rewrite app_nil_r. unfold st2'. simpl. done.
    + exists lb1. split; [|done]. rewrite Hrb3.
      change (telnet_rb st2') with (telnet_rb st2). rewrite Hrbst2, Hrb2. simpl.
      rewrite arr_get_alter_ne by lia.
      change 1%nat with (Z.to_nat 1). rewrite arr_get_alter_ne by lia.
      change 0%nat with (Z.to_nat 0). apply arr_get_insert_eq. lia.
Qed.

Lemma line_after_overwrite_waits_witness :
  let bodies := [[49]; [50]; [51]; [52]] in
  let extra := [53] in
  let st0 := telnet_boot cfg_4_8 None in
  (3 ≤ TELNET_LINES cfg_4_8 ≤ 65536 ∧
   2 ≤ TELNET_LINE_SIZE cfg_4_8 < 65536 ∧
   rb_shape cfg_4_8 (telnet_rb st0) ∧
   send_lock st0 = 0 ∧
   telnet_rb_init cfg_4_8 st0 = Some st0 ∧
   Forall (body_ok cfg_4_8) bodies ∧ body_ok cfg_4_8 extra ∧
   Z.of_nat (length bodies) = TELNET_LINES cfg_4_8) ∧
  ∃ st st' st2 st3,
    printk cfg_4_8 (concat (complete_line <$> bodies)) st0 = Some st ∧
    telnet_run cfg_4_8 (Z.to_nat (send_lock st)) 7 st = Some st' ∧
    printk cfg_4_8 (complete_line extra) st' = Some st2 ∧
    telnet_run cfg_4_8 (Z.to_nat (send_lock st2)) 7 st2 = Some st3 ∧
    send_lock st3 = 0 ∧ wire st3 = wire st'.
Proof.
  intros bodies extra st0.
  assert (H1 : 3 ≤ TELNET_LINES cfg_4_8 ≤ 65536) by (simpl; lia).
  assert (H2 : 2 ≤ TELNET_LINE_SIZE cfg_4_8 < 65536) by (simpl; lia).
  assert (Hs : rb_shape cfg_4_8 (telnet_rb st0)).
  { apply rb_zero_ok; simpl; lia. }
  assert (Hl : send_lock st0 = 0) by reflexivity.
  assert (Hi : telnet_rb_init cfg_4_8 st0 = Some st0) by reflexivity.
  assert (Hb : ∀ c, 0 ≤ c < 256 → c ≠ LF → body_ok cfg_4_8 [c]).
  { intros c Hc Hne. split; [|simpl; lia].
    apply Forall_cons_2; [done|apply Forall_nil_2]. }
  assert (H3 : Forall (body_ok cfg_4_8) bodies).
  { unfold bodies.
    apply Forall_cons_2; [apply Hb; unfold LF; lia|].
    apply Forall_cons_2; [apply Hb; unfold LF; lia|].
    apply Forall_cons_2; [apply Hb; unfold LF; lia|].
    apply Forall_cons_2; [apply Hb; unfold LF; lia|].
    apply Forall_nil_2. }
  assert (H4 : body_ok cfg_4_8 extra) by (apply Hb; unfold LF; lia).
  assert (H5 : Z.of_nat (length bodies) = TELNET_LINES cfg_4_8) by reflexivity.
  split; [exact (conj H1 (conj H2 (conj Hs (conj Hl (conj Hi (conj H3 (conj H4 H5)))))))|].
  destruct (line_after_overwrite_waits cfg_4_8 7 st0 st0 bodies extra
              H1 H2 Hs Hl Hi H3 H4 H5)
    as (st & st' & st2 & st3 & E & E' & E2 & _ & E3 & Hs3 & Hw3 & _).
  exists st, st', st2, st3.
  split; [exact E|]. split; [exact E'|]. split; [exact E2|].
  split; [exact E3|]. split; [exact Hs3|exact Hw3].
Defined.

(** ** Producer, timer and sender together *)

Lemma in_sync_write_len (cfg : config) (st : telnet) (pending : list (list Z))
    (partial : list Z) :
  in_sync cfg st pending partial → write_len st = Z.of_nat (length partial).
Proof.
  intros (_ & _ & _ & _ & _ & lb & Hlb & _ & Hl & _).
  unfold write_len. by rewrite Hlb.
Qed.

Lemma overwritesb_false (cfg : config) (st : telnet) :
  overwritesb cfg st = false → ¬ overwrites cfg st.
Proof.
  unfold overwritesb, overwrites. intros H E. apply Z.eqb_neq in H. done.
Qed.

Lemma in_sync_timer (cfg : config) (st : telnet)
    (pending : list (list Z)) (partial : list Z) :
  0 < TELNET_LINES cfg ≤ 65536 →
  2 ≤ TELNET_LINE_SIZE cfg < 65536 →
  in_sync cfg st pending partial →
  (TELNET_THRESHOLD cfg ≤ Z.of_nat (length partial) →
   ¬ overwrites cfg st ∧ partial ≠ []) →
  ∃ st' pending' partial',
    telnet_send_prematurely cfg st = Some st' ∧
    in_sync cfg st' pending' partial' ∧
    wire st' = wire st ∧
    concat pending' ++ partial' = concat pending ++ partial.
Proof.
  intros HN HL Hsync Hcond.
  pose proof Hsync as (Hsh & Hsem & Hm & Hin & Hpend & lb & Hlb & Hd & Hlen & Hroom).
  unfold telnet_send_prematurely, telnet_rb_get_line_in. rewrite Hlb. simpl.
  destruct (decide (TELNET_THRESHOLD cfg ≤ len lb)) as [Hth|Hth].
  2:{ exists st, pending, partial. done. }
  destruct Hcond as [Hno Hne]; [lia|].
  pose proof (arr_get_bound _ _ _ Hlb) as Hi.
  pose proof Hsh as (Hlbufs & _ & [Hout _] & _).
  set (n := TELNET_LINES cfg) in *.
  set (m := length pending) in *.
  set (o := line_out (telnet_rb st)) in *.
  assert (Hin' : rb_next cfg (line_in (telnet_rb st)) = (o + Z.of_nat m + 1) mod n).
  { rewrite Hin. apply rb_next_of_mod. done. }
  assert (Hm1 : Z.of_nat m + 1 < n).
  { destruct (decide (Z.of_nat m + 1 = n)) as [E|]; [|lia].
    exfalso. apply Hno. unfold overwrites. fold o. rewrite Hin'.
    replace (o + Z.of_nat m + 1) with (o + 1 * n) by lia.
    rewrite Z_mod_plus_full. apply Z.mod_small. lia. }
  assert (Hr1 : 0 ≤ (o + Z.of_nat m + 1) mod n < n) by (apply Z.mod_pos_bound; lia).
  rewrite telnet_rb_switch_eq by done.
  eexists _, (pending ++ [partial]), [].
  split; [done|]. split; [|split; [by rewrite wire_k_sem_give|]].
  2:{ rewrite concat_app. simpl. by rewrite !app_nil_r. }
  unfold in_sync. rewrite telnet_rb_k_sem_give. simpl.
  rewrite send_lock_k_sem_give by (simpl; unfold UINT_MAX; lia). simpl.
  rewrite Hin'. fold o n. rewrite length_app. simpl length. fold m.
  replace (Z.of_nat (m + 1)) with (Z.of_nat m + 1) by lia.
  assert (Hnot : (o + Z.of_nat m + 1) mod n ≠ o).
  { intros E. apply Hno. unfold overwrites. fold o. by rewrite Hin'. }
  destruct (decide ((o + Z.of_nat m + 1) mod n = o)) as [?|_]; [done|].
  split; [|split; [lia|split; [lia|split; [f_equal; lia|split]]]].
  - destruct (rb_switched_ok cfg (telnet_rb st)) as [H _]; [lia|done|exact H].
  - intros i l Hil.
    pose proof (lookup_lt_Some _ _ _ Hil) as Hlt.
    rewrite length_app in Hlt. simpl in Hlt. fold m in Hlt.
    assert (Hri : 0 ≤ (o + Z.of_nat i) mod n < n) by (apply Z.mod_pos_bound; lia).
    rewrite arr_get_alter_ne; [|lia|lia|].
    2:{ replace (o + Z.of_nat m + 1) with (o + Z.of_nat (m + 1)) by lia.
        apply in_sync_slot_ne; lia. }
    destruct (decide (i = m)) as [->|Him].
    + unfold m in Hil. rewrite list_lookup_middle in Hil by done.
      inversion Hil; subst l. fold m. rewrite <- Hin.
      exists lb. split; [done|]. split; [done|].
      apply line_data_nonempty. by rewrite Hd.
    + rewrite lookup_app_l in Hil by (fold m; lia).
      by apply Hpend.
  - rewrite arr_get_alter_eq.
    destruct (arr_get_in_range ((o + Z.of_nat m + 1) mod n)
                (l_bufs (telnet_rb st))) as [x Hx]; [lia|].
    rewrite Hx. simpl. eexists. split; [done|]. simpl.
    split; [done|]. split; [done|lia].
Qed.

Lemma in_sync_drv_run (cfg : config) (tx : Z) (evs : list drv_event) (st : telnet)
    (pending : list (list Z)) (partial : list Z) :
  0 < TELNET_LINES cfg ≤ 65536 →
  2 ≤ TELNET_LINE_SIZE cfg < 65536 →
  in_sync cfg st pending partial →
  drv_quiet cfg tx evs st = true →
  ∃ st' pending' partial',
    drv_run cfg tx evs st = Some st' ∧
    in_sync cfg st' pending' partial' ∧
    concat (wire st') ++ concat pending' ++ partial'
    = concat (wire st) ++ concat pending ++ partial ++ crlf (drv_outputs evs).
Proof.
  intros HN HL. revert st pending partial.
  induction evs as [|[c| |] evs IH]; intros st pending partial Hsync Hq.
  - exists st, pending, partial. simpl. by rewrite app_nil_r.
  - simpl in Hq. apply andb_prop in Hq as [Hg Hq].
    apply andb_prop in Hg as [Hg Hc]. apply andb_prop in Hg as [Hc0 Hc1].
    apply Z.leb_le in Hc0. apply Z.ltb_lt in Hc1.
    rewrite (in_sync_write_len cfg st _ _ Hsync) in Hc.
    destruct (c =? LF) eqn:Ec.
    + apply Z.eqb_eq in Ec. subst c.
      apply negb_true_iff, overwritesb_false in Hc.
      destruct (in_sync_out_lf cfg st pending partial HN HL Hsync Hc)
        as (st1 & E1 & Hsync1 & Hw1).
      simpl. rewrite E1 in Hq |- *. simpl in Hq |- *.
      destruct (IH st1 _ _ Hsync1 Hq) as (st2 & P2 & p2 & E2 & Hsync2 & Heq).
      exists st2, P2, p2. split; [done|]. split; [done|].
      rewrite Heq, Hw1, concat_app. simpl.
      destruct (decide (LF = LF)); [|done].
      by rewrite !app_nil_r, <- !app_assoc.
    + apply Z.eqb_neq in Ec. apply Z.ltb_lt in Hc.
      destruct (in_sync_out_plain cfg c st pending partial)
        as (st1 & E1 & Hsync1 & Hw1); [lia|done|lia|done|done|].
      simpl. rewrite E1 in Hq |- *. simpl in Hq |- *.
      destruct (IH st1 _ _ Hsync1 Hq) as (st2 & P2 & p2 & E2 & Hsync2 & Heq).
      exists st2, P2, p2. split; [done|]. split; [done|].
      rewrite Heq, Hw1. destruct (decide (c = LF)); [done|].
      by rewrite <- !app_assoc.
  - simpl in Hq |- *.
    destruct (decide (0 < send_lock st)) as [Hpos|Hzero].
    + destruct pending as [|l pending].
      { destruct Hsync as (_ & Hsem & _). simpl in Hsem. lia. }
      destruct (in_sync_run cfg tx st l pending partial HN Hsync)
        as (st1 & E1 & Hsync1 & Hw1).
      rewrite E1 in Hq |- *. simpl.
      destruct (IH st1 _ _ Hsync1 Hq) as (st2 & P2 & p2 & E2 & Hsync2 & Heq).
      exists st2, P2, p2. split; [done|]. split; [done|].
      rewrite Heq, Hw1, concat_app. simpl. by rewrite !app_nil_r, <- !app_assoc.
    + simpl. by apply IH.
  - simpl in Hq. apply andb_prop in Hq as [Hg Hq].
    rewrite (in_sync_write_len cfg st _ _ Hsync) in Hg.
    destruct (in_sync_timer cfg st pending partial HN HL Hsync)
      as (st1 & P1 & p1 & E1 & Hsync1 & Hw1 & Hcat).
    { intros Hth. apply Z.leb_le in Hth. rewrite Hth in Hg.
      apply andb_prop in Hg as [Hno Hpos].
      apply negb_true_iff, overwritesb_false in Hno. apply Z.ltb_lt in Hpos.
      split; [done|]. intros ->. simpl in Hpos. lia. }
    simpl. rewrite E1 in Hq |- *. simpl.
    destruct (IH st1 _ _ Hsync1 Hq) as (st2 & P2 & p2 & E2 & Hsync2 & Heq).
    exists st2, P2, p2. split; [done|]. split; [done|].
    rewrite Heq, Hw1.
    by rewrite (app_assoc (concat P1)), Hcat, <- app_assoc.
Qed.

(** X15: the idle-flush timer loses, adds, duplicates and reorders
    nothing.  Whatever the interleaving of printk calls, timer expiries and
    sender turns from power-on, as long as no switch overwrites an unread
    line, no character other than the line-feed reaches the slot capacity
    and the timer switches no empty slot, the bytes sent once the sender has
    caught up, followed by the bytes still in the write slot, are the input
    with every line-feed replaced by CR LF. *)
Theorem timer_keeps_stream (cfg : config) (hook : option printk_fn) (tx : Z)
    (evs : list drv_event) :
  0 < TELNET_LINES cfg ≤ 65536 →
  2 ≤ TELNET_LINE_SIZE cfg < 65536 →
  drv_quiet cfg tx evs (telnet_boot cfg hook) = true →
  ∃ st st' lb,
    drv_run cfg tx evs (telnet_boot cfg hook) = Some st ∧
    telnet_run cfg (Z.to_nat (send_lock st)) tx st = Some st' ∧
    send_lock st' = 0 ∧
    arr_get (line_in (telnet_rb st')) (l_bufs (telnet_rb st')) = Some lb ∧
    concat (wire st') ++ line_data lb = crlf (drv_outputs evs).
Proof.
  intros HN HL Hq.
  destruct (in_sync_drv_run cfg tx evs (telnet_boot cfg hook) [] [] HN HL)
    as (st & P & p & E & Hsync & Heq); [apply in_sync_boot; lia|done|].
  destruct (in_sync_drain cfg tx P st _ HN Hsync) as (st' & E' & Hsync' & Hw').
  pose proof Hsync as (_ & Hsem & _).
  destruct Hsync' as (_ & Hsem' & _ & _ & _ & lb & Hlb & Hd & _).
  exists st, st', lb. split; [done|].
  rewrite Hsem, Nat2Z.id. split; [done|]. split; [done|]. split; [done|].
  rewrite Hw', concat_app, <- app_assoc, Hd. by rewrite Heq.
Qed.

Lemma timer_keeps_stream_witness :
  let evs := [dev_out 111; dev_out 107; dev_out 10; dev_out 36; dev_out 32;
              dev_timer; dev_run; dev_timer; dev_out 108; dev_out 115;
              dev_out 10; dev_run; dev_out 36] in
  (0 < TELNET_LINES cfg_4_8 ≤ 65536 ∧
   2 ≤ TELNET_LINE_SIZE cfg_4_8 < 65536 ∧
   drv_quiet cfg_4_8 7 evs (telnet_boot cfg_4_8 None) = true) ∧
  ∃ st st' lb,
    drv_run cfg_4_8 7 evs (telnet_boot cfg_4_8 None) = Some st ∧
    telnet_run cfg_4_8 (Z.to_nat (send_lock st)) 7 st = Some st' ∧
    arr_get (line_in (telnet_rb st')) (l_bufs (telnet_rb st')) = Some lb ∧
    concat (wire st') ++ line_data lb
    = [111; 107; 13; 10; 36; 32; 108; 115; 13; 10; 36].
Proof.
  intros evs.
  assert (H1 : 0 < TELNET_LINES cfg_4_8 ≤ 65536) by (simpl; lia).
  assert (H2 : 2 ≤ TELNET_LINE_SIZE cfg_4_8 < 65536) by (simpl; lia).
  assert (H3 : drv_quiet cfg_4_8 7 evs (telnet_boot cfg_4_8 None) = true)
    by (vm_compute; reflexivity).
  split; [exact (conj H1 (conj H2 H3))|].
  destruct (timer_keeps_stream cfg_4_8 None 7 evs H1 H2 H3)
    as (st & st' & lb & E & E' & _ & Hlb & Hcat).
  exists st, st', lb. split; [exact E|]. split; [exact E'|].
  split; [exact Hlb|exact Hcat].
Defined.

(** ** What the printk hook touches *)

(** X16: the printk hook is defined on every character, returns it, and
    touches only the ring, the semaphore and the timer.  It gives the
    semaphore once and arms the timer exactly when the character is a
    line-feed or fills the slot to TELNET_LINE_SIZE - 1; otherwise the
    semaphore, the timer and both indices stay as they are. *)
Theorem telnet_console_out_wakes_on_switch (cfg : config) (c : Z) (st : telnet)
    (lb : line_buf) :
  2 ≤ TELNET_LINE_SIZE cfg < 65536 →
  rb_ok cfg (telnet_rb st) →
  arr_get (line_in (telnet_rb st)) (l_bufs (telnet_rb st)) = Some lb →
  send_lock st < UINT_MAX →
  ∃ st', telnet_console_out cfg c st = Some (c, st') ∧
    (wire st' = wire st ∧ client_cnx st' = client_cnx st ∧
     out_buf st' = out_buf st ∧ printk_hook st' = printk_hook st ∧
     orig_printk_hook st' = orig_printk_hook st ∧
     avail_queue st' = avail_queue st ∧ input_queue st' = input_queue st ∧
     unrefs st' = unrefs st ∧ puts st' = puts st) ∧
    (c = LF ∨ len lb + 1 = TELNET_LINE_SIZE cfg - 1 →
       send_lock st' = send_lock st + 1 ∧ send_timer st' = true ∧
       line_in (telnet_rb st') = rb_next cfg (line_in (telnet_rb st))) ∧
    (c ≠ LF ∧ len lb + 1 ≠ TELNET_LINE_SIZE cfg - 1 →
       send_lock st' = send_lock st ∧ send_timer st' = send_timer st ∧
       line_in (telnet_rb st') = line_in (telnet_rb st) ∧
       line_out (telnet_rb st') = line_out (telnet_rb st)).
Proof.
  intros HL [Hsh Hw] Hlb Hsem.
  pose proof (rb_shape_slot _ _ _ _ Hsh Hlb) as Hok. pose proof Hok as [Hb Hl].
  pose proof (Hw _ Hlb) as Hlt.
  rewrite (telnet_console_out_eq cfg c st lb) by (done || lia). cbv zeta.
  destruct (decide (c = LF ∨ len lb + 1 = TELNET_LINE_SIZE cfg - 1)) as [Hsw|Hpl].
  - rewrite telnet_rb_switch_eq
      by (apply rb_shape_insert; [done|by apply slot_terminate_ok]).
    simpl. eexists. split; [done|].
    rewrite telnet_rb_k_sem_give, send_lock_k_sem_give by done.
    unfold k_sem_give. destruct (decide _); simpl; [|done].
    split; [done|]. split; [done|]. intros [? ?]. tauto.
  - eexists. split; [done|]. simpl. split; [done|].
    split; [intros ?; tauto|done].
Qed.

Lemma telnet_console_out_wakes_on_switch_witness :
  let st := telnet_boot cfg_4_8 None in
  (2 ≤ TELNET_LINE_SIZE cfg_4_8 < 65536 ∧
   rb_ok cfg_4_8 (telnet_rb st) ∧
   arr_get (line_in (telnet_rb st)) (l_bufs (telnet_rb st))
     = Some (LineBuf (replicate 8 0) 0) ∧
   send_lock st < UINT_MAX) ∧
  ∃ st', telnet_console_out cfg_4_8 LF st = Some (LF, st') ∧
         send_lock st' = 1 ∧ send_timer st' = true.
Proof.
  intros st.
  assert (H1 : 2 ≤ TELNET_LINE_SIZE cfg_4_8 < 65536) by (simpl; lia).
  assert (H2 : rb_ok cfg_4_8 (telnet_rb st)) by (apply rb_zero_ok; simpl; lia).
  assert (H3 : arr_get (line_in (telnet_rb st)) (l_bufs (telnet_rb st))
               = Some (LineBuf (replicate 8 0) 0)) by reflexivity.
  assert (H4 : send_lock st < UINT_MAX) by reflexivity.
  split; [exact (conj H1 (conj H2 (conj H3 H4)))|].
  destruct (telnet_console_out_wakes_on_switch cfg_4_8 LF st _ H1 H2 H3 H4)
    as (st' & E & _ & Hsw & _).
  destruct (Hsw (or_introl eq_refl)) as (Hs & Ht & _).
  exists st'. split; [exact E|]. split; [exact Hs|exact Ht].
Defined.
